(** * OneTalk: phone registry, routing rules and user directory

    A shallow embedding of [onetalk_phone_manager.py] and
    [onetalk_multi_user_system.py].  Both classes open the same SQLite
    file ([onetalk_system.db]); the embedding keeps one [Store] record
    with a list of rows per table, in rowid (insertion) order, and runs
    every SQL statement of a method on it in program order.

    Conventions.
    - TEXT values are [string]s (the bytes of their UTF-8 encoding); the
      BINARY collation of SQLite is then [String.compare].
    - INTEGER values, and the [int] arguments bound to them, are [Z].
      An argument outside the 64-bit range of SQLite fails when it is
      bound; [register_phone_number], which handles that failure, is
      embedded with it.  The counters that the code adds to are taken
      to stay within the range.
    - REAL values are binary64 numbers ([spec_float]), with the
      rounding of the conversions and of the division.
    - Every method opens a connection of its own and commits before it
      returns.  [route_incoming_call] alone calls a method that writes
      while its own write is not committed; SQLite refuses the second
      write, and the embedding raises there as the program does.  The
      connection that the failed call leaves behind keeps the lock
      until Python collects it, and a call that writes before that
      fails without writing; what a method does is stated for a file
      that no such connection holds.
    - A nullable column, or a Python argument that may be [None], is an
      [option]; a comparison [col = NULL] is false, as in SQL.
    - What Python takes from its environment (uuid4, the clock) is an
      explicit argument of the embedded method.
    - [created_at] columns are written by SQLite and never read by the
      code; they are left out of the rows.
    - The webhook call and the Markdown log of [route_communication]
      do not touch the store and are not part of the state. *)

From Stdlib Require Import ZArith List String Ascii Bool Lia.
From Stdlib Require Import SpecFloat.
From Stdlib Require Import Sorting.Permutation Sorting.Sorted.
From Stdlib Require OrderedTypeEx.
From Stdlib Require Import DecimalString.
Import ListNotations.

Local Open Scope string_scope.
Local Open Scope Z_scope.

(** ** Python strings *)

Module Py.

(** [needle in hay] *)
Fixpoint contains (needle hay : string) : bool :=
  String.prefix needle hay ||
  match hay with
  | EmptyString => false
  | String _ rest => contains needle rest
  end.

(** Truthiness of a [str] and of an [Optional[str]]. *)
Definition truthy (s : string) : bool :=
  negb (String.eqb s "").

Definition truthy_opt (o : option string) : bool :=
  match o with
  | Some s => truthy s
  | None => false
  end.

(** [o or default] *)
Definition or_else (o : option string) (default : string) : string :=
  match o with
  | Some s => if truthy s then s else default
  | None => default
  end.

(** [s.replace(a, b)] for one-character [a] and [b]. *)
Fixpoint replace_char (a b : ascii) (s : string) : string :=
  match s with
  | EmptyString => EmptyString
  | String c rest =>
      String (if Ascii.eqb c a then b else c) (replace_char a b rest)
  end.

(** [any(w in s for w in words)] *)
Definition any_in (words : list string) (s : string) : bool :=
  existsb (fun w => contains w s) words.

(** The case mappings of [str] follow the Unicode tables of the
    interpreter; they are an interface here. *)
Class CaseOps := {
  lower : string -> string;
  upper : string -> string;
  title : string -> string
}.

(** The ASCII instance, enough to run the model on the phone numbers
    and keywords of the repository. *)
Definition is_upper (c : ascii) : bool :=
  ((65 <=? nat_of_ascii c) && (nat_of_ascii c <=? 90))%nat.
Definition is_lower (c : ascii) : bool :=
  ((97 <=? nat_of_ascii c) && (nat_of_ascii c <=? 122))%nat.
Definition to_lower (c : ascii) : ascii :=
  if is_upper c then ascii_of_nat (nat_of_ascii c + 32) else c.
Definition to_upper (c : ascii) : ascii :=
  if is_lower c then ascii_of_nat (nat_of_ascii c - 32) else c.

Fixpoint map_string (f : ascii -> ascii) (s : string) : string :=
  match s with
  | EmptyString => EmptyString
  | String c rest => String (f c) (map_string f rest)
  end.

Fixpoint title_from (in_word : bool) (s : string) : string :=
  match s with
  | EmptyString => EmptyString
  | String c rest =>
      let cased := is_upper c || is_lower c in
      String (if in_word then to_lower c else to_upper c)
             (title_from cased rest)
  end.

#[global] Instance ascii_case : CaseOps := {
  lower := map_string to_lower;
  upper := map_string to_upper;
  title := title_from false
}.

End Py.

(** ** SQL fragments *)

Module Sql.

Definition str_lt (a b : string) : bool := String.ltb a b.

(** The range of INTEGER.  Binding a Python [int] outside it raises
    [OverflowError] before the statement runs. *)
Definition fits_int64 (z : Z) : bool :=
  (- 2 ^ 63 <=? z)%Z && (z <? 2 ^ 63)%Z.

(** REAL values are binary64 numbers.  An INTEGER operand of an
    arithmetic operator that has a REAL operand is converted first,
    rounding to nearest even, and so is the result of the operator. *)
Definition real_of_int (z : Z) : spec_float := binary_normalize 53 1024 z 0 false.

Definition real_div (x y : spec_float) : spec_float := SFdiv 53 1024 x y.

Definition real_lt (x y : spec_float) : bool := SFltb x y.

(** [col = ?] on a nullable column and a possibly-[None] argument. *)
Definition eq_null (col arg : option string) : bool :=
  match col, arg with
  | Some a, Some b => String.eqb a b
  | _, _ => false
  end.

Section Limit1.
Context {A : Type} (before : A -> A -> bool).

(** [ORDER BY ... LIMIT 1] over the rows in scan order: the first
    row that no other row strictly precedes.  SQL leaves open which of
    several rows equal on the keys comes out; the properties proved
    below depend on the keys only. *)
Fixpoint limit1 (rows : list A) : option A :=
  match rows with
  | [] => None
  | r :: rest =>
      match limit1 rest with
      | Some m => if before m r then Some m else Some r
      | None => Some r
      end
  end.

(** [ORDER BY ...] as a stable insertion sort: a row goes in front
    of the first row that does not strictly precede it. *)
Fixpoint insert_row (r : A) (sorted : list A) : list A :=
  match sorted with
  | [] => [r]
  | x :: rest =>
      if before x r then x :: insert_row r rest else r :: sorted
  end.

Fixpoint order_by (rows : list A) : list A :=
  match rows with
  | [] => []
  | r :: rest => insert_row r (order_by rest)
  end.

End Limit1.

End Sql.

(** ** Tables *)

Module User.
Record row := {
  id : string;
  name : string;
  department : string;
  phone_number : option string;
  role : string;
  status : string
}.
End User.

Module Department.
(** [phone_numbers] holds a JSON array; the row keeps the list it encodes. *)
Record row := {
  id : string;
  name : string;
  lead_user_id : option string;
  phone_numbers : list string
}.
End Department.

Module Communication.
Record row := {
  id : string;
  timestamp : string;
  from_number : string;
  to_number : string;
  user_id : option string;
  department_id : option string;
  type : string;
  content : string;
  status : string;
  duration : option Z
}.
End Communication.

Module RoutingRule.
Record row := {
  id : string;
  priority : Z;
  condition_type : string;
  condition_value : string;
  target_department : string;
  target_user : option string;
  is_active : bool
}.
End RoutingRule.

Module PhoneNumber.
Record row := {
  id : string;
  phone_number : string;
  department_id : option string;
  user_id : option string;
  status : string;
  type : string;
  priority : Z;
  max_concurrent_calls : Z;
  current_calls : Z
}.
End PhoneNumber.

Module CallRouting.
Record row := {
  id : string;
  from_number : string;
  to_number : string;
  routed_to_number : option string;
  routed_to_user : option string;
  department : option string;
  routing_reason : option string;
  timestamp : string;
  call_duration : option Z;
  status : string
}.
End CallRouting.

Module PhoneStats.
Record row := {
  id : string;
  phone_number : string;
  date : string;
  total_calls : Z;
  total_sms : Z;
  total_duration : Z;
  department_breakdown : option string
}.
End PhoneStats.

Record Store := {
users : list User.row;
departments : list Department.row;
communications : list Communication.row;
routing_rules : list RoutingRule.row;
phone_numbers : list PhoneNumber.row;
call_routing : list CallRouting.row;
phone_stats : list PhoneStats.row
}.

Definition empty_store : Store :=
{| users := []; departments := []; communications := [];
   routing_rules := []; phone_numbers := []; call_routing := [];
   phone_stats := [] |}.

Definition set_users (st : Store) (v : list User.row) : Store :=
{| users := v; departments := departments st;
   communications := communications st; routing_rules := routing_rules st;
   phone_numbers := phone_numbers st; call_routing := call_routing st;
   phone_stats := phone_stats st |}.

Definition set_departments (st : Store) (v : list Department.row) : Store :=
{| users := users st; departments := v;
   communications := communications st; routing_rules := routing_rules st;
   phone_numbers := phone_numbers st; call_routing := call_routing st;
   phone_stats := phone_stats st |}.

Definition set_communications (st : Store) (v : list Communication.row) : Store :=
{| users := users st; departments := departments st;
   communications := v; routing_rules := routing_rules st;
   phone_numbers := phone_numbers st; call_routing := call_routing st;
   phone_stats := phone_stats st |}.

Definition set_routing_rules (st : Store) (v : list RoutingRule.row) : Store :=
{| users := users st; departments := departments st;
   communications := communications st; routing_rules := v;
   phone_numbers := phone_numbers st; call_routing := call_routing st;
   phone_stats := phone_stats st |}.

Definition set_phone_numbers (st : Store) (v : list PhoneNumber.row) : Store :=
{| users := users st; departments := departments st;
   communications := communications st; routing_rules := routing_rules st;
   phone_numbers := v; call_routing := call_routing st;
   phone_stats := phone_stats st |}.

Definition set_call_routing (st : Store) (v : list CallRouting.row) : Store :=
{| users := users st; departments := departments st;
   communications := communications st; routing_rules := routing_rules st;
   phone_numbers := phone_numbers st; call_routing := v;
   phone_stats := phone_stats st |}.

Definition set_phone_stats (st : Store) (v : list PhoneStats.row) : Store :=
{| users := users st; departments := departments st;
   communications := communications st; routing_rules := routing_rules st;
   phone_numbers := phone_numbers st; call_routing := call_routing st;
   phone_stats := v |}.

(** A method either returns or raises.  Two exceptions escape from the
  embedded methods: the [sqlite3.IntegrityError] of a plain [INSERT]
  on a taken primary key, and the [sqlite3.OperationalError]
  ([database is locked]) of a statement that writes while another
  connection of the process holds a write it has not committed.  A
  method that raises has committed nothing by then, and the
  connection it leaves behind is rolled back: the store of a raised
  call is the store it started from. *)
Inductive exn := IntegrityError | OperationalError.

Inductive outcome (A : Type) :=
| Returned (a : A)
| Raised (e : exn).
Arguments Returned {A} a.
Arguments Raised {A} e.

(** ** [onetalk_multi_user_system.py]: class [OneTalkSystem] *)

Module OneTalkSystem.
Section Methods.
Context `{Py.CaseOps}.

(** [INSERT OR REPLACE INTO departments]: the row holding the key goes,
    the new row is appended. *)
Definition create_department (st : Store) (dept_id name : string)
    (lead_user_id : option string) (phone_numbers : option (list string))
    : Store * string :=
  let phone_nums_json := match phone_numbers with Some l => l | None => [] end in
  let kept := filter (fun d => negb (String.eqb (Department.id d) dept_id))
                     (departments st) in
  let new := {| Department.id := dept_id; Department.name := name;
                Department.lead_user_id := lead_user_id;
                Department.phone_numbers := phone_nums_json |} in
  (set_departments st (kept ++ [new]),
   "✅ Department " ++ name ++ " created")%string.

Definition update_department_membership (st : Store) (department user_id : string)
    : Store :=
  let result := find (fun d => String.eqb (Department.id d) department)
                     (departments st) in
  match result with
  | Some _ => st
  | None =>
      fst (create_department st department
             (Py.title (Py.replace_char "_" " " department)) None None)
  end.

(** [status] is not among the inserted columns: the new row takes the
    column default. *)
Definition add_user (st : Store) (user_id name department : string)
    (phone_number : option string) (role : string) : Store * string :=
  let kept := filter (fun u => negb (String.eqb (User.id u) user_id)) (users st) in
  let new := {| User.id := user_id; User.name := name;
                User.department := department;
                User.phone_number := phone_number; User.role := role;
                User.status := "available" |} in
  let st1 := set_users st (kept ++ [new]) in
  let st2 := update_department_membership st1 department user_id in
  (st2, "✅ User " ++ name ++ " added to " ++ department ++ " department")%string.

Definition check_department_condition (condition_value from_number : string) : bool :=
  Py.contains (Py.lower condition_value) (Py.lower from_number).

(** [SELECT ... FROM routing_rules WHERE is_active = TRUE ORDER BY priority ASC] *)
Definition fetch_active_rules (st : Store) : list RoutingRule.row :=
  Sql.order_by
    (fun a b => RoutingRule.priority a <? RoutingRule.priority b)
    (filter RoutingRule.is_active (routing_rules st)).

(** The body of the [for] loop: does this rule return? *)
Definition rule_matches (from_number to_number : string) (r : RoutingRule.row) : bool :=
  if String.eqb (RoutingRule.condition_type r) "phone_pattern" then
    Py.contains (RoutingRule.condition_value r) from_number
    || Py.contains (RoutingRule.condition_value r) to_number
  else if String.eqb (RoutingRule.condition_type r) "time_based" then
    false
  else if String.eqb (RoutingRule.condition_type r) "department" then
    check_department_condition (RoutingRule.condition_value r) from_number
  else false.

Fixpoint scan_rules (from_number to_number : string) (rules : list RoutingRule.row)
    : option string * option string :=
  match rules with
  | [] => (None, None)
  | r :: rest =>
      if rule_matches from_number to_number r
      then (Some (RoutingRule.target_department r), RoutingRule.target_user r)
      else scan_rules from_number to_number rest
  end.

Definition apply_routing_rules (st : Store) (from_number to_number message_type : string)
    : option string * option string :=
  scan_rules from_number to_number (fetch_active_rules st).

(** One group of [GROUP BY c.department_id, c.user_id]. *)
Record customer_group := {
  g_department : option string;
  g_user : option string;
  interaction_count : Z;
  g_timestamp : string
}.

Definition opt_eqb (a b : option string) : bool :=
  match a, b with
  | Some x, Some y => String.eqb x y
  | None, None => true
  | _, _ => false
  end.

Definition same_group (c : Communication.row) (g : customer_group) : bool :=
  opt_eqb (Communication.department_id c) (g_department g)
  && opt_eqb (Communication.user_id c) (g_user g).

(** SQL leaves open on which row of a group the bare column
    [c.timestamp] is evaluated, and in which order the groups reach the
    [ORDER BY].  SQLite sorts the rows for the [GROUP BY], keeping rowid
    order among the rows of a group, evaluates a bare column on the
    first row of each group, and gives the terms of the [GROUP BY] the
    directions of the terms of the [ORDER BY] at the same positions:
    here both are [DESC], and NULL comes last.  The model follows it. *)
Fixpoint add_to_groups (c : Communication.row) (groups : list customer_group)
    : list customer_group :=
  match groups with
  | [] => [ {| g_department := Communication.department_id c;
               g_user := Communication.user_id c;
               interaction_count := 1;
               g_timestamp := Communication.timestamp c |} ]
  | g :: rest =>
      if same_group c g
      then {| g_department := g_department g; g_user := g_user g;
              interaction_count := interaction_count g + 1;
              g_timestamp := g_timestamp g |} :: rest
      else g :: add_to_groups c rest
  end.

Definition group_rows (rows : list Communication.row) : list customer_group :=
  fold_left (fun groups c => add_to_groups c groups) rows [].

(** NULL is below every text. *)
Definition opt_lt (a b : option string) : bool :=
  match a, b with
  | None, Some _ => true
  | Some x, Some y => Sql.str_lt x y
  | _, None => false
  end.

(** The order in which the groups come out of the [GROUP BY]:
    [department_id DESC, user_id DESC]. *)
Definition key_before (a b : customer_group) : bool :=
  opt_lt (g_department b) (g_department a)
  || (opt_eqb (g_department a) (g_department b)
      && opt_lt (g_user b) (g_user a)).

Definition grouped (rows : list Communication.row) : list customer_group :=
  Sql.order_by key_before (group_rows rows).

(** [ORDER BY interaction_count DESC, c.timestamp DESC] *)
Definition group_before (a b : customer_group) : bool :=
  (interaction_count b <? interaction_count a)
  || ((interaction_count a =? interaction_count b)
      && Sql.str_lt (g_timestamp b) (g_timestamp a)).

Definition find_existing_customer (st : Store) (phone_number : string)
    : option customer_group :=
  Sql.limit1 group_before
    (grouped
       (filter (fun c => String.eqb (Communication.from_number c) phone_number
                         || String.eqb (Communication.to_number c) phone_number)
               (communications st))).

Definition default_classification (st : Store) (from_number to_number content : string)
    : option string * option string :=
  match find_existing_customer st from_number with
  | Some existing_customer =>
      (g_department existing_customer, g_user existing_customer)
  | None =>
      let content_lower := Py.lower content in
      if Py.any_in ["credit"; "loan"; "financing"; "approval"] content_lower then
        (Some "credit_analysis", None)
      else if Py.any_in ["transport"; "vehicle"; "shipping"; "delivery"] content_lower then
        (Some "vehicle_transport", None)
      else if Py.any_in ["sales"; "buy"; "purchase"; "deal"] content_lower then
        (Some "sales", None)
      else
        (Some "customer_service", None)
  end.

(** [WHERE department = ? AND status = 'available'] *)
Definition available_in (department : option string) (u : User.row) : bool :=
  Sql.eq_null (Some (User.department u)) department
  && String.eqb (User.status u) "available".

(** [ORDER BY role DESC, name ASC] *)
Definition user_before (a b : User.row) : bool :=
  Sql.str_lt (User.role b) (User.role a)
  || (String.eqb (User.role a) (User.role b)
      && Sql.str_lt (User.name a) (User.name b)).

Definition find_available_user (st : Store) (department preferred_user : option string)
    : option string :=
  let preferred_hit :=
    match preferred_user with
    | Some p =>
        Py.truthy p
        && existsb (fun u => String.eqb (User.id u) p && available_in department u)
                   (users st)
    | None => false
    end in
  if preferred_hit then preferred_user
  else
    match Sql.limit1 user_before (filter (available_in department) (users st)) with
    | Some result => Some (User.id result)
    | None => None
    end.

(** [uuid4()] and [utcnow()] come in as [comm_id] and [timestamp]. *)
Definition create_communication_record (st : Store)
    (from_number to_number : string) (user_id dept_id : option string)
    (msg_type content : string) (comm_id timestamp : string)
    : outcome (Store * string) :=
  if existsb (fun c => String.eqb (Communication.id c) comm_id) (communications st)
  then Raised IntegrityError
  else
    let new := {| Communication.id := comm_id;
                  Communication.timestamp := timestamp;
                  Communication.from_number := from_number;
                  Communication.to_number := to_number;
                  Communication.user_id := user_id;
                  Communication.department_id := dept_id;
                  Communication.type := msg_type;
                  Communication.content := content;
                  Communication.status := "active";
                  Communication.duration := None |} in
    Returned (set_communications st (communications st ++ [new]), comm_id).

(** [UPDATE users SET status = ? WHERE id = ?] *)
Definition update_user_status (st : Store) (user_id : option string) (status : string)
    : Store :=
  set_users st
    (map (fun u =>
            if Sql.eq_null (Some (User.id u)) user_id
            then {| User.id := User.id u; User.name := User.name u;
                    User.department := User.department u;
                    User.phone_number := User.phone_number u;
                    User.role := User.role u; User.status := status |}
            else u)
         (users st)).

Definition route_communication (st : Store) (comm_id : string)
    (user_id department : option string) (msg_type content : string) : Store :=
  if String.eqb msg_type "call"
  then update_user_status st user_id "busy"
  else st.

Record classification := {
  communication_id : string;
  assigned_user : option string;
  c_department : option string;
  routing_method : string
}.

Definition classify_incoming_communication (st : Store)
    (from_number to_number message_type content : string)
    (comm_id timestamp : string) : outcome (Store * classification) :=
  let '(target_dept, target_user) :=
    let '(d, u) := apply_routing_rules st from_number to_number message_type in
    if negb (Py.truthy_opt d)
    then default_classification st from_number to_number content
    else (d, u) in
  let assigned_user := find_available_user st target_dept target_user in
  match create_communication_record st from_number to_number assigned_user
          target_dept message_type content comm_id timestamp with
  | Raised e => Raised e
  | Returned (st1, comm_id) =>
      let st2 := route_communication st1 comm_id assigned_user target_dept
                   message_type content in
      Returned (st2,
                {| communication_id := comm_id;
                   assigned_user := assigned_user;
                   c_department := target_dept;
                   routing_method :=
                     if Py.truthy_opt target_dept then "rules" else "default" |})
  end.

(** One entry of the lists that [get_department_status] returns. *)
Record user_status := {
  us_user_id : string;
  us_name : string;
  us_status : string;
  us_role : string
}.

Definition status_entry (u : User.row) : user_status :=
  {| us_user_id := User.id u; us_name := User.name u;
     us_status := User.status u; us_role := User.role u |}.

(** [FROM users u JOIN departments d ON u.department = d.id] *)
Definition users_with_department (st : Store) : list (User.row * Department.row) :=
  flat_map
    (fun u => map (fun d => (u, d))
                  (filter (fun d => String.eqb (User.department u) (Department.id d))
                          (departments st)))
    (users st).

(** [ORDER BY u.role DESC, u.name ASC] *)
Definition status_before (a b : User.row * Department.row) : bool :=
  user_before (fst a) (fst b).

(** [ORDER BY d.name, u.role DESC, u.name ASC] *)
Definition status_before_all (a b : User.row * Department.row) : bool :=
  Sql.str_lt (Department.name (snd a)) (Department.name (snd b))
  || (String.eqb (Department.name (snd a)) (Department.name (snd b))
      && user_before (fst a) (fst b)).

(** [status_report[dept_name].append(...)], after the key is created
    when it is missing; the dict keeps its keys in insertion order. *)
Fixpoint report_add (dept_name : string) (entry : user_status)
    (status_report : list (string * list user_status))
    : list (string * list user_status) :=
  match status_report with
  | [] => [(dept_name, [entry])]
  | (k, v) :: rest =>
      if String.eqb k dept_name then (k, (v ++ [entry])%list) :: rest
      else (k, v) :: report_add dept_name entry rest
  end.

Definition get_department_status (st : Store) (department : option string)
    : list (string * list user_status) :=
  let results :=
    if Py.truthy_opt department then
      Sql.order_by status_before
        (filter (fun r => Sql.eq_null (Some (User.department (fst r))) department)
                (users_with_department st))
    else Sql.order_by status_before_all (users_with_department st) in
  fold_left
    (fun status_report r =>
       report_add (Department.name (snd r)) (status_entry (fst r)) status_report)
    results [].

(** [uuid4()] comes in as [rule_id]; [is_active] takes its default. *)
Definition add_routing_rule (st : Store)
    (condition_type condition_value target_department : string)
    (target_user : option string) (priority : Z) (rule_id : string)
    : outcome (Store * string) :=
  if existsb (fun r => String.eqb (RoutingRule.id r) rule_id) (routing_rules st)
  then Raised IntegrityError
  else
    let new := {| RoutingRule.id := rule_id;
                  RoutingRule.priority := priority;
                  RoutingRule.condition_type := condition_type;
                  RoutingRule.condition_value := condition_value;
                  RoutingRule.target_department := target_department;
                  RoutingRule.target_user := target_user;
                  RoutingRule.is_active := true |} in
    Returned (set_routing_rules st (routing_rules st ++ [new]),
              ("✅ Routing rule added: " ++ condition_type ++ "=" ++ condition_value
               ++ " → " ++ target_department)%string).

End Methods.
End OneTalkSystem.

(** ** [onetalk_phone_manager.py]: class [OneTalkPhoneManager] *)

Module OneTalkPhoneManager.
Section Methods.
Context `{Py.CaseOps}.

(** [INSERT OR IGNORE INTO phone_stats (id, phone_number, date)]: the
    primary key [id] and [UNIQUE(phone_number, date)] both make the
    statement a no-op. *)
Definition stats_conflict (id phone_number date : string) (s : PhoneStats.row) : bool :=
  String.eqb (PhoneStats.id s) id
  || (String.eqb (PhoneStats.phone_number s) phone_number
      && String.eqb (PhoneStats.date s) date).

Definition insert_or_ignore_stats (st : Store) (phone_number today : string) : Store :=
  let id := (phone_number ++ "_" ++ today)%string in
  if existsb (stats_conflict id phone_number today) (phone_stats st)
  then st
  else set_phone_stats st
         (phone_stats st ++
          [ {| PhoneStats.id := id; PhoneStats.phone_number := phone_number;
               PhoneStats.date := today; PhoneStats.total_calls := 0;
               PhoneStats.total_sms := 0; PhoneStats.total_duration := 0;
               PhoneStats.department_breakdown := None |} ]).

Definition update_phone_stats (st : Store) (phone_number : string)
    (new_registration : bool) (today : string) : Store :=
  if new_registration then insert_or_ignore_stats st phone_number today else st.

(** [uuid4()] comes in as [phone_id], the local date as [today].
    Binding [priority] or [max_concurrent] outside the range of INTEGER
    raises [OverflowError] before the [INSERT] runs, and the handler of
    [Exception] returns with its text.  The [INSERT] violates
    [PRIMARY KEY(id)] or [UNIQUE(phone_number)] when either value is
    taken; the handler of [sqlite3.IntegrityError] returns before
    anything is written. *)
Definition register_phone_number (st : Store) (phone_number : string)
    (department_id user_id : option string) (phone_type : string)
    (priority max_concurrent : Z) (phone_id today : string) : Store * string :=
  if negb (Sql.fits_int64 priority && Sql.fits_int64 max_concurrent)
  then (st, "❌ Error registering phone: Python int too large to convert to SQLite INTEGER")
  else if existsb (fun p => String.eqb (PhoneNumber.id p) phone_id
                       || String.eqb (PhoneNumber.phone_number p) phone_number)
             (phone_numbers st)
  then (st, "❌ Phone " ++ phone_number ++ " already registered")%string
  else
    let new := {| PhoneNumber.id := phone_id;
                  PhoneNumber.phone_number := phone_number;
                  PhoneNumber.department_id := department_id;
                  PhoneNumber.user_id := user_id;
                  PhoneNumber.status := "available";
                  PhoneNumber.type := phone_type;
                  PhoneNumber.priority := priority;
                  PhoneNumber.max_concurrent_calls := max_concurrent;
                  PhoneNumber.current_calls := 0 |} in
    let st1 := set_phone_numbers st (phone_numbers st ++ [new]) in
    let st2 := update_phone_stats st1 phone_number true today in
    (st2,
     "✅ Phone " ++ phone_number ++ " registered for " ++
     Py.or_else department_id "general use")%string.

(** [status = 'available' AND current_calls < max_concurrent_calls AND priority >= ?] *)
Definition has_capacity (priority_min : Z) (p : PhoneNumber.row) : bool :=
  String.eqb (PhoneNumber.status p) "available"
  && (PhoneNumber.current_calls p <? PhoneNumber.max_concurrent_calls p)
  && (priority_min <=? PhoneNumber.priority p).

(** [ORDER BY priority DESC, current_calls ASC] *)
Definition phone_before (a b : PhoneNumber.row) : bool :=
  (PhoneNumber.priority b <? PhoneNumber.priority a)
  || ((PhoneNumber.priority a =? PhoneNumber.priority b)
      && (PhoneNumber.current_calls a <? PhoneNumber.current_calls b)).

Definition in_department (department_id : string) (p : PhoneNumber.row) : bool :=
  Sql.eq_null (PhoneNumber.department_id p) (Some department_id).

(** [department_id IS NULL OR department_id = 'general'] *)
Definition is_general (p : PhoneNumber.row) : bool :=
  match PhoneNumber.department_id p with
  | None => true
  | Some d => String.eqb d "general"
  end.

Definition general_phone (st : Store) (priority_min : Z) : option string :=
  match Sql.limit1 phone_before
          (filter (fun p => is_general p && has_capacity priority_min p)
                  (phone_numbers st)) with
  | Some result => Some (PhoneNumber.phone_number result)
  | None => None
  end.

Definition get_available_phone (st : Store) (department_id : option string)
    (priority_min : Z) : option string :=
  match department_id with
  | Some d =>
      if Py.truthy d then
        match Sql.limit1 phone_before
                (filter (fun p => in_department d p && has_capacity priority_min p)
                        (phone_numbers st)) with
        | Some result => Some (PhoneNumber.phone_number result)
        | None => general_phone st priority_min
        end
      else general_phone st priority_min
  | None => general_phone st priority_min
  end.

(** [SELECT department_id FROM phone_numbers
     WHERE phone_number = ? AND department_id IS NOT NULL], first row. *)
Definition department_of_number (st : Store) (to_number : string) : option string :=
  match find (fun p => String.eqb (PhoneNumber.phone_number p) to_number
                       && match PhoneNumber.department_id p with
                          | Some _ => true
                          | None => false
                          end)
             (phone_numbers st) with
  | Some p => PhoneNumber.department_id p
  | None => None
  end.

Definition determine_target_department (st : Store) (to_number : string)
    (department_hint : option string) : string :=
  let by_number :=
    match department_of_number st to_number with
    | Some d => d
    | None =>
        if Py.contains "SALES" (Py.upper to_number) then "sales"
        else if Py.contains "CREDIT" (Py.upper to_number) then "credit_analysis"
        else if Py.contains "TRANSPORT" (Py.upper to_number) then "vehicle_transport"
        else if Py.contains "SUPPORT" (Py.upper to_number) then "customer_service"
        else "general"
    end in
  match department_hint with
  | Some hint => if Py.truthy hint then hint else by_number
  | None => by_number
  end.

Definition get_voicemail_number : string := "+1-555-VOICE-MAIL".

(** [current_calls * 1.0 / max_concurrent_calls]: the product with
    [1.0] is the count as a REAL, the divisor is converted likewise and
    the quotient is the REAL quotient; it is NULL on a zero divisor,
    and NULL sorts first. *)
Definition load (p : PhoneNumber.row) : option spec_float :=
  if PhoneNumber.max_concurrent_calls p =? 0 then None
  else Some (Sql.real_div (Sql.real_of_int (PhoneNumber.current_calls p))
                          (Sql.real_of_int (PhoneNumber.max_concurrent_calls p))).

Definition load_lt (a b : PhoneNumber.row) : bool :=
  match load a, load b with
  | None, Some _ => true
  | Some x, Some y => Sql.real_lt x y
  | _, None => false
  end.

(** [ORDER BY priority DESC, (current_calls * 1.0 / max_concurrent_calls) ASC] *)
Definition overflow_before (a b : PhoneNumber.row) : bool :=
  (PhoneNumber.priority b <? PhoneNumber.priority a)
  || ((PhoneNumber.priority a =? PhoneNumber.priority b) && load_lt a b).

Definition is_available (p : PhoneNumber.row) : bool :=
  String.eqb (PhoneNumber.status p) "available".

Definition handle_overflow_routing (st : Store) (department : string)
    : string * string :=
  match Sql.limit1 load_lt
          (filter (fun p => in_department department p && is_available p)
                  (phone_numbers st)) with
  | Some result => (PhoneNumber.phone_number result, "overflow_same_department")
  | None =>
      match Sql.limit1 overflow_before (filter is_available (phone_numbers st)) with
      | Some result => (PhoneNumber.phone_number result, "overflow_cross_department")
      | None => (get_voicemail_number, "overflow_voicemail")
      end
  end.

Definition set_current_calls (p : PhoneNumber.row) (v : Z) : PhoneNumber.row :=
  {| PhoneNumber.id := PhoneNumber.id p;
     PhoneNumber.phone_number := PhoneNumber.phone_number p;
     PhoneNumber.department_id := PhoneNumber.department_id p;
     PhoneNumber.user_id := PhoneNumber.user_id p;
     PhoneNumber.status := PhoneNumber.status p;
     PhoneNumber.type := PhoneNumber.type p;
     PhoneNumber.priority := PhoneNumber.priority p;
     PhoneNumber.max_concurrent_calls := PhoneNumber.max_concurrent_calls p;
     PhoneNumber.current_calls := v |}.

Definition set_counters (s : PhoneStats.row) (calls sms duration : Z) : PhoneStats.row :=
  {| PhoneStats.id := PhoneStats.id s;
     PhoneStats.phone_number := PhoneStats.phone_number s;
     PhoneStats.date := PhoneStats.date s;
     PhoneStats.total_calls := calls;
     PhoneStats.total_sms := sms;
     PhoneStats.total_duration := duration;
     PhoneStats.department_breakdown := PhoneStats.department_breakdown s |}.

(** [WHERE phone_number = ? AND date = ?] on [phone_stats] *)
Definition stats_of (phone_number : option string) (date : string)
    (s : PhoneStats.row) : bool :=
  Sql.eq_null (Some (PhoneStats.phone_number s)) phone_number
  && String.eqb (PhoneStats.date s) date.

Definition increment_phone_usage (st : Store) (phone_number usage_type today : string)
    : Store :=
  let st1 :=
    if String.eqb usage_type "call" then
      set_phone_numbers st
        (map (fun p => if String.eqb (PhoneNumber.phone_number p) phone_number
                       then set_current_calls p (PhoneNumber.current_calls p + 1)
                       else p)
             (phone_numbers st))
    else st in
  if String.eqb usage_type "call" then
    let st2 := insert_or_ignore_stats st1 phone_number today in
    set_phone_stats st2
      (map (fun s => if stats_of (Some phone_number) today s
                     then set_counters s (PhoneStats.total_calls s + 1)
                            (PhoneStats.total_sms s) (PhoneStats.total_duration s)
                     else s)
           (phone_stats st2))
  else if String.eqb usage_type "sms" then
    let st2 := insert_or_ignore_stats st1 phone_number today in
    set_phone_stats st2
      (map (fun s => if stats_of (Some phone_number) today s
                     then set_counters s (PhoneStats.total_calls s)
                            (PhoneStats.total_sms s + 1) (PhoneStats.total_duration s)
                     else s)
           (phone_stats st2))
  else st1.

(** [increment_phone_usage] as [route_incoming_call] calls it: after
    the [INSERT] of the routing row and before its [commit].  The
    connection of the caller holds the write lock of the file, so the
    first statement that writes through the connection opened here
    waits out its timeout and raises [sqlite3.OperationalError]; a
    usage type that runs no statement returns. *)
Definition increment_phone_usage_locked (st : Store)
    (phone_number usage_type today : string) : outcome Store :=
  if String.eqb usage_type "call" then Raised OperationalError
  else if String.eqb usage_type "sms" then Raised OperationalError
  else Returned st.

Record route := {
  route_id : string;
  r_from_number : string;
  r_to_number : string;
  routed_to : string;
  r_department : string;
  r_routing_reason : string;
  r_timestamp : string
}.

(** [uuid4()], [utcnow()] and the local date come in as [route_id],
    [timestamp] and [today].  The three lookups run before the
    connection of the method is opened.  The exception of the locked
    increment leaves the method before [conn.commit()], and the routing
    row goes with the connection. *)
Definition route_incoming_call (st : Store) (from_number to_number : string)
    (department_hint : option string) (route_id timestamp today : string)
    : outcome (Store * route) :=
  let target_department := determine_target_department st to_number department_hint in
  let '(routed_phone, routing_reason) :=
    match get_available_phone st (Some target_department) 1 with
    | Some phone =>
        if Py.truthy phone then (phone, "normal_routing")
        else handle_overflow_routing st target_department
    | None => handle_overflow_routing st target_department
    end in
  if existsb (fun r => String.eqb (CallRouting.id r) route_id) (call_routing st)
  then Raised IntegrityError
  else
    let new := {| CallRouting.id := route_id;
                  CallRouting.from_number := from_number;
                  CallRouting.to_number := to_number;
                  CallRouting.routed_to_number := Some routed_phone;
                  CallRouting.routed_to_user := None;
                  CallRouting.department := Some target_department;
                  CallRouting.routing_reason := Some routing_reason;
                  CallRouting.timestamp := timestamp;
                  CallRouting.call_duration := None;
                  CallRouting.status := "active" |} in
    let st1 := set_call_routing st (call_routing st ++ [new]) in
    match increment_phone_usage_locked st1 routed_phone "call" today with
    | Raised e => Raised e
    | Returned st2 =>
        Returned (st2,
                  {| route_id := route_id; r_from_number := from_number;
                     r_to_number := to_number; routed_to := routed_phone;
                     r_department := target_department;
                     r_routing_reason := routing_reason;
                     r_timestamp := timestamp |})
    end.

Definition complete_route (r : CallRouting.row) (duration_seconds : Z) : CallRouting.row :=
  {| CallRouting.id := CallRouting.id r;
     CallRouting.from_number := CallRouting.from_number r;
     CallRouting.to_number := CallRouting.to_number r;
     CallRouting.routed_to_number := CallRouting.routed_to_number r;
     CallRouting.routed_to_user := CallRouting.routed_to_user r;
     CallRouting.department := CallRouting.department r;
     CallRouting.routing_reason := CallRouting.routing_reason r;
     CallRouting.timestamp := CallRouting.timestamp r;
     CallRouting.call_duration := Some duration_seconds;
     CallRouting.status := "completed" |}.

(** The local date at the time of the call comes in as [today]. *)
Definition end_call (st : Store) (route_id : string) (duration_seconds : Z)
    (today : string) : Store :=
  match find (fun r => String.eqb (CallRouting.id r) route_id) (call_routing st) with
  | Some result =>
      let routed_phone := CallRouting.routed_to_number result in
      let st1 :=
        set_call_routing st
          (map (fun r => if String.eqb (CallRouting.id r) route_id
                         then complete_route r duration_seconds else r)
               (call_routing st)) in
      let st2 :=
        set_phone_numbers st1
          (map (fun p => if Sql.eq_null (Some (PhoneNumber.phone_number p)) routed_phone
                         then set_current_calls p
                                (Z.max 0 (PhoneNumber.current_calls p - 1))
                         else p)
               (phone_numbers st1)) in
      set_phone_stats st2
        (map (fun s => if stats_of routed_phone today s
                       then set_counters s (PhoneStats.total_calls s)
                              (PhoneStats.total_sms s)
                              (PhoneStats.total_duration s + duration_seconds)
                       else s)
             (phone_stats st2))
  | None => st
  end.

(** [UPDATE phone_numbers SET department_id = ? WHERE phone_number = ?]
    and the test of [cursor.rowcount]. *)
Definition set_department (p : PhoneNumber.row) (department_id : option string)
    : PhoneNumber.row :=
  {| PhoneNumber.id := PhoneNumber.id p;
     PhoneNumber.phone_number := PhoneNumber.phone_number p;
     PhoneNumber.department_id := department_id;
     PhoneNumber.user_id := PhoneNumber.user_id p;
     PhoneNumber.status := PhoneNumber.status p;
     PhoneNumber.type := PhoneNumber.type p;
     PhoneNumber.priority := PhoneNumber.priority p;
     PhoneNumber.max_concurrent_calls := PhoneNumber.max_concurrent_calls p;
     PhoneNumber.current_calls := PhoneNumber.current_calls p |}.

Definition assign_phone_to_department (st : Store) (phone_number department_id : string)
    : Store * string :=
  let rowcount :=
    List.length (filter (fun p => String.eqb (PhoneNumber.phone_number p) phone_number)
                        (phone_numbers st)) in
  if (0 <? Z.of_nat rowcount) then
    (set_phone_numbers st
       (map (fun p => if String.eqb (PhoneNumber.phone_number p) phone_number
                      then set_department p (Some department_id) else p)
            (phone_numbers st)),
     "✅ Phone " ++ phone_number ++ " assigned to " ++ department_id)%string
  else (st, "❌ Phone " ++ phone_number ++ " not found")%string.

End Methods.
End OneTalkPhoneManager.

(** ** Sequences of calls to the phone manager *)

Module Sequential.
Import OneTalkPhoneManager.

(** A call of one of the four methods, with what it takes from its
    environment. *)
Inductive operation :=
| RegisterPhone (phone_number : string) (department_id user_id : option string)
    (phone_type : string) (priority max_concurrent : Z) (phone_id today : string)
| RouteCall (from_number to_number : string) (department_hint : option string)
    (route_id timestamp today : string)
| IncrementUsage (phone_number usage_type today : string)
| EndCall (route_id : string) (duration_seconds : Z) (today : string).

Section Run.
Context `{Py.CaseOps}.

Definition step (st : Store) (op : operation) : Store :=
  match op with
  | RegisterPhone phone_number department_id user_id phone_type priority max_concurrent
      phone_id today =>
      fst (register_phone_number st phone_number department_id user_id phone_type
             priority max_concurrent phone_id today)
  | RouteCall from_number to_number department_hint route_id timestamp today =>
      match route_incoming_call st from_number to_number department_hint
              route_id timestamp today with
      | Returned (st', _) => st'
      | Raised _ => st
      end
  | IncrementUsage phone_number usage_type today =>
      increment_phone_usage st phone_number usage_type today
  | EndCall route_id duration_seconds today =>
      end_call st route_id duration_seconds today
  end.

Definition run (ops : list operation) (st : Store) : Store :=
  fold_left step ops st.

End Run.

End Sequential.

(** ** Sequences of calls to both classes *)

Module System.
Import OneTalkSystem OneTalkPhoneManager Sequential.

(** A call of a method that writes to the store. *)
Inductive method_call :=
| CallAddUser (user_id name department : string) (phone_number : option string)
    (role : string)
| CallCreateDepartment (dept_id name : string) (lead_user_id : option string)
    (phone_numbers : option (list string))
| CallClassify (from_number to_number message_type content comm_id timestamp : string)
| CallUpdateUserStatus (user_id status : string)
| CallAddRoutingRule (condition_type condition_value target_department : string)
    (target_user : option string) (priority : Z) (rule_id : string)
| CallAssignPhone (phone_number department_id : string)
| CallPhoneManager (op : operation).

Section Execute.
Context `{Py.CaseOps}.

Definition apply_call (st : Store) (c : method_call) : Store :=
  match c with
  | CallAddUser user_id name department phone_number role =>
      fst (add_user st user_id name department phone_number role)
  | CallCreateDepartment dept_id name lead_user_id phone_numbers =>
      fst (create_department st dept_id name lead_user_id phone_numbers)
  | CallClassify from_number to_number message_type content comm_id timestamp =>
      match classify_incoming_communication st from_number to_number message_type
              content comm_id timestamp with
      | Returned (st', _) => st'
      | Raised _ => st
      end
  | CallUpdateUserStatus user_id status =>
      update_user_status st (Some user_id) status
  | CallAddRoutingRule condition_type condition_value target_department target_user
      priority rule_id =>
      match add_routing_rule st condition_type condition_value target_department
              target_user priority rule_id with
      | Returned (st', _) => st'
      | Raised _ => st
      end
  | CallAssignPhone phone_number department_id =>
      fst (assign_phone_to_department st phone_number department_id)
  | CallPhoneManager op => step st op
  end.

Definition execute (calls : list method_call) (st : Store) : Store :=
  fold_left apply_call calls st.

End Execute.

End System.

(** ** [onetalk_repo_command_interface.py]: class [OneTalkRepoCommander]

    The commander holds a [OneTalkSystem], the in-memory dict
    [repo_configs] and the dict [active_sessions].  Its methods also
    write JSON logs below the repository paths; those files are not read
    by the methods embedded here and are not part of the state.  What a
    repository command reports back for a configured department depends
    on the file system and comes in as the argument [reported]. *)

Module DeptConfig.
Record t := {
  repo_path : string;
  primary_agent : string;
  backup_agents : list string;
  api_endpoints : list string;
  phone_numbers : list string
}.
End DeptConfig.

Module Session.
Record t := {
  department : option string;
  user : option string;
  start_time : string;
  status : string
}.
End Session.

Module OneTalkRepoCommander.
Import OneTalkSystem.

Record commander := {
  onetalk : Store;
  repo_configs : list (string * DeptConfig.t);
  active_sessions : list (string * Session.t)
}.

(** A [dict] with [str] keys, in insertion order. *)
Definition dict_get {V : Type} (d : list (string * V)) (k : string) : option V :=
  match find (fun kv => String.eqb (fst kv) k) d with
  | Some kv => Some (snd kv)
  | None => None
  end.

(** [d[k] = v] *)
Fixpoint dict_set {V : Type} (d : list (string * V)) (k : string) (v : V)
    : list (string * V) :=
  match d with
  | [] => [(k, v)]
  | kv :: rest =>
      if String.eqb (fst kv) k then (k, v) :: rest
      else kv :: dict_set rest k v
  end.

Definition load_repo_configurations : list (string * DeptConfig.t) :=
  [ ("sales",
     {| DeptConfig.repo_path := "business_repo_knowledge/ai_agents/";
        DeptConfig.primary_agent := "grok_ceo_agent.py";
        DeptConfig.backup_agents := ["integrations_manager_agent.py"];
        DeptConfig.api_endpoints := ["hubspot"; "make_com"];
        DeptConfig.phone_numbers :=
          ["+1-555-SALES-01"; "+1-555-SALES-02"; "+1-555-SALES-03"] |});
    ("credit_analysis",
     {| DeptConfig.repo_path := "business_repo_knowledge/services/credit_strategy/";
        DeptConfig.primary_agent := "make_credit_strategy.json";
        DeptConfig.backup_agents := [];
        DeptConfig.api_endpoints := ["airtable"; "hubspot"];
        DeptConfig.phone_numbers := ["+1-555-CREDIT-01"; "+1-555-CREDIT-02"] |});
    ("vehicle_transport",
     {| DeptConfig.repo_path := "business_repo_knowledge/services/vehicle_transport/";
        DeptConfig.primary_agent := "make_vehicle_transport.json";
        DeptConfig.backup_agents := [];
        DeptConfig.api_endpoints := ["make_com"; "openphone"];
        DeptConfig.phone_numbers := ["+1-555-TRANSPORT-01"] |});
    ("customer_service",
     {| DeptConfig.repo_path := "business_repo_knowledge/communications/";
        DeptConfig.primary_agent := "communications_manager_agent.py";
        DeptConfig.backup_agents := ["email_intelligence_agent.py"];
        DeptConfig.api_endpoints := ["slack"; "openphone"; "email"];
        DeptConfig.phone_numbers := ["+1-555-SUPPORT-01"; "+1-555-SUPPORT-02"] |});
    ("admin",
     {| DeptConfig.repo_path := "business_repo_knowledge/ai_agents/";
        DeptConfig.primary_agent := "cursor_ai_agent.py";
        DeptConfig.backup_agents := ["integrations_manager_agent.py"];
        DeptConfig.api_endpoints := ["all"];
        DeptConfig.phone_numbers := ["+1-555-ADMIN-01"] |}) ].

(** [OneTalkRepoCommander()] on a store. *)
Definition init (st : Store) : commander :=
  {| onetalk := st; repo_configs := load_repo_configurations; active_sessions := [] |}.

(** What escapes a method: the [IndexError] of [dept_phones[0]], the
    [KeyError] of [self.repo_configs[department]], or an exception of the
    [OneTalkSystem].  The commander that comes with it is the state at
    the time of the raise. *)
Inductive raised := IndexError | KeyError | Propagated (e : exn).

Inductive result (A : Type) :=
| Ok (a : A)
| Err (e : raised).
Arguments Ok {A} a.
Arguments Err {A} e.

(** [str(n)] and [f"{n:02d}"] for [n >= 0]. *)
Definition str_of_nat (n : nat) : string := NilZero.string_of_uint (Nat.to_uint n).

Definition pad2 (n : nat) : string :=
  let s := str_of_nat n in
  if (String.length s <? 2)%nat then ("0" ++ s)%string else s.

Definition with_phone_numbers (c : DeptConfig.t) (v : list string) : DeptConfig.t :=
  {| DeptConfig.repo_path := DeptConfig.repo_path c;
     DeptConfig.primary_agent := DeptConfig.primary_agent c;
     DeptConfig.backup_agents := DeptConfig.backup_agents c;
     DeptConfig.api_endpoints := DeptConfig.api_endpoints c;
     DeptConfig.phone_numbers := v |}.

Section Methods.
Context `{Py.CaseOps}.

(** The [while] loop of [setup_department_phones]; it runs
    [phone_count - len(current_phones)] times, which is [rounds]. *)
Fixpoint generate_phones (department : string) (rounds : nat) (current_phones : list string)
    : list string :=
  match rounds with
  | O => current_phones
  | S rounds' =>
      let phone_num :=
        ("+1-555-" ++ Py.upper department ++ "-"
         ++ pad2 (List.length current_phones + 1))%string in
      generate_phones department rounds' (current_phones ++ [phone_num])
  end.

Definition setup_department_phones (cmd : commander) (department : string)
    (phone_count : Z) : commander * string :=
  match dict_get (repo_configs cmd) department with
  | None => (cmd, "❌ Unknown department: " ++ department)%string
  | Some dept_config =>
      let current_phones :=
        generate_phones department
          (Z.to_nat (phone_count - Z.of_nat (List.length (DeptConfig.phone_numbers dept_config))))
          (DeptConfig.phone_numbers dept_config) in
      let configs :=
        dict_set (repo_configs cmd) department
                 (with_phone_numbers dept_config current_phones) in
      let st := fst (create_department (onetalk cmd) department
                       (Py.title (Py.replace_char "_" " " department))
                       None (Some current_phones)) in
      ({| onetalk := st; repo_configs := configs;
          active_sessions := active_sessions cmd |},
       "✅ " ++ department ++ " department setup with "
       ++ str_of_nat (List.length current_phones) ++ " phone numbers")%string
  end.

(** [phone_preference if phone_preference in dept_phones else dept_phones[0]] *)
Definition pick_phone (phone_preference : option string) (dept_phones : list string)
    : result string :=
  let preferred :=
    match phone_preference with
    | Some p => if existsb (String.eqb p) dept_phones then Some p else None
    | None => None
    end in
  match preferred with
  | Some p => Ok p
  | None =>
      match dept_phones with
      | first :: _ => Ok first
      | [] => Err IndexError
      end
  end.

Definition assign_user_to_department (cmd : commander) (user_name department role : string)
    (phone_preference : option string) : commander * result string :=
  match dict_get (repo_configs cmd) department with
  | None => (cmd, Ok ("❌ Unknown department: " ++ department)%string)
  | Some dept_config =>
      let user_id :=
        (department ++ "_" ++ Py.replace_char " " "_" (Py.lower user_name))%string in
      match pick_phone phone_preference (DeptConfig.phone_numbers dept_config) with
      | Err e => (cmd, Err e)
      | Ok assigned_phone =>
          let st := fst (add_user (onetalk cmd) user_id user_name department
                           (Some assigned_phone) role) in
          ({| onetalk := st; repo_configs := repo_configs cmd;
              active_sessions := active_sessions cmd |},
           Ok ("✅ " ++ user_name ++ " assigned to " ++ department
               ++ " with phone " ++ assigned_phone)%string)
      end
  end.

(** [f"{department}"] for a department that may be [None]. *)
Definition str_of_department (department : option string) : string :=
  match department with
  | Some d => d
  | None => "None"
  end.

Definition config_of (cmd : commander) (department : option string)
    : option DeptConfig.t :=
  match department with
  | Some d => dict_get (repo_configs cmd) d
  | None => None
  end.

(** [command_department_repo(department, "route_communication", ...)]:
    the guard, and then what the repository reports. *)
Definition command_route_communication (cmd : commander) (department : option string)
    (reported : string) : string :=
  match config_of cmd department with
  | None => ("❌ Unknown department: " ++ str_of_department department)%string
  | Some _ => reported
  end.

Record call_result := {
  h_communication_id : string;
  h_department : option string;
  h_assigned_user : option string;
  repo_command_result : string;
  h_phone_numbers : list string
}.

Record sms_result := {
  s_communication_id : string;
  s_department : option string;
  s_assigned_user : option string;
  s_repo_command_result : string
}.

(** [uuid4()] and the two readings of the clock come in as [comm_id],
    [timestamp] and [start_time]. *)
Definition handle_incoming_call (cmd : commander) (from_number to_number content : string)
    (comm_id timestamp start_time reported : string) : commander * result call_result :=
  match classify_incoming_communication (onetalk cmd) from_number to_number "call"
          content comm_id timestamp with
  | Raised e => (cmd, Err (Propagated e))
  | Returned (st, routing_result) =>
      let department := c_department routing_result in
      let assigned_user := assigned_user routing_result in
      let comm_id := communication_id routing_result in
      let cmd1 := {| onetalk := st; repo_configs := repo_configs cmd;
                     active_sessions := active_sessions cmd |} in
      let repo_result := command_route_communication cmd1 department reported in
      let cmd2 :=
        {| onetalk := st; repo_configs := repo_configs cmd;
           active_sessions :=
             dict_set (active_sessions cmd) comm_id
               {| Session.department := department; Session.user := assigned_user;
                  Session.start_time := start_time; Session.status := "active" |} |} in
      match config_of cmd2 department with
      | None => (cmd2, Err KeyError)
      | Some dept_config =>
          (cmd2,
           Ok {| h_communication_id := comm_id; h_department := department;
                 h_assigned_user := assigned_user;
                 repo_command_result := repo_result;
                 h_phone_numbers := DeptConfig.phone_numbers dept_config |})
      end
  end.

Definition handle_incoming_sms (cmd : commander) (from_number to_number message : string)
    (comm_id timestamp reported : string) : commander * result sms_result :=
  match classify_incoming_communication (onetalk cmd) from_number to_number "sms"
          message comm_id timestamp with
  | Raised e => (cmd, Err (Propagated e))
  | Returned (st, routing_result) =>
      let department := c_department routing_result in
      let assigned_user := assigned_user routing_result in
      let comm_id := communication_id routing_result in
      let cmd1 := {| onetalk := st; repo_configs := repo_configs cmd;
                     active_sessions := active_sessions cmd |} in
      let repo_result := command_route_communication cmd1 department reported in
      (cmd1,
       Ok {| s_communication_id := comm_id; s_department := department;
             s_assigned_user := assigned_user;
             s_repo_command_result := repo_result |})
  end.

(** [escalation_rules.get("trigger_keyword", "emergency")] comes in as
    [trigger_keyword]; [uuid4()] as [rule_id]. *)
Definition setup_emergency_escalation (cmd : commander) (department : string)
    (trigger_keyword : option string) (rule_id : string) : commander * result string :=
  match add_routing_rule (onetalk cmd) "emergency"
          (match trigger_keyword with Some k => k | None => "emergency" end)
          "admin" None 1 rule_id with
  | Raised e => (cmd, Err (Propagated e))
  | Returned (st, _) =>
      ({| onetalk := st; repo_configs := repo_configs cmd;
          active_sessions := active_sessions cmd |},
       Ok ("✅ Emergency escalation setup for " ++ department)%string)
  end.

(** The dict that [_check_repo_status] returns; the two readings of
    [os.path.exists] come in through [path_exists]. *)
Record repo_check := {
  rc_department : string;
  rc_repo_path : string;
  rc_primary_agent : string;
  rc_phone_numbers : list string;
  repo_accessible : bool;
  agent_accessible : bool
}.

Definition check_repo_status (dept_config : DeptConfig.t) (department : string)
    (path_exists : string -> bool) : repo_check :=
  {| rc_department := department;
     rc_repo_path := DeptConfig.repo_path dept_config;
     rc_primary_agent := DeptConfig.primary_agent dept_config;
     rc_phone_numbers := DeptConfig.phone_numbers dept_config;
     repo_accessible := path_exists (DeptConfig.repo_path dept_config);
     agent_accessible :=
       path_exists (DeptConfig.repo_path dept_config ++ "/"
                    ++ DeptConfig.primary_agent dept_config)%string |}.

(** What [command_department_repo(department, "status_check")] returns:
    the message of the guard, or the dict of the check. *)
Inductive repo_status :=
| UnknownDepartment (message : string)
| RepoChecked (status : repo_check).

Definition command_status_check (cmd : commander) (department : string)
    (path_exists : string -> bool) : repo_status :=
  match dict_get (repo_configs cmd) department with
  | None => UnknownDepartment ("❌ Unknown department: " ++ department)%string
  | Some dept_config => RepoChecked (check_repo_status dept_config department path_exists)
  end.

Record department_report := {
  d_users : list user_status;
  d_phone_numbers : list string;
  d_repo_status : repo_status;
  d_primary_agent : string
}.

Record system_status := {
  y_timestamp : string;
  y_departments : list (string * department_report);
  y_active_sessions : nat;
  y_total_users : nat
}.

(** The clock comes in as [timestamp].  [dept_status] has distinct keys,
    so the loop writes each key of [departments] once, in that order. *)
Definition get_system_status (cmd : commander) (timestamp : string)
    (path_exists : string -> bool) : system_status :=
  let dept_status := get_department_status (onetalk cmd) None in
  {| y_timestamp := (timestamp ++ "Z")%string;
     y_departments :=
       map (fun kv =>
              let dept_name := fst kv in
              let users := snd kv in
              let repo_status := command_status_check cmd dept_name path_exists in
              (dept_name,
               {| d_users := users;
                  d_phone_numbers :=
                    match dict_get (repo_configs cmd) dept_name with
                    | Some c => DeptConfig.phone_numbers c
                    | None => []
                    end;
                  d_repo_status := repo_status;
                  d_primary_agent :=
                    match dict_get (repo_configs cmd) dept_name with
                    | Some c => DeptConfig.primary_agent c
                    | None => "N/A"
                    end |}))
           dept_status;
     y_active_sessions := List.length (active_sessions cmd);
     y_total_users := list_sum (map (fun kv => List.length (snd kv)) dept_status) |}.

End Methods.
End OneTalkRepoCommander.

(** * Properties *)

Local Open Scope list_scope.

(** ** [ORDER BY] and [LIMIT 1] *)

Module SqlFacts.
Section Orders.
Context {A : Type} (before : A -> A -> bool).

(** [before] is a strict weak order, as every [ORDER BY] key list is. *)
Definition asymmetric : Prop :=
  forall a b, before a b = true -> before b a = false.
Definition negatively_transitive : Prop :=
  forall a b c, before a b = false -> before b c = false -> before a c = false.

Lemma limit1_none (rows : list A) :
  Sql.limit1 before rows = None <-> rows = [].
Proof.
  destruct rows as [|r rest]; simpl.
  - tauto.
  - split; [|discriminate].
    destruct (Sql.limit1 before rest) as [m|]; [destruct (before m r)|]; discriminate.
Qed.

Lemma limit1_in (rows : list A) (m : A) :
  Sql.limit1 before rows = Some m -> In m rows.
Proof.
  revert m.
  induction rows as [|r rest IH]; simpl; intros m Hm; [discriminate|].
  destruct (Sql.limit1 before rest) as [m'|].
  - destruct (before m' r); inversion Hm; subst; auto.
  - inversion Hm; auto.
Qed.

Lemma limit1_least (rows : list A) (m : A) :
  asymmetric -> negatively_transitive ->
  Sql.limit1 before rows = Some m ->
  forall x, In x rows -> before x m = false.
Proof.
  intros Hasym Hneg. revert m.
  assert (Hirr : forall a, before a a = false).
  { intros a. destruct (before a a) eqn:E; [|reflexivity].
    rewrite <- E at 1. now apply Hasym. }
  induction rows as [|r rest IH]; simpl; intros m Hm x Hx; [contradiction|].
  destruct (Sql.limit1 before rest) as [m'|] eqn:Hrest.
  - destruct (before m' r) eqn:Hbr; inversion Hm; subst; clear Hm.
    + destruct Hx as [<-|Hx]; [now apply Hasym | now apply IH].
    + destruct Hx as [<-|Hx]; [apply Hirr|].
      apply Hneg with m'; [now apply IH | exact Hbr].
  - apply limit1_none in Hrest. subst rest.
    inversion Hm; subst. destruct Hx as [<-|[]]. apply Hirr.
Qed.

Lemma insert_row_perm (r : A) (sorted : list A) :
  Permutation (Sql.insert_row before r sorted) (r :: sorted).
Proof.
  induction sorted as [|x rest IH]; simpl; [reflexivity|].
  destruct (before x r); [|reflexivity].
  rewrite IH. apply perm_swap.
Qed.

Lemma order_by_perm (rows : list A) :
  Permutation (Sql.order_by before rows) rows.
Proof.
  induction rows as [|r rest IH]; simpl; [reflexivity|].
  rewrite insert_row_perm. now constructor.
Qed.

(** In the sorted list no row is strictly preceded by a later one. *)
Definition not_after (a b : A) : Prop := before b a = false.

Lemma insert_row_sorted (r : A) (sorted : list A) :
  asymmetric -> negatively_transitive ->
  StronglySorted not_after sorted ->
  StronglySorted not_after (Sql.insert_row before r sorted).
Proof.
  intros Hasym Hneg Hs.
  induction Hs as [|x rest Hs IH Hx]; simpl.
  - repeat constructor.
  - destruct (before x r) eqn:Hxr.
    + constructor; [exact IH|].
      apply Forall_forall. intros y Hy.
      apply (Permutation_in _ (insert_row_perm r rest)) in Hy.
      destruct Hy as [<-|Hy]; [now apply Hasym|].
      now apply (proj1 (Forall_forall _ _) Hx).
    + constructor; [now constructor|].
      constructor; [exact Hxr|].
      apply Forall_forall. intros y Hy. unfold not_after.
      apply Hneg with x; [|exact Hxr].
      now apply (proj1 (Forall_forall _ _) Hx).
Qed.

Lemma order_by_sorted (rows : list A) :
  asymmetric -> negatively_transitive ->
  StronglySorted not_after (Sql.order_by before rows).
Proof.
  intros Hasym Hneg.
  induction rows as [|r rest IH]; simpl; [constructor|].
  now apply insert_row_sorted.
Qed.

End Orders.

(** Rows are determined by a column that holds no value twice. *)
Lemma unique_row {A K : Type} (key : A -> K) (l : list A) (u v : A) :
  NoDup (map key l) -> In u l -> In v l -> key u = key v -> u = v.
Proof.
induction l as [|x l IH]; simpl; intros Hnd Hu Hv Hkey; [contradiction|].
inversion Hnd as [|? ? Hnotin Hnd']; subst.
destruct Hu as [->|Hu], Hv as [->|Hv]; auto.
- exfalso. apply Hnotin. rewrite Hkey. now apply in_map.
- exfalso. apply Hnotin. rewrite <- Hkey. now apply in_map.
Qed.

(** String order facts, read off [String_as_OT]. *)

Lemma str_lt_irrefl (a : string) : Sql.str_lt a a = false.
Proof.
unfold Sql.str_lt, String.ltb.
replace (String.compare a a) with Eq; [reflexivity|].
symmetry. now apply OrderedTypeEx.String_as_OT.cmp_eq.
Qed.

Lemma str_lt_trans (a b c : string) :
Sql.str_lt a b = true -> Sql.str_lt b c = true -> Sql.str_lt a c = true.
Proof.
unfold Sql.str_lt, String.ltb. intros Hab Hbc.
destruct (String.compare a b) eqn:Eab; try discriminate.
destruct (String.compare b c) eqn:Ebc; try discriminate.
apply OrderedTypeEx.String_as_OT.cmp_lt in Eab, Ebc.
pose proof (OrderedTypeEx.String_as_OT.lt_trans _ _ _ Eab Ebc) as Hac.
apply OrderedTypeEx.String_as_OT.cmp_lt in Hac.
unfold OrderedTypeEx.String_as_OT.cmp in Hac. now rewrite Hac.
Qed.

Lemma str_lt_asym (a b : string) :
Sql.str_lt a b = true -> Sql.str_lt b a = false.
Proof.
intros Hab. destruct (Sql.str_lt b a) eqn:Hba; [|reflexivity].
pose proof (str_lt_trans _ _ _ Hab Hba) as Haa.
now rewrite str_lt_irrefl in Haa.
Qed.

Lemma str_lt_total (a b : string) :
Sql.str_lt a b = false -> Sql.str_lt b a = false -> a = b.
Proof.
unfold Sql.str_lt, String.ltb. intros Hab Hba.
rewrite String.compare_antisym in Hba.
destruct (String.compare a b) eqn:E; simpl in *; try discriminate.
now apply String.compare_eq_iff.
Qed.

Lemma str_lt_negtrans (a b c : string) :
Sql.str_lt a b = false -> Sql.str_lt b c = false -> Sql.str_lt a c = false.
Proof.
intros Hab Hbc.
destruct (Sql.str_lt a c) eqn:Hac; [|reflexivity].
destruct (Sql.str_lt b a) eqn:Hba.
- now rewrite (str_lt_trans _ _ _ Hba Hac) in Hbc.
- pose proof (str_lt_total _ _ Hab Hba). subst b. congruence.
Qed.

End SqlFacts.

(** ** User directory *)

Module DirectoryFacts.
Import OneTalkSystem.

Lemma user_before_asym : SqlFacts.asymmetric user_before.
Proof.
intros a b. unfold user_before. intros Hab.
apply orb_true_iff in Hab. apply orb_false_iff.
destruct Hab as [Hr|Hn].
- split; [now apply SqlFacts.str_lt_asym|].
  apply andb_false_iff. left.
  destruct (String.eqb_spec (User.role b) (User.role a)) as [E|]; [|reflexivity].
  rewrite E in Hr. now rewrite SqlFacts.str_lt_irrefl in Hr.
- apply andb_true_iff in Hn. destruct Hn as [Hr Hn].
  apply String.eqb_eq in Hr. rewrite Hr. split.
  + apply SqlFacts.str_lt_irrefl.
  + apply andb_false_iff. right. now apply SqlFacts.str_lt_asym.
Qed.

Lemma user_before_negtrans : SqlFacts.negatively_transitive user_before.
Proof.
intros a b c. unfold user_before. intros Hab Hbc.
apply orb_false_iff in Hab. destruct Hab as [Hab1 Hab2].
apply orb_false_iff in Hbc. destruct Hbc as [Hbc1 Hbc2].
apply orb_false_iff. split.
- now apply SqlFacts.str_lt_negtrans with (User.role b).
- apply andb_false_iff.
  destruct (String.eqb_spec (User.role a) (User.role c)) as [Eac|]; [right|now left].
  assert (Eab : User.role a = User.role b).
  { apply SqlFacts.str_lt_total; [|exact Hab1]. now rewrite Eac. }
  rewrite Eab, String.eqb_refl in Hab2.
  rewrite <- Eab, Eac, String.eqb_refl in Hbc2.
  now apply SqlFacts.str_lt_negtrans with (User.name b).
Qed.

(** [result] is what a query [ORDER BY before LIMIT 1] over the
    available users of [department] may return. *)
Definition chosen_by (before : User.row -> User.row -> bool) (st : Store)
    (department result : option string) : Prop :=
  match result with
  | Some uid =>
      exists u, In u (users st) /\ User.id u = uid
                /\ available_in department u = true
                /\ forall v, In v (users st) -> available_in department v = true
                             -> before v u = false
  | None => forall v, In v (users st) -> available_in department v = false
  end.

(** The tie-break in the words of the specification: [lead] before
    [member], then name ascending. *)
Definition lead_first (a b : User.row) : bool :=
  (String.eqb (User.role a) "lead" && String.eqb (User.role b) "member")
  || (String.eqb (User.role a) (User.role b)
      && Sql.str_lt (User.name a) (User.name b)).

(** The preferred user exists, belongs to the department and is available. *)
Definition preferred_ok (st : Store) (department : option string) (p : string) : Prop :=
  exists u, In u (users st) /\ User.id u = p
            /\ Some (User.department u) = department
            /\ User.status u = "available".

Lemma available_in_spec (department : option string) (u : User.row) :
  available_in department u = true <->
  Some (User.department u) = department /\ User.status u = "available".
Proof.
unfold available_in, Sql.eq_null. rewrite andb_true_iff.
destruct department as [d|].
- rewrite !String.eqb_eq. split; intros [H1 H2]; split; congruence.
- split; intros [H1 H2]; discriminate.
Qed.

Lemma preferred_hit_spec (st : Store) (department : option string) (p : string) :
  existsb (fun u => String.eqb (User.id u) p && available_in department u) (users st) = true
  <-> preferred_ok st department p.
Proof.
rewrite existsb_exists. unfold preferred_ok.
split; intros [u Hu]; exists u.
- destruct Hu as [Hin Hu]. apply andb_true_iff in Hu. destruct Hu as [Hid Hav].
  apply String.eqb_eq in Hid. apply available_in_spec in Hav. tauto.
- destruct Hu as (Hin & Hid & Hd & Hs). split; [exact Hin|].
  apply andb_true_iff. split; [now apply String.eqb_eq|].
  apply available_in_spec. tauto.
Qed.

Lemma general_query_chosen (st : Store) (department : option string) :
  chosen_by user_before st department
    match Sql.limit1 user_before (filter (available_in department) (users st)) with
    | Some result => Some (User.id result)
    | None => None
    end.
Proof.
destruct (Sql.limit1 _ _) as [m|] eqn:Hm; simpl.
- pose proof (SqlFacts.limit1_in _ _ _ Hm) as Hin.
  apply filter_In in Hin. destruct Hin as [Hin Hav].
  exists m. repeat split; auto.
  intros v Hv Hvav.
  apply (SqlFacts.limit1_least _ _ _ user_before_asym user_before_negtrans Hm).
  apply filter_In. now split.
- apply SqlFacts.limit1_none in Hm. intros v Hv.
  destruct (available_in department v) eqn:Hav; [|reflexivity].
  assert (Hf : In v (filter (available_in department) (users st)))
    by (apply filter_In; now split).
  rewrite Hm in Hf. destruct Hf.
Qed.

Lemma find_available_user_cases (st : Store) (department preferred_user : option string) :
  (exists p, preferred_user = Some p /\ Py.truthy p = true
             /\ preferred_ok st department p
             /\ find_available_user st department preferred_user = Some p)
  \/ ((forall p, preferred_user = Some p -> Py.truthy p = true
                 -> ~ preferred_ok st department p)
      /\ find_available_user st department preferred_user =
         match Sql.limit1 user_before (filter (available_in department) (users st)) with
         | Some result => Some (User.id result)
         | None => None
         end).
Proof.
unfold find_available_user.
destruct preferred_user as [p|].
- destruct (Py.truthy p) eqn:Ht; simpl.
  + destruct (existsb _ (users st)) eqn:Hex.
    * left. exists p. repeat split; auto. now apply preferred_hit_spec.
    * right. split; [|reflexivity].
      intros p' Hp' _ Hok. inversion Hp'; subst p'.
      apply preferred_hit_spec in Hok. congruence.
  + right. split; [|reflexivity].
    intros p' Hp' Ht'. inversion Hp'; subst p'. congruence.
- right. split; [|reflexivity]. intros p' Hp'. discriminate.
Qed.

End DirectoryFacts.

Module Directory.
Import OneTalkSystem DirectoryFacts.

(** The users of the demo in [__main__]: Alice leads sales, Bob is a member. *)
Definition demo_sales : Store :=
  let st1 := fst (add_user empty_store "user_001" "Alice Johnson" "sales" None "lead") in
  fst (add_user st1 "user_002" "Bob Smith" "sales" None "member").

(** C2, as stated, fails: with a lead and a member both available in
    the department and no preferred user, the member is returned,
    although the lead comes first in the tie-break of the claim. *)
Lemma find_available_user_not_lead_first :
  find_available_user demo_sales (Some "sales") None = Some "user_002"
  /\ ~ chosen_by lead_first demo_sales (Some "sales")
         (find_available_user demo_sales (Some "sales") None).
Proof.
split; [reflexivity|].
change (find_available_user demo_sales (Some "sales") None) with (Some "user_002").
intros (u & Hin & Hid & _ & Hleast).
specialize (Hleast {| User.id := "user_001"; User.name := "Alice Johnson";
                      User.department := "sales"; User.phone_number := None;
                      User.role := "lead"; User.status := "available" |}).
simpl in Hin. destruct Hin as [<-|[<-|[]]]; [discriminate Hid|].
assert (Hf : true = false); [|discriminate Hf].
apply Hleast; [left; reflexivity | reflexivity].
Qed.

(** C2 (amended): a non-empty preferred user is returned exactly when a
    row with that id is in the department and available; when that is
    not so (or no preferred user is given, [None] or the empty string),
    the result is an available user of the department that comes first
    under role in descending text order (so [member] before [lead]),
    then name ascending; the result is [None] exactly when the
    department has no available user. *)
Theorem find_available_user_choice
    (st : Store) (department preferred_user : option string) :
  (forall p, preferred_user = Some p -> p <> "" ->
     (find_available_user st department preferred_user = Some p
      <-> preferred_ok st department p))
  /\ ((forall p, preferred_user = Some p -> p <> "" -> ~ preferred_ok st department p) ->
      chosen_by user_before st department
        (find_available_user st department preferred_user))
  /\ (find_available_user st department preferred_user = None
      <-> forall v, In v (users st) -> available_in department v = false).
Proof.
assert (Htruthy : forall p, Py.truthy p = true <-> p <> "").
{ intros p. unfold Py.truthy. rewrite negb_true_iff. apply String.eqb_neq. }
pose proof (general_query_chosen st department) as Hgen.
destruct (find_available_user_cases st department preferred_user)
  as [(p & Hp & Ht & Hok & Hres)|[Hno Hres]]; rewrite Hres.
- split; [|split].
  + intros p' Hp' _. rewrite Hp in Hp'. inversion Hp'; subst p'. tauto.
  + intros Hnone. exfalso. apply (Hnone p Hp); [now apply Htruthy | exact Hok].
  + split; [discriminate|]. intros Hnone.
    destruct Hok as (u & Hin & _ & Hd & Hs).
    specialize (Hnone u Hin).
    assert (available_in department u = true) by (apply available_in_spec; tauto).
    congruence.
- split; [|split].
  + intros p Hp Hne. split.
    * intros Hq. rewrite Hq in Hgen. simpl in Hgen.
      destruct Hgen as (u & Hin & Hid & Hav & _).
      apply available_in_spec in Hav. exists u. tauto.
    * intros Hok. exfalso. apply (Hno p Hp); [now apply Htruthy | exact Hok].
  + intros _. exact Hgen.
  + destruct (Sql.limit1 _ _) as [m|] eqn:Hm; simpl in Hgen.
    * split; [discriminate|]. intros Hnone.
      destruct Hgen as (u & Hin & _ & Hav & _).
      rewrite (Hnone u Hin) in Hav. discriminate.
    * split; auto.
Qed.

(** C9: a user returned by [find_available_user] is a row of [users]
    whose status is [available] and whose department is the requested
    one; under the primary key of [users] this is the only row with
    that id. *)
Theorem find_available_user_sound
    (st : Store) (department preferred_user : option string) (uid : string) :
  find_available_user st department preferred_user = Some uid ->
  (exists u, In u (users st) /\ User.id u = uid
             /\ User.status u = "available"
             /\ Some (User.department u) = department)
  /\ (NoDup (map User.id (users st)) ->
      forall u, In u (users st) -> User.id u = uid ->
                User.status u = "available" /\ Some (User.department u) = department).
Proof.
intros Hres.
assert (Hex : exists u, In u (users st) /\ User.id u = uid
                        /\ User.status u = "available"
                        /\ Some (User.department u) = department).
{ destruct (find_available_user_cases st department preferred_user)
    as [(p & Hp & Ht & Hok & Hres')|[Hno Hres']]; rewrite Hres' in Hres.
  - inversion Hres; subst p. destruct Hok as (u & Hin & Hid & Hd & Hs).
    exists u. tauto.
  - pose proof (general_query_chosen st department) as Hgen.
    rewrite Hres in Hgen. simpl in Hgen.
    destruct Hgen as (u & Hin & Hid & Hav & _).
    apply available_in_spec in Hav. exists u. tauto. }
split; [exact Hex|].
intros Hnd u Hin Hid.
destruct Hex as (w & Hw & Hwid & Hs & Hd).
assert (u = w) by (apply (SqlFacts.unique_row User.id (users st)); auto; congruence).
subst u. tauto.
Qed.

Lemma find_available_user_sound_witness :
  find_available_user demo_sales (Some "sales") (Some "user_001") = Some "user_001"
  /\ exists u, In u (users demo_sales) /\ User.id u = "user_001"
               /\ User.status u = "available"
               /\ Some (User.department u) = Some "sales".
Proof.
split; [reflexivity|].
refine (proj1 (find_available_user_sound demo_sales (Some "sales") (Some "user_001")
                 "user_001" _)).
reflexivity.
Defined.

Section AddUser.
Context `{Py.CaseOps}.

Lemma users_update_department_membership (st : Store) (department user_id : string) :
  users (update_department_membership st department user_id) = users st.
Proof.
unfold update_department_membership.
destruct (find _ (departments st)); reflexivity.
Qed.

(** C10: [add_user] on an id already in [users] returns its usual
    message; afterwards exactly one row carries the id, it holds the
    new values, and its status is the column default [available]
    whatever the old status was; rows with other ids are untouched. *)
Theorem add_user_replaces_and_resets
    (st : Store) (user_id name department : string)
    (phone_number : option string) (role : string) (old : User.row) :
  In old (users st) -> User.id old = user_id ->
  let new := {| User.id := user_id; User.name := name;
                User.department := department;
                User.phone_number := phone_number; User.role := role;
                User.status := "available" |} in
  let st' := fst (add_user st user_id name department phone_number role) in
  snd (add_user st user_id name department phone_number role)
    = ("✅ User " ++ name ++ " added to " ++ department ++ " department")%string
  /\ In new (users st')
  /\ (forall u, In u (users st') -> User.id u = user_id -> u = new)
  /\ (forall u, User.id u <> user_id -> (In u (users st') <-> In u (users st))).
Proof.
intros Hold Hid new st'.
assert (Hus : users st' =
              (filter (fun u => negb (String.eqb (User.id u) user_id)) (users st)
               ++ [new])%list).
{ unfold st', add_user. simpl. now rewrite users_update_department_membership. }
split; [reflexivity|]. rewrite Hus.
split; [apply in_or_app; right; now left|].
split.
- intros u Hu Huid. apply in_app_or in Hu. destruct Hu as [Hu|[<-|[]]]; [|reflexivity].
  apply filter_In in Hu. destruct Hu as [_ Hne].
  apply negb_true_iff, String.eqb_neq in Hne. contradiction.
- intros u Hne. rewrite in_app_iff, filter_In. simpl. split.
  + intros [[Hu _]|[<-|[]]]; [exact Hu|]. now elim Hne.
  + intros Hu. left. split; [exact Hu|].
    now apply negb_true_iff, String.eqb_neq.
Qed.

End AddUser.

(** Bob is busy when [add_user] is called again for his id. *)
Definition bob_busy : Store := update_user_status demo_sales (Some "user_002") "busy".

Lemma add_user_replaces_and_resets_witness :
  In {| User.id := "user_002"; User.name := "Bob Smith"; User.department := "sales";
        User.phone_number := None; User.role := "member"; User.status := "busy" |}
     (users bob_busy)
  /\ In {| User.id := "user_002"; User.name := "Robert Smith"; User.department := "sales";
           User.phone_number := None; User.role := "member"; User.status := "available" |}
        (users (fst (add_user bob_busy "user_002" "Robert Smith" "sales" None "member"))).
Proof.
split; [right; left; reflexivity|].
refine (proj1 (proj2
  (add_user_replaces_and_resets bob_busy "user_002" "Robert Smith" "sales" None "member"
     {| User.id := "user_002"; User.name := "Bob Smith"; User.department := "sales";
        User.phone_number := None; User.role := "member"; User.status := "busy" |}
     _ _))).
- right; left; reflexivity.
- reflexivity.
Defined.

End Directory.

(** ** Routing rules *)

Module RoutingRules.
Import OneTalkSystem.

Definition priority_before (a b : RoutingRule.row) : bool :=
  RoutingRule.priority a <? RoutingRule.priority b.

Lemma priority_before_asym : SqlFacts.asymmetric priority_before.
Proof. intros a b. unfold priority_before. rewrite Z.ltb_lt, Z.ltb_ge. lia. Qed.

Lemma priority_before_negtrans : SqlFacts.negatively_transitive priority_before.
Proof. intros a b c. unfold priority_before. rewrite !Z.ltb_ge. lia. Qed.

Definition ascending (a b : RoutingRule.row) : Prop :=
  RoutingRule.priority a <= RoutingRule.priority b.

Lemma sorted_after_prefix (pre : list RoutingRule.row) (r : RoutingRule.row)
    (post : list RoutingRule.row) :
  StronglySorted ascending (pre ++ r :: post) -> Forall (ascending r) post.
Proof.
induction pre as [|x pre IH]; simpl; intros Hs; inversion Hs; subst; auto.
Qed.

Section Rules.
Context `{Py.CaseOps}.

Lemma fetch_active_rules_sorted (st : Store) :
  StronglySorted ascending (fetch_active_rules st).
Proof.
unfold fetch_active_rules.
pose proof (SqlFacts.order_by_sorted priority_before
              (filter RoutingRule.is_active (routing_rules st))
              priority_before_asym priority_before_negtrans) as Hs.
fold priority_before.
induction Hs as [|x l Hs IH Hx]; constructor; auto.
apply Forall_forall. intros y Hy.
apply (proj1 (Forall_forall _ _) Hx) in Hy.
unfold SqlFacts.not_after, priority_before in Hy. apply Z.ltb_ge in Hy. exact Hy.
Qed.

Lemma scan_rules_first (from_number to_number : string) (rules : list RoutingRule.row) :
  (exists pre r post,
      rules = pre ++ r :: post
      /\ (forall x, In x pre -> rule_matches from_number to_number x = false)
      /\ rule_matches from_number to_number r = true
      /\ scan_rules from_number to_number rules
         = (Some (RoutingRule.target_department r), RoutingRule.target_user r))
  \/ ((forall x, In x rules -> rule_matches from_number to_number x = false)
      /\ scan_rules from_number to_number rules = (None, None)).
Proof.
induction rules as [|x rules IH]; simpl.
- right. split; [intros x []|reflexivity].
- destruct (rule_matches from_number to_number x) eqn:Hx.
  + left. exists [], x, rules. simpl. repeat split; auto. intros y [].
  + destruct IH as [(pre & r & post & -> & Hpre & Hr & Hres)|[Hnone Hres]].
    * left. exists (x :: pre), r, post. simpl. repeat split; auto.
      intros y [<-|Hy]; auto.
    * right. split; [|exact Hres]. intros y [<-|Hy]; auto.
Qed.

(** C3: the rules consulted are the active rules, sorted by ascending
    priority; a [phone_pattern] rule matches when its
    [condition_value] occurs in [from_number] or in [to_number]; the
    result is the department and user of the first rule of that list
    that matches (every rule before it was consulted and did not match,
    and no active matching rule has a smaller priority), or
    [(None, None)] when no active rule matches. *)
Theorem apply_routing_rules_first_match
    (st : Store) (from_number to_number message_type : string) :
  Permutation (fetch_active_rules st)
              (filter RoutingRule.is_active (routing_rules st))
  /\ StronglySorted ascending (fetch_active_rules st)
  /\ (forall r, RoutingRule.condition_type r = "phone_pattern" ->
        rule_matches from_number to_number r
        = Py.contains (RoutingRule.condition_value r) from_number
          || Py.contains (RoutingRule.condition_value r) to_number)
  /\ ((exists pre r post,
          fetch_active_rules st = pre ++ r :: post
          /\ (forall x, In x pre -> rule_matches from_number to_number x = false)
          /\ rule_matches from_number to_number r = true
          /\ (forall x, In x (routing_rules st) -> RoutingRule.is_active x = true ->
                rule_matches from_number to_number x = true ->
                RoutingRule.priority r <= RoutingRule.priority x)
          /\ apply_routing_rules st from_number to_number message_type
             = (Some (RoutingRule.target_department r), RoutingRule.target_user r))
      \/ ((forall x, In x (routing_rules st) -> RoutingRule.is_active x = true ->
             rule_matches from_number to_number x = false)
          /\ apply_routing_rules st from_number to_number message_type = (None, None))).
Proof.
assert (Hperm : Permutation (fetch_active_rules st)
                  (filter RoutingRule.is_active (routing_rules st)))
  by apply SqlFacts.order_by_perm.
pose proof (fetch_active_rules_sorted st) as Hsorted.
split; [exact Hperm|]. split; [exact Hsorted|]. split.
- intros r Hr. unfold rule_matches. now rewrite Hr.
- unfold apply_routing_rules.
  destruct (scan_rules_first from_number to_number (fetch_active_rules st))
    as [(pre & r & post & Heq & Hpre & Hr & Hres)|[Hnone Hres]].
  + left. exists pre, r, post. repeat split; auto.
    intros x Hx Hact Hm.
    assert (Hin : In x (fetch_active_rules st)).
    { apply (Permutation_in _ (Permutation_sym Hperm)). apply filter_In. now split. }
    rewrite Heq in Hin, Hsorted.
    apply in_app_or in Hin. destruct Hin as [Hin|[<-|Hin]].
    * rewrite (Hpre x Hin) in Hm. discriminate.
    * lia.
    * apply sorted_after_prefix in Hsorted.
      apply (proj1 (Forall_forall _ _) Hsorted x Hin).
  + right. split; [|exact Hres].
    intros x Hx Hact. apply Hnone.
    apply (Permutation_in _ (Permutation_sym Hperm)). apply filter_In. now split.
Qed.

End Rules.

(** The two rules of the scenario in the specification. *)
Definition credit_then_sales : Store :=
  set_routing_rules empty_store
    [ {| RoutingRule.id := "r2"; RoutingRule.priority := 5;
         RoutingRule.condition_type := "phone_pattern";
         RoutingRule.condition_value := "SALES";
         RoutingRule.target_department := "sales";
         RoutingRule.target_user := None; RoutingRule.is_active := true |};
      {| RoutingRule.id := "r1"; RoutingRule.priority := 1;
         RoutingRule.condition_type := "phone_pattern";
         RoutingRule.condition_value := "CREDIT";
         RoutingRule.target_department := "credit_analysis";
         RoutingRule.target_user := None; RoutingRule.is_active := true |} ].

Example lower_priority_number_wins :
  apply_routing_rules credit_then_sales "+1-555-123-4567" "+1-555-CREDIT-SALES-01" "call"
  = (Some "credit_analysis", None).
Proof. reflexivity. Qed.

End RoutingRules.

(** ** Classification of an inbound communication *)

Module Dispatcher.
Import OneTalkSystem DirectoryFacts.

Lemma find_available_user_none
    (st : Store) (department preferred_user : option string) :
  (forall v, In v (users st) -> available_in department v = false) ->
  find_available_user st department preferred_user = None.
Proof.
intros Hnone.
destruct (find_available_user_cases st department preferred_user)
  as [(p & _ & _ & Hok & _)|[_ Hres]].
- destruct Hok as (u & Hin & _ & Hd & Hs).
  assert (available_in department u = true) by (apply available_in_spec; tauto).
  rewrite (Hnone u Hin) in *. discriminate.
- rewrite Hres.
  pose proof (general_query_chosen st department) as Hgen.
  destruct (Sql.limit1 _ _) as [m|]; [|reflexivity].
  simpl in Hgen. destruct Hgen as (u & Hin & _ & Hav & _).
  rewrite (Hnone u Hin) in Hav. discriminate.
Qed.

Lemma communications_route_communication (st : Store) (comm_id : string)
    (user_id department : option string) (msg_type content : string) :
  communications (route_communication st comm_id user_id department msg_type content)
  = communications st.
Proof. unfold route_communication. destruct (String.eqb msg_type "call"); reflexivity. Qed.

Lemma fresh_id (st : Store) (comm_id : string) :
  (forall c, In c (communications st) -> Communication.id c <> comm_id) ->
  existsb (fun c => String.eqb (Communication.id c) comm_id) (communications st) = false.
Proof.
intros Hfresh.
destruct (existsb _ _) eqn:E; [|reflexivity].
apply existsb_exists in E. destruct E as (c & Hin & Hid).
apply String.eqb_eq in Hid. now elim (Hfresh c Hin).
Qed.

Section Classify.
Context `{Py.CaseOps}.

(** C6: for every event and every store (the uuid drawn for the record
    being fresh), [classify_incoming_communication] returns, and the
    [communications] table it leaves is the old one followed by exactly
    one new row for the event; the row carries the user and department
    of the returned classification, and its user is [None] when the
    target department has no available user. *)
Theorem classify_logs_one_record
    (st : Store) (from_number to_number message_type content : string)
    (comm_id timestamp : string) :
  (forall c, In c (communications st) -> Communication.id c <> comm_id) ->
  exists st' res rec,
    classify_incoming_communication st from_number to_number message_type content
      comm_id timestamp = Returned (st', res)
    /\ communications st' = communications st ++ [rec]
    /\ communication_id res = comm_id
    /\ Communication.id rec = comm_id
    /\ Communication.timestamp rec = timestamp
    /\ Communication.from_number rec = from_number
    /\ Communication.to_number rec = to_number
    /\ Communication.type rec = message_type
    /\ Communication.content rec = content
    /\ Communication.status rec = "active"
    /\ Communication.user_id rec = assigned_user res
    /\ Communication.department_id rec = c_department res
    /\ ((forall v, In v (users st) -> available_in (c_department res) v = false) ->
        Communication.user_id rec = None /\ assigned_user res = None).
Proof.
intros Hfresh.
unfold classify_incoming_communication.
destruct (let '(d, u) := apply_routing_rules st from_number to_number message_type in
          if negb (Py.truthy_opt d)
          then default_classification st from_number to_number content
          else (d, u)) as [target_dept target_user].
unfold create_communication_record.
rewrite (fresh_id st comm_id Hfresh).
eexists _, _, _. split; [reflexivity|].
rewrite communications_route_communication. simpl.
split; [reflexivity|].
repeat (split; [reflexivity|]).
intros Hnone. now rewrite (find_available_user_none st target_dept target_user Hnone).
Qed.

End Classify.

(** The demo store and call of [__main__], with the credit department
    left without users. *)
Definition credit_rule_only : Store :=
  set_routing_rules Directory.demo_sales
    [ {| RoutingRule.id := "r1"; RoutingRule.priority := 1;
         RoutingRule.condition_type := "phone_pattern";
         RoutingRule.condition_value := "555-CREDIT";
         RoutingRule.target_department := "credit_analysis";
         RoutingRule.target_user := None; RoutingRule.is_active := true |} ].

Lemma classify_logs_one_record_witness :
  exists st' res rec,
    classify_incoming_communication credit_rule_only "+1234567890" "555-CREDIT-01" "call"
      "Hi, I need help with my credit application" "c-1" "2024-01-01T00:00:00Z"
    = Returned (st', res)
    /\ communications st' = communications credit_rule_only ++ [rec]
    /\ c_department res = Some "credit_analysis"
    /\ Communication.user_id rec = None.
Proof.
destruct (classify_logs_one_record credit_rule_only "+1234567890" "555-CREDIT-01" "call"
            "Hi, I need help with my credit application" "c-1" "2024-01-01T00:00:00Z")
  as (st' & res & rec & Hret & Hcomms & _ & _ & _ & _ & _ & _ & _ & _ & Huser & _ & _).
- intros c [].
- exists st', res, rec.
  split; [exact Hret|]. split; [exact Hcomms|].
  vm_compute in Hret. inversion Hret; subst res.
  split; [reflexivity|]. rewrite Huser. reflexivity.
Defined.

End Dispatcher.

(** ** Phone registry *)

Module RegistryFacts.
Import OneTalkPhoneManager.









Lemma fits_int64_spec (z : Z) :
  Sql.fits_int64 z = true <-> - 2 ^ 63 <= z < 2 ^ 63.
Proof.
unfold Sql.fits_int64. rewrite andb_true_iff, Z.leb_le, Z.ltb_lt. tauto.
Qed.

Lemma fits_int64_false (z : Z) :
  Sql.fits_int64 z = false <-> ~ (- 2 ^ 63 <= z < 2 ^ 63).
Proof.
rewrite <- fits_int64_spec. destruct (Sql.fits_int64 z); split; intros; congruence.
Qed.

End RegistryFacts.

Module Registry.
Import OneTalkPhoneManager RegistryFacts.


(** A phone of the department is taken before a general phone of
    higher priority. *)
Example department_before_general :
  get_available_phone
    (set_phone_numbers empty_store
       [ {| PhoneNumber.id := "g"; PhoneNumber.phone_number := "+1-555-0100";
            PhoneNumber.department_id := None; PhoneNumber.user_id := None;
            PhoneNumber.status := "available"; PhoneNumber.type := "business";
            PhoneNumber.priority := 10; PhoneNumber.max_concurrent_calls := 1;
            PhoneNumber.current_calls := 0 |};
         {| PhoneNumber.id := "s"; PhoneNumber.phone_number := "+1-555-SALES-02";
            PhoneNumber.department_id := Some "sales"; PhoneNumber.user_id := None;
            PhoneNumber.status := "available"; PhoneNumber.type := "business";
            PhoneNumber.priority := 5; PhoneNumber.max_concurrent_calls := 1;
            PhoneNumber.current_calls := 0 |} ])
    (Some "sales") 1
  = Some "+1-555-SALES-02".
Proof. reflexivity. Qed.

(** The scenario of the specification: a department with no phone. *)
Example no_phone_for_department :
  get_available_phone empty_store (Some "sales") 1 = None.
Proof. reflexivity. Qed.

(** C5 (amended): when the number is already in [phone_numbers],
    [register_phone_number] returns the store it was given: no phone
    row and no stats row is added.  With [priority] and
    [max_concurrent] in the range of INTEGER it answers that the phone
    is already registered; with one of them outside that range it
    answers with the error of the binding. *)
Theorem register_phone_number_duplicate
    (st : Store) (phone_number : string) (department_id user_id : option string)
    (phone_type : string) (priority max_concurrent : Z) (phone_id today : string) :
  (exists p, In p (phone_numbers st) /\ PhoneNumber.phone_number p = phone_number) ->
  fst (register_phone_number st phone_number department_id user_id phone_type
         priority max_concurrent phone_id today) = st
  /\ (- 2 ^ 63 <= priority < 2 ^ 63 -> - 2 ^ 63 <= max_concurrent < 2 ^ 63 ->
      snd (register_phone_number st phone_number department_id user_id phone_type
             priority max_concurrent phone_id today)
      = ("❌ Phone " ++ phone_number ++ " already registered")%string)
  /\ (~ (- 2 ^ 63 <= priority < 2 ^ 63 /\ - 2 ^ 63 <= max_concurrent < 2 ^ 63) ->
      snd (register_phone_number st phone_number department_id user_id phone_type
             priority max_concurrent phone_id today)
      = "❌ Error registering phone: Python int too large to convert to SQLite INTEGER").
Proof.
intros (p & Hin & Hnum).
assert (Htaken : existsb (fun p => String.eqb (PhoneNumber.id p) phone_id
                                   || String.eqb (PhoneNumber.phone_number p) phone_number)
                         (phone_numbers st) = true).
{ apply existsb_exists. exists p. split; [exact Hin|].
  apply orb_true_iff. right. now apply String.eqb_eq. }
unfold register_phone_number. rewrite Htaken.
pose proof (fits_int64_spec priority) as Hp.
pose proof (fits_int64_spec max_concurrent) as Hm.
destruct (Sql.fits_int64 priority); destruct (Sql.fits_int64 max_concurrent);
  cbn [negb andb fst snd];
  (split; [reflexivity|]); split; intros;
  solve [reflexivity | exfalso; intuition congruence].
Qed.

Definition one_sales_phone : Store :=
  fst (register_phone_number empty_store "+1-555-SALES-01" (Some "sales") None
         "business" 10 1 "uuid-1" "2024-01-01").

(** C5, as stated, fails: the number is registered, and a priority that
    does not fit an INTEGER is answered with the error of the binding,
    which is not the duplicate-number answer. *)
Lemma register_phone_number_duplicate_unbound :
  (exists p, In p (phone_numbers one_sales_phone)
             /\ PhoneNumber.phone_number p = "+1-555-SALES-01")
  /\ register_phone_number one_sales_phone "+1-555-SALES-01" (Some "sales") None
       "business" (2 ^ 63) 1 "uuid-2" "2024-01-02"
     = (one_sales_phone,
        "❌ Error registering phone: Python int too large to convert to SQLite INTEGER")
  /\ snd (register_phone_number one_sales_phone "+1-555-SALES-01" (Some "sales") None
            "business" (2 ^ 63) 1 "uuid-2" "2024-01-02")
     <> "❌ Phone +1-555-SALES-01 already registered".
Proof.
split; [|split].
- eexists. split; [left; reflexivity|reflexivity].
- reflexivity.
- discriminate.
Qed.

Lemma register_phone_number_duplicate_witness :
  (exists p, In p (phone_numbers one_sales_phone)
             /\ PhoneNumber.phone_number p = "+1-555-SALES-01")
  /\ fst (register_phone_number one_sales_phone "+1-555-SALES-01"
            (Some "credit_analysis") None "business" 5 1 "uuid-2" "2024-01-02")
     = one_sales_phone
  /\ snd (register_phone_number one_sales_phone "+1-555-SALES-01"
            (Some "credit_analysis") None "business" 5 1 "uuid-2" "2024-01-02")
     = "❌ Phone +1-555-SALES-01 already registered".
Proof.
assert (Hex : exists p, In p (phone_numbers one_sales_phone)
                        /\ PhoneNumber.phone_number p = "+1-555-SALES-01").
{ eexists. split; [left; reflexivity|reflexivity]. }
pose proof (register_phone_number_duplicate one_sales_phone "+1-555-SALES-01"
              (Some "credit_analysis") None "business" 5 1 "uuid-2" "2024-01-02" Hex)
  as (Hstore & Hanswer & _).
split; [exact Hex|]. split; [exact Hstore|].
apply Hanswer; lia.
Defined.

End Registry.

(** ** End of a call *)

Module EndCallFacts.
Import OneTalkPhoneManager.

Lemma Forall2_map_graph {A : Type} (f : A -> A) (l : list A) :
  Forall2 (fun x y => y = f x) l (map f l).
Proof. induction l; simpl; constructor; auto. Qed.

Lemma find_map_stable {A : Type} (P : A -> bool) (f : A -> A) (l : list A) :
  (forall x, P (f x) = P x) ->
  find P (map f l) = option_map f (find P l).
Proof.
intros HP. induction l as [|x l IH]; simpl; [reflexivity|].
rewrite HP. destruct (P x); [reflexivity|exact IH].
Qed.

Ltac case_guard :=
  match goal with
  | |- context [if ?c then _ else _] => destruct c
  end.

Definition route_by_id (st : Store) (route_id : string) : option CallRouting.row :=
  find (fun r => String.eqb (CallRouting.id r) route_id) (call_routing st).












End EndCallFacts.

Module EndCall.
Import OneTalkPhoneManager EndCallFacts.



End EndCall.

(** ** Sequences of operations on the phone registry *)

Module SequentialFacts.
Import OneTalkPhoneManager Sequential.

Section Capacity.
Context `{Py.CaseOps}.

(** An operation stays within capacity when it registers a phone with a
    capacity that is not negative, or increments the count of a phone
    that has room.  The other two operations add no call to a line. *)
Definition within_capacity (st : Store) (op : operation) : Prop :=
  match op with
  | RegisterPhone _ _ _ _ _ max_concurrent _ _ => 0 <= max_concurrent
  | RouteCall _ _ _ _ _ _ => True
  | IncrementUsage phone_number usage_type _ =>
      usage_type = "call" ->
      forall p, In p (phone_numbers st) ->
                PhoneNumber.phone_number p = phone_number ->
                PhoneNumber.current_calls p < PhoneNumber.max_concurrent_calls p
  | EndCall _ _ _ => True
  end.

Fixpoint all_within_capacity (st : Store) (ops : list operation) : Prop :=
  match ops with
  | [] => True
  | op :: rest => within_capacity st op /\ all_within_capacity (step st op) rest
  end.

End Capacity.

(** The invariants of [phone_numbers]. *)
Definition nonnegative (st : Store) : Prop :=
  forall p, In p (phone_numbers st) -> 0 <= PhoneNumber.current_calls p.

Definition bounded (st : Store) : Prop :=
  forall p, In p (phone_numbers st) ->
            PhoneNumber.current_calls p <= PhoneNumber.max_concurrent_calls p.

Definition unique_numbers (st : Store) : Prop :=
  NoDup (map PhoneNumber.phone_number (phone_numbers st)).

(** The two updates of [current_calls]. *)
Definition bump (phone_number : string) (p : PhoneNumber.row) : PhoneNumber.row :=
  if String.eqb (PhoneNumber.phone_number p) phone_number
  then set_current_calls p (PhoneNumber.current_calls p + 1)
  else p.

Definition drop (routed_phone : option string) (p : PhoneNumber.row) : PhoneNumber.row :=
  if Sql.eq_null (Some (PhoneNumber.phone_number p)) routed_phone
  then set_current_calls p (Z.max 0 (PhoneNumber.current_calls p - 1))
  else p.

Lemma number_bump (n : string) (p : PhoneNumber.row) :
  PhoneNumber.phone_number (bump n p) = PhoneNumber.phone_number p.
Proof. unfold bump. destruct (String.eqb _ _); reflexivity. Qed.

Lemma number_drop (routed : option string) (p : PhoneNumber.row) :
  PhoneNumber.phone_number (drop routed p) = PhoneNumber.phone_number p.
Proof. unfold drop. destruct (Sql.eq_null _ _); reflexivity. Qed.

Lemma max_bump (n : string) (p : PhoneNumber.row) :
  PhoneNumber.max_concurrent_calls (bump n p) = PhoneNumber.max_concurrent_calls p.
Proof. unfold bump. destruct (String.eqb _ _); reflexivity. Qed.

Lemma max_drop (routed : option string) (p : PhoneNumber.row) :
  PhoneNumber.max_concurrent_calls (drop routed p) = PhoneNumber.max_concurrent_calls p.
Proof. unfold drop. destruct (Sql.eq_null _ _); reflexivity. Qed.

Lemma calls_bump (n : string) (p : PhoneNumber.row) :
  PhoneNumber.current_calls (bump n p) =
  if String.eqb (PhoneNumber.phone_number p) n
  then PhoneNumber.current_calls p + 1 else PhoneNumber.current_calls p.
Proof. unfold bump. destruct (String.eqb _ _); reflexivity. Qed.

Lemma calls_drop (routed : option string) (p : PhoneNumber.row) :
  PhoneNumber.current_calls (drop routed p) = PhoneNumber.current_calls p
  \/ PhoneNumber.current_calls (drop routed p) = Z.max 0 (PhoneNumber.current_calls p - 1).
Proof. unfold drop. destruct (Sql.eq_null _ _); simpl; auto. Qed.

Lemma phones_insert_or_ignore_stats (st : Store) (n today : string) :
  phone_numbers (insert_or_ignore_stats st n today) = phone_numbers st.
Proof. unfold insert_or_ignore_stats. destruct (existsb _ _); reflexivity. Qed.

Lemma phones_increment (st : Store) (n usage_type today : string) :
  phone_numbers (increment_phone_usage st n usage_type today) =
  if String.eqb usage_type "call"
  then map (bump n) (phone_numbers st) else phone_numbers st.
Proof.
unfold increment_phone_usage.
destruct (String.eqb usage_type "call") eqn:Hcall.
- simpl. now rewrite phones_insert_or_ignore_stats.
- destruct (String.eqb usage_type "sms"); [|reflexivity].
  simpl. now rewrite phones_insert_or_ignore_stats.
Qed.

Lemma phones_end_call (st : Store) (route_id : string) (d : Z) (today : string) :
  phone_numbers (end_call st route_id d today) =
  match EndCallFacts.route_by_id st route_id with
  | Some r => map (drop (CallRouting.routed_to_number r)) (phone_numbers st)
  | None => phone_numbers st
  end.
Proof.
unfold end_call, EndCallFacts.route_by_id.
destruct (find _ (call_routing st)); reflexivity.
Qed.

Lemma phones_register (st : Store) (n : string) (department_id user_id : option string)
    (phone_type : string) (priority max_concurrent : Z) (phone_id today : string) :
  phone_numbers (fst (register_phone_number st n department_id user_id phone_type
                        priority max_concurrent phone_id today)) = phone_numbers st
  \/ (~ In n (map PhoneNumber.phone_number (phone_numbers st))
      /\ exists new,
           phone_numbers (fst (register_phone_number st n department_id user_id
                                 phone_type priority max_concurrent phone_id today))
           = phone_numbers st ++ [new]
           /\ PhoneNumber.phone_number new = n
           /\ PhoneNumber.current_calls new = 0
           /\ PhoneNumber.max_concurrent_calls new = max_concurrent).
Proof.
unfold register_phone_number.
destruct (negb _); [now left|].
destruct (existsb _ (phone_numbers st)) eqn:Hex; [now left|right].
split.
- intros Hin. apply in_map_iff in Hin. destruct Hin as (p & Hn & Hp).
  assert (Ht : existsb (fun p => String.eqb (PhoneNumber.id p) phone_id
                                 || String.eqb (PhoneNumber.phone_number p) n)
                       (phone_numbers st) = true).
  { apply existsb_exists. exists p. split; [exact Hp|].
    apply orb_true_iff. right. now apply String.eqb_eq. }
  congruence.
- eexists. simpl. unfold update_phone_stats.
  rewrite phones_insert_or_ignore_stats. simpl.
  split; [reflexivity|]. repeat split.
Qed.

Section Route.
Context `{Py.CaseOps}.

(** [route_incoming_call] never returns: a taken route id fails the
    [INSERT], and otherwise the increment finds the file locked. *)
Lemma route_incoming_call_raises (st : Store) (from_number to_number : string)
    (department_hint : option string) (route_id timestamp today : string) :
  route_incoming_call st from_number to_number department_hint route_id timestamp today
  = Raised (if existsb (fun r => String.eqb (CallRouting.id r) route_id)
                       (call_routing st)
            then IntegrityError else OperationalError).
Proof.
unfold route_incoming_call.
destruct (match get_available_phone st _ 1 with
          | Some phone => _
          | None => _
          end) as [routed_phone routing_reason].
now destruct (existsb _ (call_routing st)).
Qed.

Lemma step_route (st : Store) (from_number to_number : string)
    (department_hint : option string) (route_id timestamp today : string) :
  step st (RouteCall from_number to_number department_hint route_id timestamp today) = st.
Proof. cbn [step]. now rewrite route_incoming_call_raises. Qed.

End Route.

End SequentialFacts.

Module Invariants.
Import OneTalkPhoneManager Sequential SequentialFacts.

Section Steps.
Context `{Py.CaseOps}.

(** What a step does to [phone_numbers]: nothing, one new row with no
    calls, or one of the two counter updates on the rows of a number. *)
Lemma step_phones (st : Store) (op : operation) :
  phone_numbers (step st op) = phone_numbers st
  \/ (exists new,
        phone_numbers (step st op) = phone_numbers st ++ [new]
        /\ ~ In (PhoneNumber.phone_number new)
               (map PhoneNumber.phone_number (phone_numbers st))
        /\ PhoneNumber.current_calls new = 0
        /\ (within_capacity st op -> 0 <= PhoneNumber.max_concurrent_calls new))
  \/ (exists n,
        phone_numbers (step st op) = map (bump n) (phone_numbers st)
        /\ (unique_numbers st -> within_capacity st op ->
            forall p, In p (phone_numbers st) -> PhoneNumber.phone_number p = n ->
                      PhoneNumber.current_calls p < PhoneNumber.max_concurrent_calls p))
  \/ (exists routed, phone_numbers (step st op) = map (drop routed) (phone_numbers st)).
Proof.
destruct op as [n dept user ty prio mx pid today
               |from_number to_number hint rid ts today
               |n usage today
               |rid d today]; cbn [step within_capacity].
- destruct (phones_register st n dept user ty prio mx pid today)
    as [Hsame|(Hnew & new & Heq & Hn & Hc & Hm)]; [now left|].
  right; left. exists new. rewrite Hn, Hm. auto.
- left. fold (step st (RouteCall from_number to_number hint rid ts today)).
  now rewrite step_route.
- rewrite phones_increment.
  destruct (String.eqb_spec usage "call") as [Hcall|]; [|now left].
  right; right; left. exists n. split; [reflexivity|].
  intros _ Hguard. now apply Hguard.
- rewrite phones_end_call.
  destruct (EndCallFacts.route_by_id st rid) as [r|]; [|now left].
  right; right; right. now exists (CallRouting.routed_to_number r).
Qed.

Lemma step_nonnegative (st : Store) (op : operation) :
  nonnegative st -> nonnegative (step st op).
Proof.
intros Hst p.
destruct (step_phones st op)
  as [Heq|[(new & Heq & _ & Hc & _)|[(n & Heq & _)|(routed & Heq)]]]; rewrite Heq.
- apply Hst.
- intros Hp. apply in_app_or in Hp. destruct Hp as [Hp|[<-|[]]]; [now apply Hst|lia].
- intros Hp. apply in_map_iff in Hp. destruct Hp as (q & <- & Hq).
  rewrite calls_bump. specialize (Hst q Hq). destruct (String.eqb _ _); lia.
- intros Hp. apply in_map_iff in Hp. destruct Hp as (q & <- & Hq).
  specialize (Hst q Hq). destruct (calls_drop routed q) as [-> | ->]; lia.
Qed.

Lemma step_unique (st : Store) (op : operation) :
  unique_numbers st -> unique_numbers (step st op).
Proof.
unfold unique_numbers. intros Hst.
destruct (step_phones st op)
  as [Heq|[(new & Heq & Hnew & _)|[(n & Heq & _)|(routed & Heq)]]]; rewrite Heq.
- exact Hst.
- rewrite map_app. simpl.
  apply (Permutation_NoDup (l := PhoneNumber.phone_number new
                                 :: map PhoneNumber.phone_number (phone_numbers st))).
  + apply Permutation_cons_append.
  + now constructor.
- rewrite map_map.
  erewrite map_ext; [exact Hst|]. intros p. apply number_bump.
- rewrite map_map.
  erewrite map_ext; [exact Hst|]. intros p. apply number_drop.
Qed.

Lemma step_bounded (st : Store) (op : operation) :
  nonnegative st -> unique_numbers st -> bounded st ->
  within_capacity st op -> bounded (step st op).
Proof.
intros Hnn Huniq Hst Hguard p.
destruct (step_phones st op)
  as [Heq|[(new & Heq & _ & Hc & Hm)|[(n & Heq & Hroom)|(routed & Heq)]]]; rewrite Heq.
- apply Hst.
- intros Hp. apply in_app_or in Hp. destruct Hp as [Hp|[<-|[]]]; [now apply Hst|].
  specialize (Hm Hguard). lia.
- intros Hp. apply in_map_iff in Hp. destruct Hp as (q & <- & Hq).
  rewrite calls_bump, max_bump. specialize (Hst q Hq).
  destruct (String.eqb_spec (PhoneNumber.phone_number q) n) as [Hn|]; [|lia].
  specialize (Hroom Huniq Hguard q Hq Hn). lia.
- intros Hp. apply in_map_iff in Hp. destruct Hp as (q & <- & Hq).
  rewrite max_drop. specialize (Hst q Hq). specialize (Hnn q Hq).
  destruct (calls_drop routed q) as [-> | ->]; lia.
Qed.

Lemma run_invariants (ops : list operation) (st : Store) :
  nonnegative st -> unique_numbers st ->
  nonnegative (run ops st) /\ unique_numbers (run ops st).
Proof.
revert st. induction ops as [|op ops IH]; simpl; intros st Hnn Huniq; [now split|].
apply IH; [now apply step_nonnegative | now apply step_unique].
Qed.

Lemma run_bounded (ops : list operation) (st : Store) :
  nonnegative st -> unique_numbers st -> bounded st ->
  all_within_capacity st ops -> bounded (run ops st).
Proof.
revert st. induction ops as [|op ops IH]; simpl; intros st Hnn Huniq Hb Hall; [exact Hb|].
destruct Hall as [Hop Hrest].
apply IH; auto.
- now apply step_nonnegative.
- now apply step_unique.
- now apply step_bounded.
Qed.

(** C1 (amended): in every state reached from the empty store by a
    sequence of [register_phone_number], [route_incoming_call],
    [increment_phone_usage] and [end_call], every phone has
    [0 <= current_calls]; it also has
    [current_calls <= max_concurrent_calls] when no phone was
    registered with a negative capacity and every call of
    [increment_phone_usage] for a call was on a phone with room. *)
Theorem current_calls_bounds (ops : list operation) (p : PhoneNumber.row) :
  In p (phone_numbers (run ops empty_store)) ->
  0 <= PhoneNumber.current_calls p
  /\ (all_within_capacity empty_store ops ->
      PhoneNumber.current_calls p <= PhoneNumber.max_concurrent_calls p).
Proof.
intros Hp.
assert (Hnn : nonnegative empty_store) by (intros q []).
assert (Huniq : unique_numbers empty_store) by constructor.
assert (Hb : bounded empty_store) by (intros q []).
split.
- now apply (proj1 (run_invariants ops empty_store Hnn Huniq)).
- intros Hall. now apply (run_bounded ops empty_store Hnn Huniq Hb Hall).
Qed.

End Steps.

End Invariants.

(** ** Scenarios *)

Module Scenarios.
Import OneTalkPhoneManager Sequential SequentialFacts EndCallFacts.

(** The phone of the first scenario of the specification, priority 10
    and room for one call. *)
Definition register_sales : operation :=
  RegisterPhone "+1-555-SALES-01" (Some "sales") None "business" 10 1 "uuid-1" "2024-01-01".

Definition first_call : operation :=
  RouteCall "+1-555-123-4567" "+1-555-SALES-01" None "route-1"
        "2024-01-01T10:00:00Z" "2024-01-01".

Definition second_call : operation :=
  RouteCall "+1-555-765-4321" "+1-555-SALES-01" None "route-2"
        "2024-01-01T10:01:00Z" "2024-01-01".

Definition sales_line (calls : Z) : PhoneNumber.row :=
  {| PhoneNumber.id := "uuid-1"; PhoneNumber.phone_number := "+1-555-SALES-01";
     PhoneNumber.department_id := Some "sales"; PhoneNumber.user_id := None;
     PhoneNumber.status := "available"; PhoneNumber.type := "business";
     PhoneNumber.priority := 10; PhoneNumber.max_concurrent_calls := 1;
     PhoneNumber.current_calls := calls |}.

(** A call to a free line is not placed: the increment finds the file
    locked by the routing row that is not yet committed. *)
Example first_call_raises :
  route_incoming_call (run [register_sales] empty_store)
    "+1-555-123-4567" "+1-555-SALES-01" None "route-1" "2024-01-01T10:00:00Z" "2024-01-01"
  = Raised OperationalError.
Proof. reflexivity. Qed.

Example routed_calls_leave_no_trace :
  run [register_sales; first_call; second_call] empty_store
  = run [register_sales] empty_store.
Proof. reflexivity. Qed.

Definition increment_sales : operation :=
  IncrementUsage "+1-555-SALES-01" "call" "2024-01-01".

(** A phone registered with a negative capacity. *)
Definition register_closed : operation :=
  RegisterPhone "+1-555-ADMIN-01" (Some "admin") None "business" 5 (-1) "uuid-2"
    "2024-01-01".

Definition closed_line : PhoneNumber.row :=
  {| PhoneNumber.id := "uuid-2"; PhoneNumber.phone_number := "+1-555-ADMIN-01";
     PhoneNumber.department_id := Some "admin"; PhoneNumber.user_id := None;
     PhoneNumber.status := "available"; PhoneNumber.type := "business";
     PhoneNumber.priority := 5; PhoneNumber.max_concurrent_calls := -1;
     PhoneNumber.current_calls := 0 |}.

(** C1, as stated, fails: one phone with room for one call, and two
    calls of [increment_phone_usage] for it, leave the line with two
    calls; and a phone registered with a negative capacity is above it
    from the start. *)
Lemma current_calls_exceed_capacity :
  In (sales_line 2)
     (phone_numbers (run [register_sales; increment_sales; increment_sales]
                       empty_store))
  /\ ~ (0 <= PhoneNumber.current_calls (sales_line 2)
          <= PhoneNumber.max_concurrent_calls (sales_line 2))
  /\ In closed_line (phone_numbers (run [register_closed] empty_store))
  /\ ~ (0 <= PhoneNumber.current_calls closed_line
          <= PhoneNumber.max_concurrent_calls closed_line).
Proof.
split; [left; reflexivity|].
split; [simpl; lia|].
split; [left; reflexivity|].
simpl. lia.
Qed.

Lemma current_calls_bounds_witness :
  In (sales_line 1)
     (phone_numbers (run [register_sales; increment_sales] empty_store))
  /\ 0 <= PhoneNumber.current_calls (sales_line 1)
  /\ PhoneNumber.current_calls (sales_line 1)
     <= PhoneNumber.max_concurrent_calls (sales_line 1).
Proof.
assert (Hin : In (sales_line 1)
                 (phone_numbers (run [register_sales; increment_sales] empty_store)))
  by (left; reflexivity).
destruct (Invariants.current_calls_bounds [register_sales; increment_sales]
            (sales_line 1) Hin)
  as [Hlow Hhigh].
split; [exact Hin|]. split; [exact Hlow|].
apply Hhigh. simpl. split; [lia|]. split; [|exact I].
intros _ p [<-|[]] _. simpl. lia.
Defined.

(** A store with a call in progress on the sales line: the routing
    row of the call, the line carrying it, and the stats row of the
    day the call came in. *)
Definition first_route : CallRouting.row :=
  {| CallRouting.id := "route-1"; CallRouting.from_number := "+1-555-123-4567";
     CallRouting.to_number := "+1-555-SALES-01";
     CallRouting.routed_to_number := Some "+1-555-SALES-01";
     CallRouting.routed_to_user := None; CallRouting.department := Some "sales";
     CallRouting.routing_reason := Some "normal_routing";
     CallRouting.timestamp := "2024-01-01T10:00:00Z";
     CallRouting.call_duration := None; CallRouting.status := "active" |}.

Definition sales_day (calls duration : Z) : PhoneStats.row :=
  {| PhoneStats.id := "+1-555-SALES-01_2024-01-01";
     PhoneStats.phone_number := "+1-555-SALES-01"; PhoneStats.date := "2024-01-01";
     PhoneStats.total_calls := calls; PhoneStats.total_sms := 0;
     PhoneStats.total_duration := duration;
     PhoneStats.department_breakdown := None |}.

Definition one_active_call : Store :=
  {| users := []; departments := []; communications := []; routing_rules := [];
     phone_numbers := [sales_line 1]; call_routing := [first_route];
     phone_stats := [sales_day 1 0] |}.




(** On the day of the call the same [end_call] does add the duration. *)
Example end_call_same_day :
  phone_stats (end_call one_active_call "route-1" 60 "2024-01-01") = [sales_day 1 60].
Proof. reflexivity. Qed.

End Scenarios.

(** ** Routing a call to a line *)

Module RoutingFacts.
Import OneTalkPhoneManager Sequential SequentialFacts EndCallFacts.

Lemma call_routing_insert_or_ignore_stats (st : Store) (n today : string) :
  call_routing (insert_or_ignore_stats st n today) = call_routing st.
Proof. unfold insert_or_ignore_stats. destruct (existsb _ _); reflexivity. Qed.

Lemma call_routing_increment (st : Store) (n usage_type today : string) :
  call_routing (increment_phone_usage st n usage_type today) = call_routing st.
Proof.
unfold increment_phone_usage.
destruct (String.eqb usage_type "call").
- simpl. now rewrite call_routing_insert_or_ignore_stats.
- destruct (String.eqb usage_type "sms"); [|reflexivity].
  simpl. now rewrite call_routing_insert_or_ignore_stats.
Qed.

Lemma increment_frame (st : Store) (n usage_type today : string) :
  users (increment_phone_usage st n usage_type today) = users st
  /\ departments (increment_phone_usage st n usage_type today) = departments st
  /\ communications (increment_phone_usage st n usage_type today) = communications st
  /\ routing_rules (increment_phone_usage st n usage_type today) = routing_rules st.
Proof.
unfold increment_phone_usage, insert_or_ignore_stats.
destruct (String.eqb usage_type "call"); [|destruct (String.eqb usage_type "sms")];
  simpl; try (destruct (existsb _ _)); simpl; auto.
Qed.

Lemma find_fresh_last {A : Type} (P : A -> bool) (l : list A) (x : A) :
  existsb P l = false -> P x = true -> find P (l ++ [x]) = Some x.
Proof.
induction l as [|y l IH]; simpl; intros Hl Hx.
- now rewrite Hx.
- apply orb_false_iff in Hl. destruct Hl as [Hy Hl]. rewrite Hy. now apply IH.
Qed.

End RoutingFacts.

Module Routing.
Import OneTalkPhoneManager Sequential SequentialFacts EndCallFacts RoutingFacts.

Section Routes.
Context `{Py.CaseOps}.

(** X3: [route_incoming_call] returns for no store and no arguments.
    When the route id is already a key of [call_routing] the [INSERT]
    raises [IntegrityError]; otherwise the increment of the usage,
    which writes through a second connection while the routing row is
    not committed, raises [OperationalError].  Either way nothing is
    written: the step leaves the store as it was. *)
Theorem route_incoming_call_never_returns
    (st : Store) (from_number to_number : string) (department_hint : option string)
    (route_id timestamp today : string) :
  (forall st' info,
     route_incoming_call st from_number to_number department_hint route_id timestamp
       today <> Returned (st', info))
  /\ ((exists r, In r (call_routing st) /\ CallRouting.id r = route_id) ->
      route_incoming_call st from_number to_number department_hint route_id timestamp
        today = Raised IntegrityError)
  /\ ((forall r, In r (call_routing st) -> CallRouting.id r <> route_id) ->
      route_incoming_call st from_number to_number department_hint route_id timestamp
        today = Raised OperationalError)
  /\ step st (RouteCall from_number to_number department_hint route_id timestamp today)
     = st.
Proof.
rewrite route_incoming_call_raises. split; [|split; [|split]].
- intros st' info. discriminate.
- intros (r & Hr & Hid).
  replace (existsb _ (call_routing st)) with true; [reflexivity|].
  symmetry. apply existsb_exists. exists r. split; [exact Hr|].
  now apply String.eqb_eq.
- intros Hfresh.
  replace (existsb _ (call_routing st)) with false; [reflexivity|].
  symmetry. apply not_true_is_false. intros Hex.
  apply existsb_exists in Hex. destruct Hex as (r & Hr & Hid).
  apply String.eqb_eq in Hid. exact (Hfresh r Hr Hid).
- apply step_route.
Qed.

End Routes.

End Routing.

(** ** Overflow *)

Module OverflowFacts.
Import OneTalkPhoneManager.

(** The first key of the cross-department order decides alone which
    priority comes out, whatever the loads are. *)
Lemma overflow_before_priority (a b : PhoneNumber.row) :
  overflow_before a b = true -> PhoneNumber.priority b <= PhoneNumber.priority a.
Proof.
unfold overflow_before. intros Hab. apply orb_true_iff in Hab.
destruct Hab as [Hp|Hl].
- apply Z.ltb_lt in Hp. lia.
- apply andb_true_iff in Hl. destruct Hl as [Hp _]. apply Z.eqb_eq in Hp. lia.
Qed.

Lemma not_overflow_before_priority (a b : PhoneNumber.row) :
  overflow_before a b = false -> PhoneNumber.priority a <= PhoneNumber.priority b.
Proof.
unfold overflow_before. intros Hab. apply orb_false_iff in Hab.
destruct Hab as [Hp _]. now apply Z.ltb_ge in Hp.
Qed.

Lemma limit1_overflow_top (rows : list PhoneNumber.row) (m : PhoneNumber.row) :
  Sql.limit1 overflow_before rows = Some m ->
  forall q, In q rows -> PhoneNumber.priority q <= PhoneNumber.priority m.
Proof.
revert m. induction rows as [|r rest IH]; cbn [Sql.limit1]; intros m Hm q Hq;
  [destruct Hq|].
destruct (Sql.limit1 overflow_before rest) as [m'|] eqn:Hrest.
- specialize (IH m' eq_refl).
  destruct (overflow_before m' r) eqn:Hb; inversion Hm; subst m.
  + apply overflow_before_priority in Hb.
    destruct Hq as [<-|Hq]; [exact Hb|now apply IH].
  + apply not_overflow_before_priority in Hb.
    destruct Hq as [<-|Hq]; [lia|]. specialize (IH q Hq). lia.
- inversion Hm; subst m. apply SqlFacts.limit1_none in Hrest. subst rest.
  destruct Hq as [<-|[]]. lia.
Qed.

End OverflowFacts.

Module Overflow.
Import OneTalkPhoneManager OverflowFacts.

(** X4: overflow keeps the call in the department when one of its
    phones has status [available], whatever the priorities elsewhere;
    failing that it takes an available phone that no available phone
    outranks in priority; it falls back to the voicemail number only
    when no phone is available. *)
Theorem handle_overflow_routing_choice (st : Store) (department : string) :
  (exists p, In p (phone_numbers st)
             /\ PhoneNumber.department_id p = Some department
             /\ PhoneNumber.status p = "available"
             /\ handle_overflow_routing st department
                = (PhoneNumber.phone_number p, "overflow_same_department"))
  \/ ((forall q, In q (phone_numbers st) ->
                 PhoneNumber.department_id q = Some department ->
                 PhoneNumber.status q <> "available")
      /\ exists p, In p (phone_numbers st)
                   /\ PhoneNumber.status p = "available"
                   /\ (forall q, In q (phone_numbers st) ->
                                 PhoneNumber.status q = "available" ->
                                 PhoneNumber.priority q <= PhoneNumber.priority p)
                   /\ handle_overflow_routing st department
                      = (PhoneNumber.phone_number p, "overflow_cross_department"))
  \/ ((forall q, In q (phone_numbers st) -> PhoneNumber.status q <> "available")
      /\ handle_overflow_routing st department
         = ("+1-555-VOICE-MAIL", "overflow_voicemail")).
Proof.
assert (Hdept : forall q, in_department department q = true
                          <-> PhoneNumber.department_id q = Some department).
{ intros q. unfold in_department, Sql.eq_null.
  destruct (PhoneNumber.department_id q) as [d|].
  - rewrite String.eqb_eq. split; congruence.
  - split; discriminate. }
assert (Havail : forall q, is_available q = true <-> PhoneNumber.status q = "available").
{ intros q. unfold is_available. apply String.eqb_eq. }
unfold handle_overflow_routing.
destruct (Sql.limit1 load_lt _) as [m|] eqn:Hm.
- left. apply SqlFacts.limit1_in, filter_In in Hm. destruct Hm as [Hin Hc].
  apply andb_true_iff in Hc. destruct Hc as [Hd Ha].
  exists m. apply Hdept in Hd. apply Havail in Ha. tauto.
- right. apply SqlFacts.limit1_none in Hm.
  assert (Hnodept : forall q, In q (phone_numbers st) ->
                      PhoneNumber.department_id q = Some department ->
                      PhoneNumber.status q <> "available").
  { intros q Hq Hd Ha.
    assert (Hf : In q (filter (fun p => in_department department p && is_available p)
                              (phone_numbers st))).
    { apply filter_In. split; [exact Hq|].
      apply andb_true_iff. split; [now apply Hdept | now apply Havail]. }
    rewrite Hm in Hf. destruct Hf. }
  destruct (Sql.limit1 overflow_before _) as [m|] eqn:Hm2.
  + left. split; [exact Hnodept|].
    pose proof (SqlFacts.limit1_in _ _ _ Hm2) as Hin.
    apply filter_In in Hin. destruct Hin as [Hin Ha].
    exists m. split; [exact Hin|]. split; [now apply Havail|]. split; [|reflexivity].
    intros q Hq Hqa.
    apply (limit1_overflow_top _ _ Hm2).
    apply filter_In. split; [exact Hq | now apply Havail].
  + right. split; [|reflexivity].
    apply SqlFacts.limit1_none in Hm2. intros q Hq Ha.
    assert (Hf : In q (filter is_available (phone_numbers st)))
      by (apply filter_In; split; [exact Hq | now apply Havail]).
    rewrite Hm2 in Hf. destruct Hf.
Qed.

(** Loads are compared as REAL quotients: 9007199254740993 calls on a
    line for 9007199254740992 is the same load as one call on a line
    for one, and the first of the two lines in the table comes out. *)
Example equal_real_loads :
  handle_overflow_routing
    (set_phone_numbers empty_store
       [ {| PhoneNumber.id := "a"; PhoneNumber.phone_number := "+1-555-SALES-01";
            PhoneNumber.department_id := Some "sales"; PhoneNumber.user_id := None;
            PhoneNumber.status := "available"; PhoneNumber.type := "business";
            PhoneNumber.priority := 5;
            PhoneNumber.max_concurrent_calls := 9007199254740992;
            PhoneNumber.current_calls := 9007199254740993 |};
         {| PhoneNumber.id := "b"; PhoneNumber.phone_number := "+1-555-SALES-02";
            PhoneNumber.department_id := Some "sales"; PhoneNumber.user_id := None;
            PhoneNumber.status := "available"; PhoneNumber.type := "business";
            PhoneNumber.priority := 5; PhoneNumber.max_concurrent_calls := 1;
            PhoneNumber.current_calls := 1 |} ])
    "sales"
  = ("+1-555-SALES-01", "overflow_same_department").
Proof. reflexivity. Qed.

End Overflow.

(** ** Registering and assigning lines *)

Module LinesFacts.
Import OneTalkPhoneManager RegistryFacts.

Lemma rowcount_positive {A : Type} (P : A -> bool) (l : list A) :
  (0 <? Z.of_nat (List.length (filter P l))) = existsb P l.
Proof.
induction l as [|x l IH]; simpl; [reflexivity|].
destruct (P x); simpl; [|exact IH].
apply Z.ltb_lt. lia.
Qed.

Lemma filter_none {A : Type} (P : A -> bool) (l : list A) :
  (forall x, In x l -> P x = false) -> filter P l = [].
Proof.
induction l as [|x l IH]; simpl; intros Hall; [reflexivity|].
rewrite (Hall x (or_introl eq_refl)). apply IH. intros y Hy. apply Hall. now right.
Qed.

Lemma registered_spec (st : Store) (n : string) :
  existsb (fun p => String.eqb (PhoneNumber.phone_number p) n) (phone_numbers st) = true
  <-> In n (map PhoneNumber.phone_number (phone_numbers st)).
Proof.
rewrite existsb_exists, in_map_iff.
split; intros (p & H1 & H2); exists p.
- apply String.eqb_eq in H2. tauto.
- split; [exact H2 | now apply String.eqb_eq].
Qed.

Lemma department_of_number_first (st : Store) (n d : string) :
  In n (map PhoneNumber.phone_number (phone_numbers st)) ->
  (forall p, In p (phone_numbers st) -> PhoneNumber.phone_number p = n ->
             PhoneNumber.department_id p = Some d) ->
  department_of_number st n = Some d.
Proof.
unfold department_of_number. intros Hin Hall.
induction (phone_numbers st) as [|p l IH]; simpl in *; [contradiction|].
destruct (String.eqb_spec (PhoneNumber.phone_number p) n) as [Hn|Hn]; simpl.
- rewrite (Hall p (or_introl eq_refl) Hn). simpl. now apply Hall; [left|].
- apply IH.
  + destruct Hin as [Hin|Hin]; [contradiction|exact Hin].
  + intros q Hq. apply Hall. now right.
Qed.

Lemma department_of_number_found (st : Store) (n d : string) :
  department_of_number st n = Some d ->
  exists p, In p (phone_numbers st) /\ PhoneNumber.phone_number p = n
            /\ PhoneNumber.department_id p = Some d.
Proof.
unfold department_of_number.
destruct (find _ (phone_numbers st)) as [p|] eqn:Hf; [|discriminate].
intros Hd. apply find_some in Hf. destruct Hf as [Hin Hp].
apply andb_true_iff in Hp. destruct Hp as [Hn _]. apply String.eqb_eq in Hn.
exists p. tauto.
Qed.

Lemma department_of_number_none (st : Store) (n : string) :
  department_of_number st n = None ->
  forall p, In p (phone_numbers st) -> PhoneNumber.phone_number p = n ->
            PhoneNumber.department_id p = None.
Proof.
unfold department_of_number.
destruct (find _ (phone_numbers st)) as [p|] eqn:Hf.
- apply find_some in Hf. destruct Hf as [_ Hp].
  apply andb_true_iff in Hp. destruct Hp as [_ Hd].
  destruct (PhoneNumber.department_id p); discriminate.
- intros _ p Hp Hn.
  pose proof (find_none _ _ Hf p Hp) as Hnone. simpl in Hnone.
  apply String.eqb_eq in Hn. rewrite Hn in Hnone. simpl in Hnone.
  destruct (PhoneNumber.department_id p); [discriminate|reflexivity].
Qed.

(** Rows that agree on every column but [department_id]. *)
Definition same_but_department (p p' : PhoneNumber.row) : Prop :=
  PhoneNumber.id p' = PhoneNumber.id p
  /\ PhoneNumber.phone_number p' = PhoneNumber.phone_number p
  /\ PhoneNumber.user_id p' = PhoneNumber.user_id p
  /\ PhoneNumber.status p' = PhoneNumber.status p
  /\ PhoneNumber.type p' = PhoneNumber.type p
  /\ PhoneNumber.priority p' = PhoneNumber.priority p
  /\ PhoneNumber.max_concurrent_calls p' = PhoneNumber.max_concurrent_calls p
  /\ PhoneNumber.current_calls p' = PhoneNumber.current_calls p.

End LinesFacts.

Module Lines.
Import OneTalkPhoneManager RegistryFacts LinesFacts.


Section Departments.
Context `{Py.CaseOps}.

(** X6: [assign_phone_to_department] on a number that is not registered
    answers that the phone was not found and changes nothing; on a
    registered number it sets the department of the rows of that
    number, touches no other column and no other row, leaves the six
    other tables as they were, and [determine_target_department] for
    that number, without a hint, then gives the department assigned. *)
Theorem assign_phone_to_department_effect
    (st : Store) (phone_number department_id : string) :
  (~ In phone_number (map PhoneNumber.phone_number (phone_numbers st)) ->
   assign_phone_to_department st phone_number department_id
   = (st, ("❌ Phone " ++ phone_number ++ " not found")%string))
  /\ (In phone_number (map PhoneNumber.phone_number (phone_numbers st)) ->
      snd (assign_phone_to_department st phone_number department_id)
      = ("✅ Phone " ++ phone_number ++ " assigned to " ++ department_id)%string
      /\ Forall2 (fun p p' =>
                    (PhoneNumber.phone_number p = phone_number ->
                     same_but_department p p'
                     /\ PhoneNumber.department_id p' = Some department_id)
                    /\ (PhoneNumber.phone_number p <> phone_number -> p' = p))
           (phone_numbers st)
           (phone_numbers (fst (assign_phone_to_department st phone_number department_id)))
      /\ phone_stats (fst (assign_phone_to_department st phone_number department_id))
         = phone_stats st
      /\ call_routing (fst (assign_phone_to_department st phone_number department_id))
         = call_routing st
      /\ users (fst (assign_phone_to_department st phone_number department_id))
         = users st
      /\ departments (fst (assign_phone_to_department st phone_number department_id))
         = departments st
      /\ communications (fst (assign_phone_to_department st phone_number department_id))
         = communications st
      /\ routing_rules (fst (assign_phone_to_department st phone_number department_id))
         = routing_rules st
      /\ determine_target_department
           (fst (assign_phone_to_department st phone_number department_id))
           phone_number None = department_id).
Proof.
unfold assign_phone_to_department. rewrite rowcount_positive.
split.
- intros Hnot. destruct (existsb _ _) eqn:E; [|reflexivity].
  apply registered_spec in E. contradiction.
- intros Hin. apply registered_spec in Hin. rewrite Hin. cbn [fst snd].
  split; [reflexivity|]. split.
  { simpl. eapply Forall2_impl; [|apply EndCallFacts.Forall2_map_graph].
    intros p p' ->. cbv beta.
    destruct (String.eqb_spec (PhoneNumber.phone_number p) phone_number) as [Hn|Hn].
    - split; [intros _; repeat split|intros Hne; contradiction].
    - split; [intros Heq; contradiction|reflexivity]. }
  repeat (split; [reflexivity|]).
  unfold determine_target_department.
  rewrite (department_of_number_first _ phone_number department_id); [reflexivity| |].
  + simpl. rewrite map_map. apply registered_spec in Hin.
    apply in_map_iff in Hin. destruct Hin as (p & Hn & Hp).
    apply in_map_iff. exists p. split; [|exact Hp].
    rewrite Hn, String.eqb_refl. exact Hn.
  + simpl. intros p' Hp' Hn'. apply in_map_iff in Hp'. destruct Hp' as (p & <- & Hp).
    destruct (String.eqb_spec (PhoneNumber.phone_number p) phone_number) as [E|E].
    * reflexivity.
    * contradiction.
Qed.

(** X7: [determine_target_department] returns a non-empty hint as it
    is; otherwise the department of a phone registered under the called
    number, when one has a department; otherwise one of the five
    default departments. *)
Theorem determine_target_department_range
    (st : Store) (to_number : string) (department_hint : option string) :
  (forall hint, department_hint = Some hint -> hint <> "" ->
     determine_target_department st to_number department_hint = hint)
  /\ ((department_hint = None \/ department_hint = Some "") ->
      (exists p, In p (phone_numbers st)
                 /\ PhoneNumber.phone_number p = to_number
                 /\ PhoneNumber.department_id p
                    = Some (determine_target_department st to_number department_hint))
      \/ ((forall p, In p (phone_numbers st) ->
                     PhoneNumber.phone_number p = to_number ->
                     PhoneNumber.department_id p = None)
          /\ In (determine_target_department st to_number department_hint)
                ["sales"; "credit_analysis"; "vehicle_transport";
                 "customer_service"; "general"])).
Proof.
assert (Hby :
  (exists p, In p (phone_numbers st)
             /\ PhoneNumber.phone_number p = to_number
             /\ PhoneNumber.department_id p
                = Some (determine_target_department st to_number None))
  \/ ((forall p, In p (phone_numbers st) ->
                 PhoneNumber.phone_number p = to_number ->
                 PhoneNumber.department_id p = None)
      /\ In (determine_target_department st to_number None)
            ["sales"; "credit_analysis"; "vehicle_transport";
             "customer_service"; "general"])).
{ unfold determine_target_department.
  destruct (department_of_number st to_number) as [d|] eqn:Hd.
  - left. now apply department_of_number_found.
  - right. split; [now apply department_of_number_none|].
    repeat match goal with |- context [if ?c then _ else _] => destruct c end;
      simpl; tauto. }
split.
- intros hint -> Hne. unfold determine_target_department.
  replace (Py.truthy hint) with true; [reflexivity|].
  symmetry. unfold Py.truthy. now apply negb_true_iff, String.eqb_neq.
- intros [->| ->]; exact Hby.
Qed.

End Departments.

End Lines.

(** ** Usage counters *)

Module UsageFacts.
Import OneTalkPhoneManager EndCallFacts.

Definition stats_row (st : Store) (phone_number date : string) : option PhoneStats.row :=
  find (stats_of (Some phone_number) date) (phone_stats st).

(** The three counters of a phone on a day, zero when there is no row,
    as [get_daily_stats] reads them. *)
Definition calls_on (st : Store) (phone_number date : string) : Z :=
  match stats_row st phone_number date with
  | Some s => PhoneStats.total_calls s
  | None => 0
  end.

Definition sms_on (st : Store) (phone_number date : string) : Z :=
  match stats_row st phone_number date with
  | Some s => PhoneStats.total_sms s
  | None => 0
  end.

Definition duration_on (st : Store) (phone_number date : string) : Z :=
  match stats_row st phone_number date with
  | Some s => PhoneStats.total_duration s
  | None => 0
  end.

(** No other phone or day holds the id that [phone_number] and [date]
    are given in [phone_stats]. *)
Definition id_is_own (st : Store) (phone_number date : string) : Prop :=
  forall s, In s (phone_stats st) ->
            PhoneStats.id s = (phone_number ++ "_" ++ date)%string ->
            PhoneStats.phone_number s = phone_number /\ PhoneStats.date s = date.

Lemma stats_of_spec (n date : string) (s : PhoneStats.row) :
  stats_of (Some n) date s = true
  <-> PhoneStats.phone_number s = n /\ PhoneStats.date s = date.
Proof.
unfold stats_of, Sql.eq_null. now rewrite andb_true_iff, !String.eqb_eq.
Qed.

(** After [INSERT OR IGNORE], the row of the phone and the day is there:
    the old one, or a new one with all counters at zero. *)
Lemma stats_row_after_insert (st : Store) (n today : string) :
  id_is_own st n today ->
  stats_row (insert_or_ignore_stats st n today) n today =
  match stats_row st n today with
  | Some s => Some s
  | None => Some {| PhoneStats.id := (n ++ "_" ++ today)%string;
                    PhoneStats.phone_number := n; PhoneStats.date := today;
                    PhoneStats.total_calls := 0; PhoneStats.total_sms := 0;
                    PhoneStats.total_duration := 0;
                    PhoneStats.department_breakdown := None |}
  end.
Proof.
intros Hown. unfold stats_row, insert_or_ignore_stats.
destruct (find _ (phone_stats st)) as [s|] eqn:Hs.
- replace (existsb _ (phone_stats st)) with true; [exact Hs|].
  symmetry. apply existsb_exists. apply find_some in Hs. destruct Hs as [Hin Hs].
  exists s. split; [exact Hin|]. unfold stats_conflict.
  apply stats_of_spec in Hs. destruct Hs as [-> ->].
  rewrite !String.eqb_refl. apply orb_true_r.
- replace (existsb _ (phone_stats st)) with false.
  + simpl. apply RoutingFacts.find_fresh_last.
    * destruct (existsb _ _) eqn:E; [|reflexivity].
      apply existsb_exists in E. destruct E as (s & Hin & Hm).
      now rewrite (find_none _ _ Hs s Hin) in Hm.
    * apply stats_of_spec. now split.
  + symmetry. destruct (existsb _ _) eqn:E; [|reflexivity].
    apply existsb_exists in E. destruct E as (s & Hin & Hc).
    pose proof (find_none _ _ Hs s Hin) as Hno.
    assert (Hyes : stats_of (Some n) today s = true); [|congruence].
    apply stats_of_spec. unfold stats_conflict in Hc.
    apply orb_true_iff in Hc. destruct Hc as [Hid|Hkey].
    * apply String.eqb_eq in Hid. now apply Hown.
    * apply andb_true_iff in Hkey. now rewrite !String.eqb_eq in Hkey.
Qed.

Lemma stats_row_update (st : Store) (n today : string)
    (f : PhoneStats.row -> PhoneStats.row) :
  (forall s, stats_of (Some n) today (f s) = stats_of (Some n) today s) ->
  stats_row (set_phone_stats st
               (map (fun s => if stats_of (Some n) today s then f s else s)
                    (phone_stats st))) n today
  = option_map f (stats_row st n today).
Proof.
intros Hf. unfold stats_row. simpl.
rewrite find_map_stable.
- destruct (find _ (phone_stats st)) as [s|] eqn:Hs; [|reflexivity].
  simpl. apply find_some in Hs. destruct Hs as [_ Hs]. now rewrite Hs.
- intros s. destruct (stats_of (Some n) today s) eqn:E; [|exact E].
  now rewrite Hf.
Qed.

End UsageFacts.

Module Usage.
Import OneTalkPhoneManager EndCallFacts UsageFacts.

(** X8: when the stats id of the phone and the day is not held by
    another phone or day, [increment_phone_usage] with [call] adds one
    to the calls counted for that phone on that day, creating the row
    if there is none, and leaves the sms and duration counts; with
    [sms] it adds one to the sms count, leaves the other two and
    changes no phone row; with any other usage type it changes
    nothing. *)
Theorem increment_phone_usage_counts (st : Store) (phone_number today : string) :
  id_is_own st phone_number today ->
  (calls_on (increment_phone_usage st phone_number "call" today) phone_number today
   = calls_on st phone_number today + 1
   /\ sms_on (increment_phone_usage st phone_number "call" today) phone_number today
      = sms_on st phone_number today
   /\ duration_on (increment_phone_usage st phone_number "call" today) phone_number today
      = duration_on st phone_number today)
  /\ (sms_on (increment_phone_usage st phone_number "sms" today) phone_number today
      = sms_on st phone_number today + 1
      /\ calls_on (increment_phone_usage st phone_number "sms" today) phone_number today
         = calls_on st phone_number today
      /\ duration_on (increment_phone_usage st phone_number "sms" today) phone_number today
         = duration_on st phone_number today
      /\ phone_numbers (increment_phone_usage st phone_number "sms" today)
         = phone_numbers st)
  /\ (forall usage_type, usage_type <> "call" -> usage_type <> "sms" ->
        increment_phone_usage st phone_number usage_type today = st).
Proof.
intros Hown. split; [|split].
- unfold increment_phone_usage. simpl.
  set (st1 := set_phone_numbers st _).
  assert (Hown1 : id_is_own st1 phone_number today) by exact Hown.
  pose proof (stats_row_after_insert st1 phone_number today Hown1) as Hins.
  unfold calls_on, sms_on, duration_on.
  rewrite !stats_row_update by (intros s; reflexivity).
  rewrite Hins. change (stats_row st1 phone_number today)
    with (stats_row st phone_number today).
  destruct (stats_row st phone_number today); simpl; repeat split; lia.
- unfold increment_phone_usage. simpl.
  pose proof (stats_row_after_insert st phone_number today Hown) as Hins.
  unfold calls_on, sms_on, duration_on.
  rewrite !stats_row_update by (intros s; reflexivity).
  rewrite Hins.
  split; [|split; [|split]];
    try (destruct (stats_row st phone_number today); simpl; lia).
  simpl. apply SequentialFacts.phones_insert_or_ignore_stats.
- intros usage_type Hcall Hsms. unfold increment_phone_usage.
  apply String.eqb_neq in Hcall, Hsms. now rewrite Hcall, Hsms.
Qed.

End Usage.

(** ** Keys of the schema *)

Module SchemaFacts.
Import OneTalkSystem OneTalkPhoneManager Sequential SequentialFacts System.

Definition unique_on {A K : Type} (key : A -> K) (l : list A) : Prop :=
  NoDup (map key l).

(** [PRIMARY KEY] and [UNIQUE] of the seven tables. *)
Record schema_ok (st : Store) : Prop := {
  users_pk : unique_on User.id (users st);
  departments_pk : unique_on Department.id (departments st);
  communications_pk : unique_on Communication.id (communications st);
  routing_rules_pk : unique_on RoutingRule.id (routing_rules st);
  phone_numbers_pk : unique_on PhoneNumber.id (phone_numbers st);
  phone_numbers_unique : unique_on PhoneNumber.phone_number (phone_numbers st);
  call_routing_pk : unique_on CallRouting.id (call_routing st);
  phone_stats_pk : unique_on PhoneStats.id (phone_stats st);
  phone_stats_unique :
    unique_on (fun s => (PhoneStats.phone_number s, PhoneStats.date s)) (phone_stats st)
}.

Lemma unique_on_map {A K : Type} (key : A -> K) (f : A -> A) (l : list A) :
  (forall x, key (f x) = key x) -> unique_on key l -> unique_on key (map f l).
Proof.
unfold unique_on. intros Hf Hl. rewrite map_map.
erewrite map_ext; [exact Hl|]. exact Hf.
Qed.

Lemma unique_on_snoc {A K : Type} (key : A -> K) (l : list A) (x : A) :
  unique_on key l -> ~ In (key x) (map key l) -> unique_on key (l ++ [x]).
Proof.
unfold unique_on. intros Hl Hx. rewrite map_app. simpl.
apply (Permutation_NoDup (l := key x :: map key l)).
- apply Permutation_cons_append.
- now constructor.
Qed.

Lemma unique_on_filter {A K : Type} (key : A -> K) (P : A -> bool) (l : list A) :
  unique_on key l -> unique_on key (filter P l).
Proof.
unfold unique_on. induction l as [|x l IH]; simpl; intros Hl; [constructor|].
inversion Hl as [|? ? Hx Hl']; subst.
destruct (P x); simpl; [|now apply IH].
constructor; [|now apply IH].
intros Hin. apply Hx. apply in_map_iff in Hin. destruct Hin as (y & Hy & Hin).
apply filter_In in Hin. rewrite <- Hy. apply in_map. tauto.
Qed.

Lemma not_in_keys {A : Type} (key : A -> string) (k : string) (l : list A) :
  existsb (fun y => String.eqb (key y) k) l = false -> ~ In k (map key l).
Proof.
intros Hex Hin. apply in_map_iff in Hin. destruct Hin as (y & Hy & Hin).
assert (Ht : existsb (fun y => String.eqb (key y) k) l = true).
{ apply existsb_exists. exists y. split; [exact Hin|]. now apply String.eqb_eq. }
congruence.
Qed.

(** [INSERT OR REPLACE] on a text key. *)
Lemma unique_on_replace {A : Type} (key : A -> string) (l : list A) (x : A) :
  unique_on key l ->
  unique_on key (filter (fun y => negb (String.eqb (key y) (key x))) l ++ [x]).
Proof.
intros Hl. apply unique_on_snoc; [now apply unique_on_filter|].
intros Hin. apply in_map_iff in Hin. destruct Hin as (y & Hy & Hin).
apply filter_In in Hin. destruct Hin as [_ Hne].
apply negb_true_iff, String.eqb_neq in Hne. contradiction.
Qed.

Lemma stats_insert_or_ignore_pk (st : Store) (n today : string) :
  unique_on PhoneStats.id (phone_stats st) ->
  unique_on PhoneStats.id (phone_stats (insert_or_ignore_stats st n today)).
Proof.
intros Hst. unfold insert_or_ignore_stats.
destruct (existsb _ (phone_stats st)) eqn:Hex; [exact Hst|]. simpl.
apply unique_on_snoc; [exact Hst|]. simpl.
intros Hin. apply in_map_iff in Hin. destruct Hin as (s & Hid & Hin).
assert (Ht : existsb (stats_conflict (n ++ "_" ++ today) n today) (phone_stats st) = true).
{ apply existsb_exists. exists s. split; [exact Hin|].
  unfold stats_conflict. rewrite Hid, String.eqb_refl. reflexivity. }
congruence.
Qed.

Lemma stats_insert_or_ignore_unique (st : Store) (n today : string) :
  unique_on (fun s => (PhoneStats.phone_number s, PhoneStats.date s)) (phone_stats st) ->
  unique_on (fun s => (PhoneStats.phone_number s, PhoneStats.date s))
    (phone_stats (insert_or_ignore_stats st n today)).
Proof.
intros Hst. unfold insert_or_ignore_stats.
destruct (existsb _ (phone_stats st)) eqn:Hex; [exact Hst|]. simpl.
apply unique_on_snoc; [exact Hst|]. simpl.
intros Hin. apply in_map_iff in Hin. destruct Hin as (s & Hkey & Hin).
inversion Hkey as [[Hn Hd]].
assert (Ht : existsb (stats_conflict (n ++ "_" ++ today) n today) (phone_stats st) = true).
{ apply existsb_exists. exists s. split; [exact Hin|].
  unfold stats_conflict. rewrite Hn, Hd, !String.eqb_refl. apply orb_true_r. }
congruence.
Qed.

Lemma insert_or_ignore_frame (st : Store) (n today : string) :
  users (insert_or_ignore_stats st n today) = users st
  /\ departments (insert_or_ignore_stats st n today) = departments st
  /\ communications (insert_or_ignore_stats st n today) = communications st
  /\ routing_rules (insert_or_ignore_stats st n today) = routing_rules st
  /\ phone_numbers (insert_or_ignore_stats st n today) = phone_numbers st
  /\ call_routing (insert_or_ignore_stats st n today) = call_routing st.
Proof.
unfold insert_or_ignore_stats. destruct (existsb _ _); simpl; repeat split.
Qed.

Lemma schema_insert_or_ignore (st : Store) (n today : string) :
  schema_ok st -> schema_ok (insert_or_ignore_stats st n today).
Proof.
intros [H1 H2 H3 H4 H5 H6 H7 H8 H9].
destruct (insert_or_ignore_frame st n today) as (E1 & E2 & E3 & E4 & E5 & E6).
constructor; rewrite ?E1, ?E2, ?E3, ?E4, ?E5, ?E6; auto.
- now apply stats_insert_or_ignore_pk.
- now apply stats_insert_or_ignore_unique.
Qed.

(** Updates that keep every key of the rows they touch. *)
Lemma schema_update (st : Store)
    (fu : User.row -> User.row) (fp : PhoneNumber.row -> PhoneNumber.row)
    (fr : CallRouting.row -> CallRouting.row) (fs : PhoneStats.row -> PhoneStats.row) :
  (forall u, User.id (fu u) = User.id u) ->
  (forall p, PhoneNumber.id (fp p) = PhoneNumber.id p
             /\ PhoneNumber.phone_number (fp p) = PhoneNumber.phone_number p) ->
  (forall r, CallRouting.id (fr r) = CallRouting.id r) ->
  (forall s, PhoneStats.id (fs s) = PhoneStats.id s
             /\ PhoneStats.phone_number (fs s) = PhoneStats.phone_number s
             /\ PhoneStats.date (fs s) = PhoneStats.date s) ->
  schema_ok st ->
  schema_ok {| users := map fu (users st); departments := departments st;
               communications := communications st;
               routing_rules := routing_rules st;
               phone_numbers := map fp (phone_numbers st);
               call_routing := map fr (call_routing st);
               phone_stats := map fs (phone_stats st) |}.
Proof.
intros Hu Hp Hr Hs [H1 H2 H3 H4 H5 H6 H7 H8 H9].
constructor; simpl; auto; apply unique_on_map; auto; intros x.
- apply Hp.
- apply Hp.
- apply Hs.
- destruct (Hs x) as (_ & -> & ->). reflexivity.
Qed.

Lemma store_eta (st : Store) :
  st = {| users := users st; departments := departments st;
          communications := communications st; routing_rules := routing_rules st;
          phone_numbers := phone_numbers st; call_routing := call_routing st;
          phone_stats := phone_stats st |}.
Proof. now destruct st. Qed.

End SchemaFacts.

Module Schema.
Import OneTalkSystem OneTalkPhoneManager Sequential SequentialFacts System SchemaFacts.

Ltac case_if :=
  cbv beta;
  match goal with
  | |- context [if ?c then _ else _] => destruct c
  end.

Lemma schema_set_users (st : Store) (v : list User.row) :
  schema_ok st -> unique_on User.id v -> schema_ok (set_users st v).
Proof. intros [] Hv. constructor; simpl; auto. Qed.

Lemma schema_set_departments (st : Store) (v : list Department.row) :
  schema_ok st -> unique_on Department.id v -> schema_ok (set_departments st v).
Proof. intros [] Hv. constructor; simpl; auto. Qed.

Lemma schema_set_communications (st : Store) (v : list Communication.row) :
  schema_ok st -> unique_on Communication.id v -> schema_ok (set_communications st v).
Proof. intros [] Hv. constructor; simpl; auto. Qed.

Lemma schema_set_routing_rules (st : Store) (v : list RoutingRule.row) :
  schema_ok st -> unique_on RoutingRule.id v -> schema_ok (set_routing_rules st v).
Proof. intros [] Hv. constructor; simpl; auto. Qed.

Lemma schema_set_call_routing (st : Store) (v : list CallRouting.row) :
  schema_ok st -> unique_on CallRouting.id v -> schema_ok (set_call_routing st v).
Proof. intros [] Hv. constructor; simpl; auto. Qed.

Lemma schema_set_phone_numbers (st : Store) (v : list PhoneNumber.row) :
  schema_ok st -> unique_on PhoneNumber.id v -> unique_on PhoneNumber.phone_number v ->
  schema_ok (set_phone_numbers st v).
Proof. intros [] Hv Hw. constructor; simpl; auto. Qed.

Lemma schema_set_phone_stats (st : Store) (v : list PhoneStats.row) :
  schema_ok st -> unique_on PhoneStats.id v ->
  unique_on (fun s => (PhoneStats.phone_number s, PhoneStats.date s)) v ->
  schema_ok (set_phone_stats st v).
Proof. intros [] Hv Hw. constructor; simpl; auto. Qed.

Lemma schema_create_department (st : Store) (dept_id name : string)
    (lead_user_id : option string) (phone_numbers : option (list string)) :
  schema_ok st ->
  schema_ok (fst (create_department st dept_id name lead_user_id phone_numbers)).
Proof.
intros Hst. unfold create_department. cbn [fst].
apply schema_set_departments; [exact Hst|].
match goal with
| |- unique_on _ (_ ++ [?new]) =>
    apply (unique_on_replace Department.id (departments st) new)
end.
apply Hst.
Qed.

Section Methods.
Context `{Py.CaseOps}.

Lemma schema_add_user (st : Store) (user_id name department : string)
    (phone_number : option string) (role : string) :
  schema_ok st ->
  schema_ok (fst (add_user st user_id name department phone_number role)).
Proof.
intros Hst. unfold add_user. cbn [fst].
match goal with
| |- schema_ok (update_department_membership ?st1 _ _) =>
    assert (H1 : schema_ok st1)
end.
{ apply schema_set_users; [exact Hst|].
  match goal with
  | |- unique_on _ (_ ++ [?new]) =>
      apply (unique_on_replace User.id (users st) new)
  end.
  apply Hst. }
unfold update_department_membership.
destruct (find _ _); [exact H1|].
now apply schema_create_department.
Qed.

Lemma schema_update_user_status (st : Store) (user_id : option string) (status : string) :
  schema_ok st -> schema_ok (update_user_status st user_id status).
Proof.
intros Hst. unfold update_user_status.
apply schema_set_users; [exact Hst|].
apply unique_on_map; [|apply Hst].
intros u. now destruct (Sql.eq_null _ _).
Qed.

Lemma schema_classify (st : Store)
    (from_number to_number message_type content comm_id timestamp : string) :
  schema_ok st ->
  schema_ok
    match classify_incoming_communication st from_number to_number message_type
            content comm_id timestamp with
    | Returned (st', _) => st'
    | Raised _ => st
    end.
Proof.
intros Hst. unfold classify_incoming_communication.
destruct (let '(d, u) := apply_routing_rules st from_number to_number message_type in
          if negb (Py.truthy_opt d)
          then default_classification st from_number to_number content
          else (d, u)) as [target_dept target_user].
unfold create_communication_record.
destruct (existsb _ (communications st)) eqn:Hex; [exact Hst|].
unfold route_communication.
match goal with
| |- schema_ok (if _ then update_user_status ?st1 _ _ else _) =>
    assert (H1 : schema_ok st1)
end.
{ apply schema_set_communications; [exact Hst|].
  apply unique_on_snoc; [apply Hst|]. simpl.
  now apply (not_in_keys Communication.id). }
destruct (String.eqb message_type "call"); [|exact H1].
now apply schema_update_user_status.
Qed.

Lemma schema_add_routing_rule (st : Store)
    (condition_type condition_value target_department : string)
    (target_user : option string) (priority : Z) (rule_id : string) :
  schema_ok st ->
  schema_ok
    match add_routing_rule st condition_type condition_value target_department
            target_user priority rule_id with
    | Returned (st', _) => st'
    | Raised _ => st
    end.
Proof.
intros Hst. unfold add_routing_rule.
destruct (existsb _ (routing_rules st)) eqn:Hex; [exact Hst|].
apply schema_set_routing_rules; [exact Hst|].
apply unique_on_snoc; [apply Hst|]. simpl.
now apply (not_in_keys RoutingRule.id).
Qed.

Lemma schema_assign_phone (st : Store) (phone_number department_id : string) :
  schema_ok st ->
  schema_ok (fst (assign_phone_to_department st phone_number department_id)).
Proof.
intros Hst. unfold assign_phone_to_department.
destruct (0 <? _); [|exact Hst]. cbn [fst].
apply schema_set_phone_numbers; [exact Hst| |];
  (apply unique_on_map; [|apply Hst]); intros p; now destruct (String.eqb _ _).
Qed.

Lemma schema_register (st : Store) (n : string) (department_id user_id : option string)
    (phone_type : string) (priority max_concurrent : Z) (phone_id today : string) :
  schema_ok st ->
  schema_ok (fst (register_phone_number st n department_id user_id phone_type
                    priority max_concurrent phone_id today)).
Proof.
intros Hst. unfold register_phone_number.
destruct (negb _); [exact Hst|].
destruct (existsb _ (phone_numbers st)) eqn:Hex; [exact Hst|]. cbn [fst].
unfold update_phone_stats. apply schema_insert_or_ignore.
assert (Hid : existsb (fun p => String.eqb (PhoneNumber.id p) phone_id)
                      (phone_numbers st) = false
              /\ existsb (fun p => String.eqb (PhoneNumber.phone_number p) n)
                         (phone_numbers st) = false).
{ clear Hst. induction (phone_numbers st) as [|p l IH]; simpl in *; [now split|].
  apply orb_false_iff in Hex. destruct Hex as [Hp Hl].
  apply orb_false_iff in Hp. destruct Hp as [Hp1 Hp2].
  rewrite Hp1, Hp2. simpl. now apply IH. }
destruct Hid as [Hid Hnum].
apply schema_set_phone_numbers; [exact Hst| |].
- apply unique_on_snoc; [apply Hst|]. simpl. now apply (not_in_keys PhoneNumber.id).
- apply unique_on_snoc; [apply Hst|]. simpl.
  now apply (not_in_keys PhoneNumber.phone_number).
Qed.

Lemma schema_increment (st : Store) (n usage_type today : string) :
  schema_ok st -> schema_ok (increment_phone_usage st n usage_type today).
Proof.
intros Hst. unfold increment_phone_usage.
assert (Hbump : schema_ok
          (set_phone_numbers st
             (map (fun p => if String.eqb (PhoneNumber.phone_number p) n
                            then set_current_calls p (PhoneNumber.current_calls p + 1)
                            else p)
                  (phone_numbers st)))).
{ apply schema_set_phone_numbers; [exact Hst| |];
    (apply unique_on_map; [|apply Hst]); intros p; now destruct (String.eqb _ _). }
assert (Hcount : forall st0 (g : PhoneStats.row -> PhoneStats.row),
          (forall s, PhoneStats.id (g s) = PhoneStats.id s
                     /\ PhoneStats.phone_number (g s) = PhoneStats.phone_number s
                     /\ PhoneStats.date (g s) = PhoneStats.date s) ->
          schema_ok st0 ->
          schema_ok (set_phone_stats st0
                       (map (fun s => if stats_of (Some n) today s then g s else s)
                            (phone_stats st0)))).
{ intros st0 g Hg H0.
  apply schema_set_phone_stats; [exact H0| |];
    (apply unique_on_map; [|apply H0]); intros s;
    destruct (stats_of _ _ s); try reflexivity.
  - apply Hg.
  - destruct (Hg s) as (_ & -> & ->). reflexivity. }
destruct (String.eqb usage_type "call").
- apply (Hcount _ (fun s => set_counters s _ _ _)); [now intros s|].
  now apply schema_insert_or_ignore.
- destruct (String.eqb usage_type "sms"); [|exact Hst].
  apply (Hcount _ (fun s => set_counters s _ _ _)); [now intros s|].
  now apply schema_insert_or_ignore.
Qed.

Lemma schema_end_call (st : Store) (route_id : string) (d : Z) (today : string) :
  schema_ok st -> schema_ok (end_call st route_id d today).
Proof.
intros Hst. unfold end_call.
destruct (find _ (call_routing st)) as [r|]; [|exact Hst].
apply schema_set_phone_stats.
- apply schema_set_phone_numbers.
  + apply schema_set_call_routing; [exact Hst|].
    apply unique_on_map; [|apply Hst]. intros x. now case_if.
  + simpl. apply unique_on_map; [|apply Hst]. intros p. now case_if.
  + simpl. apply unique_on_map; [|apply Hst]. intros p. now case_if.
- simpl. apply unique_on_map; [|apply Hst]. intros s. now case_if.
- simpl. apply unique_on_map; [|apply Hst]. intros s. now case_if.
Qed.

Lemma schema_route (st : Store) (from_number to_number : string)
    (department_hint : option string) (route_id timestamp today : string) :
  schema_ok st ->
  schema_ok
    match route_incoming_call st from_number to_number department_hint
            route_id timestamp today with
    | Returned (st', _) => st'
    | Raised _ => st
    end.
Proof.
intros Hst. now rewrite SequentialFacts.route_incoming_call_raises.
Qed.

Lemma schema_apply_call (st : Store) (c : method_call) :
  schema_ok st -> schema_ok (apply_call st c).
Proof.
intros Hst. destruct c as [? ? ? ? ?|? ? ? ?|? ? ? ? ? ?|? ?|? ? ? ? ? ?|? ?|op];
  cbn [apply_call].
- now apply schema_add_user.
- now apply schema_create_department.
- now apply schema_classify.
- now apply schema_update_user_status.
- now apply schema_add_routing_rule.
- now apply schema_assign_phone.
- destruct op; cbn [step].
  + now apply schema_register.
  + now apply schema_route.
  + now apply schema_increment.
  + now apply schema_end_call.
Qed.

(** X9: every [PRIMARY KEY] and [UNIQUE] constraint of the seven tables
    holds in every state that a sequence of calls to the writing
    methods of the two classes reaches from the empty store. *)
Theorem schema_kept (calls : list method_call) :
  schema_ok (execute calls empty_store).
Proof.
assert (Hgen : forall st, schema_ok st -> schema_ok (execute calls st)).
{ induction calls as [|c calls IH]; simpl; intros st Hst; [exact Hst|].
  apply IH. now apply schema_apply_call. }
apply Hgen. constructor; simpl; constructor.
Qed.

End Methods.

End Schema.

(** ** Adding routing rules *)

Module NewRulesFacts.
Import OneTalkSystem RoutingRules.

Section Sorting.
Context {A : Type} (before : A -> A -> bool) (P : A -> bool).
Hypothesis before_asym : SqlFacts.asymmetric before.
Hypothesis before_negtrans : SqlFacts.negatively_transitive before.

Lemma filter_insert_row_out (x : A) (S : list A) :
  P x = false -> filter P (Sql.insert_row before x S) = filter P S.
Proof.
intros Hx. induction S as [|y S IH]; simpl.
- now rewrite Hx.
- destruct (before y x); simpl.
  + now rewrite IH.
  + now rewrite Hx.
Qed.

Lemma filter_insert_row_in (x : A) (S : list A) :
  P x = true -> StronglySorted (SqlFacts.not_after before) S ->
  filter P (Sql.insert_row before x S) = Sql.insert_row before x (filter P S).
Proof.
intros Hx HS. induction HS as [|y S HS IH Hy]; simpl.
- now rewrite Hx.
- destruct (before y x) eqn:Hyx; simpl.
  + rewrite IH. destruct (P y); simpl; [now rewrite Hyx|reflexivity].
  + rewrite Hx.
    assert (Hhead : forall l, (forall z, In z l -> before z x = false) ->
                              Sql.insert_row before x l = x :: l).
    { intros l Hl. destruct l as [|z l]; [reflexivity|].
      simpl. now rewrite (Hl z (or_introl eq_refl)). }
    rewrite Hhead; [reflexivity|].
    intros z Hz.
    assert (Hzy : z = y \/ In z S).
    { destruct (P y); [destruct Hz as [<-|Hz]; [now left|]|];
        right; apply filter_In in Hz; tauto. }
    destruct Hzy as [->|Hz']; [exact Hyx|].
    apply before_negtrans with y; [|exact Hyx].
    apply (proj1 (Forall_forall _ _) Hy z Hz').
Qed.

(** Sorting and selecting commute. *)
Lemma filter_order_by (l : list A) :
  filter P (Sql.order_by before l) = Sql.order_by before (filter P l).
Proof.
induction l as [|x l IH]; simpl; [reflexivity|].
destruct (P x) eqn:Hx; simpl.
- rewrite filter_insert_row_in; [now rewrite IH|exact Hx|].
  now apply SqlFacts.order_by_sorted.
- now rewrite filter_insert_row_out.
Qed.

Lemma order_by_snoc_first (l : list A) (x : A) :
  (forall y, In y l -> before x y = true) ->
  Sql.order_by before (l ++ [x]) = x :: Sql.order_by before l.
Proof.
induction l as [|y l IH]; simpl; intros Hl; [reflexivity|].
rewrite IH by (intros z Hz; apply Hl; now right).
simpl. now rewrite (Hl y (or_introl eq_refl)).
Qed.

End Sorting.

Section Scan.
Context `{Py.CaseOps}.

Lemma scan_rules_filter (from_number to_number : string) (l : list RoutingRule.row) :
  scan_rules from_number to_number l
  = scan_rules from_number to_number (filter (rule_matches from_number to_number) l).
Proof.
induction l as [|r l IH]; simpl; [reflexivity|].
destruct (rule_matches from_number to_number r) eqn:Hr; simpl; [now rewrite Hr|exact IH].
Qed.

(** The result of [apply_routing_rules] in terms of the matching active
    rules alone. *)
Lemma apply_routing_rules_matching (st : Store) (from_number to_number message_type : string) :
  apply_routing_rules st from_number to_number message_type
  = scan_rules from_number to_number
      (Sql.order_by priority_before
         (filter (rule_matches from_number to_number)
                 (filter RoutingRule.is_active (routing_rules st)))).
Proof.
unfold apply_routing_rules, fetch_active_rules. fold priority_before.
rewrite scan_rules_filter.
now rewrite (filter_order_by priority_before _ priority_before_asym
               priority_before_negtrans).
Qed.

End Scan.

End NewRulesFacts.

Module NewRules.
Import OneTalkSystem RoutingRules NewRulesFacts.

Section Rules.
Context `{Py.CaseOps}.

(** A rule that matches nothing can be appended without effect. *)
Lemma rule_without_matcher (st : Store) (new : RoutingRule.row)
    (from_number to_number message_type : string) :
  rule_matches from_number to_number new = false ->
  apply_routing_rules (set_routing_rules st (routing_rules st ++ [new]))
    from_number to_number message_type
  = apply_routing_rules st from_number to_number message_type.
Proof.
intros Hnew. rewrite !apply_routing_rules_matching. simpl.
rewrite !filter_app. simpl.
destruct (RoutingRule.is_active new); simpl; [rewrite Hnew|]; simpl;
  now rewrite !app_nil_r.
Qed.

Lemma unknown_condition_type (from_number to_number : string) (r : RoutingRule.row) :
  RoutingRule.condition_type r <> "phone_pattern" ->
  RoutingRule.condition_type r <> "department" ->
  rule_matches from_number to_number r = false.
Proof.
intros Hpp Hdep. unfold rule_matches.
apply String.eqb_neq in Hpp, Hdep. rewrite Hpp, Hdep.
now destruct (String.eqb (RoutingRule.condition_type r) "time_based").
Qed.

(** X10: a rule added with a condition type other than [phone_pattern]
    and [department] (so [time_based], or any type the loop does not
    know) never changes what [apply_routing_rules] returns, for any
    communication. *)
Theorem add_routing_rule_inert
    (st st' : Store) (msg : string)
    (condition_type condition_value target_department : string)
    (target_user : option string) (priority : Z) (rule_id : string) :
  condition_type <> "phone_pattern" -> condition_type <> "department" ->
  add_routing_rule st condition_type condition_value target_department
    target_user priority rule_id = Returned (st', msg) ->
  forall from_number to_number message_type,
    apply_routing_rules st' from_number to_number message_type
    = apply_routing_rules st from_number to_number message_type.
Proof.
intros Hpp Hdep Hadd from_number to_number message_type.
unfold add_routing_rule in Hadd.
destruct (existsb _ (routing_rules st)); [discriminate|].
inversion Hadd as [[Hst' Hmsg]]. clear Hadd Hmsg.
apply rule_without_matcher.
now apply unknown_condition_type.
Qed.

(** X11: once a [phone_pattern] rule is added, a communication whose
    sender or recipient number contains its value is routed to the
    department and user of that rule, provided every active rule that
    matched the communication before has a larger priority number. *)
Theorem add_routing_rule_takes_effect
    (st st' : Store) (msg : string)
    (condition_value target_department : string)
    (target_user : option string) (priority : Z) (rule_id : string)
    (from_number to_number message_type : string) :
  add_routing_rule st "phone_pattern" condition_value target_department
    target_user priority rule_id = Returned (st', msg) ->
  Py.contains condition_value from_number || Py.contains condition_value to_number = true ->
  (forall r, In r (routing_rules st) -> RoutingRule.is_active r = true ->
             rule_matches from_number to_number r = true ->
             priority < RoutingRule.priority r) ->
  apply_routing_rules st' from_number to_number message_type
  = (Some target_department, target_user).
Proof.
intros Hadd Hcontains Hlower.
unfold add_routing_rule in Hadd.
destruct (existsb _ (routing_rules st)); [discriminate|].
inversion Hadd as [[Hst' Hmsg]]. clear Hadd Hmsg.
rewrite apply_routing_rules_matching. simpl.
rewrite !filter_app. simpl.
unfold rule_matches at 2. simpl. rewrite Hcontains. simpl.
rewrite order_by_snoc_first.
- simpl. unfold rule_matches. simpl. now rewrite Hcontains.
- intros r Hr. apply filter_In in Hr. destruct Hr as [Hr Hm].
  apply filter_In in Hr. destruct Hr as [Hr Ha].
  unfold priority_before. simpl. apply Z.ltb_lt. now apply Hlower.
Qed.

End Rules.

End NewRules.

(** ** Classified communications *)

Module ClassifiedFacts.
Import OneTalkSystem DirectoryFacts.

Lemma find_available_user_row
    (st : Store) (department preferred_user : option string) (uid : string) :
  find_available_user st department preferred_user = Some uid ->
  exists u, In u (users st) /\ User.id u = uid /\ User.status u = "available".
Proof.
intros Hres.
destruct (find_available_user_cases st department preferred_user)
  as [(p & Hp & Ht & Hok & Hres')|[Hno Hres']]; rewrite Hres' in Hres.
- inversion Hres; subst p. destruct Hok as (u & Hin & Hid & Hd & Hs).
  exists u. tauto.
- pose proof (general_query_chosen st department) as Hgen.
  rewrite Hres in Hgen. simpl in Hgen.
  destruct Hgen as (u & Hin & Hid & Hav & _).
  apply available_in_spec in Hav. exists u. tauto.
Qed.

(** Every group of [GROUP BY] takes its department and user from a row. *)
Lemma add_to_groups_from_row (c : Communication.row) (groups : list customer_group)
    (g : customer_group) :
  In g (add_to_groups c groups) ->
  (g_department g = Communication.department_id c /\ g_user g = Communication.user_id c)
  \/ exists g0, In g0 groups /\ g_department g = g_department g0 /\ g_user g = g_user g0.
Proof.
induction groups as [|g1 groups IH]; simpl.
- intros [<-|[]]. now left.
- destruct (same_group c g1).
  + intros [Hg|Hg]; right.
    * exists g1. subst g. simpl. auto.
    * exists g. auto.
  + intros [Hg|Hg].
    * right. exists g1. subst g. auto.
    * destruct (IH Hg) as [Hc|(g0 & Hg0 & Hd)]; [now left|].
      right. exists g0. auto.
Qed.

Lemma group_rows_from_rows (rows : list Communication.row) (g : customer_group) :
  In g (group_rows rows) ->
  exists c, In c rows /\ g_department g = Communication.department_id c
            /\ g_user g = Communication.user_id c.
Proof.
unfold group_rows.
assert (Hgen : forall acc,
  In g (fold_left (fun groups c => add_to_groups c groups) rows acc) ->
  (exists c, In c rows /\ g_department g = Communication.department_id c
             /\ g_user g = Communication.user_id c)
  \/ exists g0, In g0 acc /\ g_department g = g_department g0 /\ g_user g = g_user g0).
{ induction rows as [|c rows IH]; simpl; intros acc Hg.
  - right. exists g. auto.
  - destruct (IH _ Hg) as [(c' & Hc' & Hd)|(g0 & Hg0 & Hd0 & Hu0)].
    + left. exists c'. auto.
    + destruct (add_to_groups_from_row _ _ _ Hg0) as [[Hd Hu]|(g1 & Hg1 & Hd1 & Hu1)].
      * left. exists c. split; [now left|]. split; congruence.
      * right. exists g1. split; [exact Hg1|]. split; congruence. }
intros Hg. destruct (Hgen [] Hg) as [Hc|(g0 & [] & _)]. exact Hc.
Qed.

Lemma grouped_in (rows : list Communication.row) (g : customer_group) :
  In g (grouped rows) <-> In g (group_rows rows).
Proof.
unfold grouped. split; apply Permutation_in.
- apply SqlFacts.order_by_perm.
- symmetry. apply SqlFacts.order_by_perm.
Qed.

Lemma find_existing_customer_from_row (st : Store) (phone_number : string)
    (g : customer_group) :
  find_existing_customer st phone_number = Some g ->
  exists c, In c (communications st)
            /\ g_department g = Communication.department_id c
            /\ g_user g = Communication.user_id c.
Proof.
unfold find_existing_customer. intros Hg.
apply SqlFacts.limit1_in, grouped_in, group_rows_from_rows in Hg.
destruct Hg as (c & Hc & Hd). apply filter_In in Hc. exists c. tauto.
Qed.

Definition has_department (c : Communication.row) : Prop :=
  exists d, Communication.department_id c = Some d /\ d <> "".

Section Classify.
Context `{Py.CaseOps}.

(** The department and the user hint that
    [classify_incoming_communication] settles on. *)
Definition target (st : Store) (from_number to_number message_type content : string)
    : option string * option string :=
  let '(d, u) := apply_routing_rules st from_number to_number message_type in
  if negb (Py.truthy_opt d)
  then default_classification st from_number to_number content
  else (d, u).

Definition logged (st : Store) (from_number to_number message_type content : string)
    (comm_id timestamp : string) : Communication.row :=
  let t := target st from_number to_number message_type content in
  {| Communication.id := comm_id;
     Communication.timestamp := timestamp;
     Communication.from_number := from_number;
     Communication.to_number := to_number;
     Communication.user_id := find_available_user st (fst t) (snd t);
     Communication.department_id := fst t;
     Communication.type := message_type;
     Communication.content := content;
     Communication.status := "active";
     Communication.duration := None |}.

Lemma classify_eq (st : Store)
    (from_number to_number message_type content comm_id timestamp : string) :
  classify_incoming_communication st from_number to_number message_type content
    comm_id timestamp
  = if existsb (fun c => String.eqb (Communication.id c) comm_id) (communications st)
    then Raised IntegrityError
    else
      let t := target st from_number to_number message_type content in
      let rec := logged st from_number to_number message_type content
                   comm_id timestamp in
      Returned
        (route_communication
           (set_communications st (communications st ++ [rec]))
           comm_id (Communication.user_id rec) (fst t) message_type content,
         {| communication_id := comm_id;
            assigned_user := Communication.user_id rec;
            c_department := fst t;
            routing_method := if Py.truthy_opt (fst t) then "rules" else "default" |}).
Proof.
unfold classify_incoming_communication, logged, target.
destruct (let '(d, u) := apply_routing_rules st from_number to_number message_type in
          if negb (Py.truthy_opt d)
          then default_classification st from_number to_number content
          else (d, u)) as [target_dept target_user].
unfold create_communication_record.
destruct (existsb _ (communications st)); reflexivity.
Qed.

Lemma apply_routing_rules_same_rules (st st1 : Store)
    (from_number to_number message_type : string) :
  routing_rules st1 = routing_rules st ->
  apply_routing_rules st1 from_number to_number message_type
  = apply_routing_rules st from_number to_number message_type.
Proof. unfold apply_routing_rules, fetch_active_rules. now intros ->. Qed.

Lemma target_without_rule (st : Store)
    (from_number to_number message_type content : string) :
  apply_routing_rules st from_number to_number message_type = (None, None) ->
  target st from_number to_number message_type content
  = default_classification st from_number to_number content.
Proof. unfold target. now intros ->. Qed.

Lemma target_has_department (st : Store)
    (from_number to_number message_type content : string) :
  (forall c, In c (communications st) -> has_department c) ->
  exists d, fst (target st from_number to_number message_type content) = Some d
            /\ d <> "".
Proof.
intros Hall. unfold target.
destruct (apply_routing_rules st from_number to_number message_type) as [d u].
destruct d as [d|]; simpl.
- unfold Py.truthy. destruct (String.eqb_spec d "") as [->|Hd]; simpl.
  + unfold default_classification.
    destruct (find_existing_customer st from_number) as [g|] eqn:Hg.
    * apply find_existing_customer_from_row in Hg.
      destruct Hg as (c & Hc & Hd & _). simpl. rewrite Hd. now apply Hall.
    * repeat match goal with |- context [if ?c then _ else _] => destruct c end;
        simpl; eexists; (split; [reflexivity|discriminate]).
  + exists d. now split.
- unfold default_classification.
  destruct (find_existing_customer st from_number) as [g|] eqn:Hg.
  + apply find_existing_customer_from_row in Hg.
    destruct Hg as (c & Hc & Hd & _). simpl. rewrite Hd. now apply Hall.
  + repeat match goal with |- context [if ?c then _ else _] => destruct c end;
      simpl; eexists; (split; [reflexivity|discriminate]).
Qed.

End Classify.

End ClassifiedFacts.

Module Classified.
Import OneTalkSystem OneTalkPhoneManager DirectoryFacts ClassifiedFacts System.

Section Classify.
Context `{Py.CaseOps}.

(** X12: when a call is classified and a user is assigned, every row of
    that user has status [busy] afterwards and [find_available_user]
    does not return that user again, for any department and
    preference; a communication of another type leaves the [users]
    table as it was. *)
Theorem classified_call_occupies_user
    (st st' : Store) (res : classification)
    (from_number to_number message_type content comm_id timestamp : string) :
  classify_incoming_communication st from_number to_number message_type content
    comm_id timestamp = Returned (st', res) ->
  (message_type = "call" ->
   forall uid, assigned_user res = Some uid ->
     (forall u, In u (users st') -> User.id u = uid -> User.status u = "busy")
     /\ forall department preferred_user,
          find_available_user st' department preferred_user <> Some uid)
  /\ (message_type <> "call" -> users st' = users st).
Proof.
rewrite classify_eq.
destruct (existsb _ (communications st)); [discriminate|].
cbv zeta. intros Hret. inversion Hret as [[Hst' Hres]]. clear Hret Hres.
unfold route_communication. split.
- intros ->. rewrite String.eqb_refl. simpl. intros uid Huid.
  assert (Hbusy : forall u,
            In u (users (update_user_status
                           (set_communications st
                              (communications st
                               ++ [logged st from_number to_number "call" content
                                     comm_id timestamp]))
                           (Some uid) "busy")) ->
            User.id u = uid -> User.status u = "busy").
  { intros u Hu Hid. simpl in Hu. apply in_map_iff in Hu.
    destruct Hu as (u0 & Hu0 & _). subst u. unfold Sql.eq_null in *.
    destruct (String.eqb_spec (User.id u0) uid) as [E|E]; [reflexivity|].
    simpl in Hid. contradiction. }
  rewrite Huid. split; [exact Hbusy|].
  intros department preferred_user Hfind.
  apply find_available_user_row in Hfind.
  destruct Hfind as (u & Hu & Hid & Hs).
  rewrite (Hbusy u Hu Hid) in Hs. discriminate.
- intros Hne. apply String.eqb_neq in Hne. now rewrite Hne.
Qed.

Lemma first_record_decides
    (st st1 : Store) (res : classification)
    (from_number to_number message_type content comm_id timestamp : string) :
  (forall c, In c (communications st) ->
             Communication.from_number c <> from_number
             /\ Communication.to_number c <> from_number) ->
  classify_incoming_communication st from_number to_number message_type content
    comm_id timestamp = Returned (st1, res) ->
  (forall to_number' content',
     default_classification st1 from_number to_number' content'
     = (c_department res, assigned_user res))
  /\ (forall to_number' message_type' content',
        apply_routing_rules st from_number to_number' message_type' = (None, None) ->
        target st1 from_number to_number' message_type' content'
        = (c_department res, assigned_user res)).
Proof.
intros Hnew. rewrite classify_eq.
destruct (existsb _ (communications st)); [discriminate|].
cbv zeta. intros Hret. inversion Hret as [[Hst1 Hres]]. clear Hret Hres.
cbn [c_department assigned_user].
set (rec := logged st from_number to_number message_type content comm_id timestamp).
set (st0 := set_communications st (communications st ++ [rec])).
assert (Hcomms : communications
                   (route_communication st0 comm_id (Communication.user_id rec)
                      (fst (target st from_number to_number message_type content))
                      message_type content)
                 = communications st ++ [rec]).
{ now rewrite Dispatcher.communications_route_communication. }
assert (Hrules : routing_rules
                   (route_communication st0 comm_id (Communication.user_id rec)
                      (fst (target st from_number to_number message_type content))
                      message_type content)
                 = routing_rules st).
{ unfold route_communication. now destruct (String.eqb message_type "call"). }
assert (Hdefault : forall to_number' content',
  default_classification
    (route_communication st0 comm_id (Communication.user_id rec)
       (fst (target st from_number to_number message_type content))
       message_type content) from_number to_number' content'
  = (fst (target st from_number to_number message_type content),
     Communication.user_id rec)).
{ intros to_number' content'.
  unfold default_classification, find_existing_customer.
  rewrite Hcomms, filter_app.
  rewrite (LinesFacts.filter_none _ (communications st)).
  - simpl. rewrite String.eqb_refl. reflexivity.
  - intros c Hc. destruct (Hnew c Hc) as [Hf Ht].
    apply String.eqb_neq in Hf, Ht. now rewrite Hf, Ht. }
split; [exact Hdefault|].
intros to_number' message_type' content' Hnone.
rewrite target_without_rule; [apply Hdefault|].
rewrite <- Hnone. now apply apply_routing_rules_same_rules.
Qed.

(** X13: a caller with no earlier communication is classified; from
    then on, whenever no routing rule decides, the default
    classification sends that caller to the department of that first
    record, with the user of that record as the preferred one, whatever
    the content of the new communication: the next classification of
    that caller returns the same department. *)
Theorem returning_caller_keeps_department
    (st st1 : Store) (res : classification)
    (from_number to_number message_type content comm_id timestamp : string) :
  (forall c, In c (communications st) ->
             Communication.from_number c <> from_number
             /\ Communication.to_number c <> from_number) ->
  classify_incoming_communication st from_number to_number message_type content
    comm_id timestamp = Returned (st1, res) ->
  (forall to_number' content',
     default_classification st1 from_number to_number' content'
     = (c_department res, assigned_user res))
  /\ (forall to_number' message_type' content' comm_id' timestamp' st2 res2,
        apply_routing_rules st from_number to_number' message_type' = (None, None) ->
        classify_incoming_communication st1 from_number to_number' message_type'
          content' comm_id' timestamp' = Returned (st2, res2) ->
        c_department res2 = c_department res).
Proof.
intros Hnew Hret.
destruct (first_record_decides st st1 res from_number to_number message_type content
            comm_id timestamp Hnew Hret) as [Hdefault Htarget].
split; [exact Hdefault|].
intros to_number' message_type' content' comm_id' timestamp' st2 res2 Hnone Hret2.
rewrite classify_eq in Hret2.
destruct (existsb _ (communications st1)); [discriminate|].
cbv zeta in Hret2. inversion Hret2 as [[Hst2 Hres2]]. cbn [c_department].
now rewrite (Htarget to_number' message_type' content' Hnone).
Qed.

Lemma communications_apply_call (st : Store) (c : method_call) :
  communications (apply_call st c) = communications st
  \/ exists from_number to_number message_type content comm_id timestamp,
       communications (apply_call st c)
       = communications st
         ++ [logged st from_number to_number message_type content comm_id timestamp].
Proof.
destruct c as [? ? ? ? ?|? ? ? ?|f t m content cid ts|? ?|? ? ? ? ? ?|? ?|op];
  cbn [apply_call].
- left. unfold add_user, update_department_membership. cbn [fst].
  now destruct (find _ _).
- now left.
- rewrite classify_eq. destruct (existsb _ (communications st)); [now left|].
  right. exists f, t, m, content, cid, ts. cbv beta iota zeta.
  now rewrite Dispatcher.communications_route_communication.
- now left.
- left. unfold add_routing_rule. now destruct (existsb _ _).
- left. unfold assign_phone_to_department. now destruct (0 <? _).
- left. destruct op as [n dept user ty prio mx pid today
                       |f t hint rid ts today
                       |n usage today
                       |rid d today]; cbn [Sequential.step].
  + unfold register_phone_number. destruct (negb _); [reflexivity|].
    destruct (existsb _ _); [reflexivity|].
    cbn [fst]. unfold update_phone_stats.
    match goal with
    | |- communications (insert_or_ignore_stats ?s ?a ?b) = _ =>
        now destruct (SchemaFacts.insert_or_ignore_frame s a b) as (_ & _ & -> & _)
    end.
  + now rewrite SequentialFacts.route_incoming_call_raises.
  + now destruct (RoutingFacts.increment_frame st n usage today)
      as (_ & _ & -> & _).
  + unfold end_call. now destruct (find _ _).
Qed.

(** X14: in every state reached from the empty store, every
    communication record carries a department, and it is not the empty
    string: classification falls back to the history of the caller and
    then to the keyword defaults, and none of them is empty. *)
Theorem communications_have_department (calls : list method_call) (c : Communication.row) :
  In c (communications (execute calls empty_store)) ->
  exists d, Communication.department_id c = Some d /\ d <> "".
Proof.
assert (Hgen : forall st, (forall x, In x (communications st) -> has_department x) ->
                          forall x, In x (communications (execute calls st)) ->
                                    has_department x).
{ induction calls as [|call calls IH]; simpl; intros st Hst; [exact Hst|].
  apply IH. intros x Hx.
  destruct (communications_apply_call st call)
    as [Heq|(f & t & m & content & cid & ts & Heq)]; rewrite Heq in Hx.
  - now apply Hst.
  - apply in_app_or in Hx. destruct Hx as [Hx|[<-|[]]]; [now apply Hst|].
    unfold has_department, logged. simpl.
    now apply target_has_department. }
intros Hc. apply (Hgen empty_store); [intros x []|exact Hc].
Qed.

(** X15: [add_user] leaves the [departments] table as it was when the
    department of the user has a row, and otherwise adds one row for
    it, named after the id with underscores as spaces and in title
    case, without lead and without phones. *)
Theorem add_user_department
    (st : Store) (user_id name department : string)
    (phone_number : option string) (role : string) :
  ((exists d, In d (departments st) /\ Department.id d = department) ->
   departments (fst (add_user st user_id name department phone_number role))
   = departments st)
  /\ ((forall d, In d (departments st) -> Department.id d <> department) ->
      departments (fst (add_user st user_id name department phone_number role))
      = departments st
        ++ [ {| Department.id := department;
                Department.name := Py.title (Py.replace_char "_" " " department);
                Department.lead_user_id := None;
                Department.phone_numbers := [] |} ]).
Proof.
unfold add_user, update_department_membership. cbn [fst]. simpl.
split.
- intros (d & Hd & Hid).
  destruct (find _ (departments st)) as [d0|] eqn:Hf; [reflexivity|].
  pose proof (find_none _ _ Hf d Hd) as Hno. simpl in Hno.
  rewrite Hid, String.eqb_refl in Hno. discriminate.
- intros Hnone.
  destruct (find _ (departments st)) as [d0|] eqn:Hf.
  + apply find_some in Hf. destruct Hf as [Hin Hid].
    apply String.eqb_eq in Hid. now elim (Hnone d0 Hin).
  + simpl. f_equal.
    clear Hf. induction (departments st) as [|d l IH]; simpl; [reflexivity|].
    assert (Hd : Department.id d <> department) by (apply Hnone; now left).
    apply String.eqb_neq in Hd. rewrite Hd. simpl. f_equal.
    apply IH. intros d' Hd'. apply Hnone. now right.
Qed.

End Classify.

End Classified.

(** ** Command interface *)

Module CommanderFacts.
Import OneTalkSystem OneTalkRepoCommander ClassifiedFacts.

Lemma dict_get_set_same {V : Type} (d : list (string * V)) (k : string) (v : V) :
  dict_get (dict_set d k v) k = Some v.
Proof.
unfold dict_get. induction d as [|kv d IH]; simpl.
- now rewrite String.eqb_refl.
- destruct (String.eqb (fst kv) k) eqn:E; simpl.
  + now rewrite String.eqb_refl.
  + rewrite E. exact IH.
Qed.

Lemma dict_get_set_other {V : Type} (d : list (string * V)) (k k' : string) (v : V) :
  k' <> k -> dict_get (dict_set d k v) k' = dict_get d k'.
Proof.
intros Hne. unfold dict_get. induction d as [|kv d IH]; simpl.
- apply not_eq_sym, String.eqb_neq in Hne. now rewrite Hne.
- destruct (String.eqb (fst kv) k) eqn:E; simpl.
  + apply String.eqb_eq in E. rewrite E.
    apply not_eq_sym, String.eqb_neq in Hne. now rewrite Hne.
  + destruct (String.eqb (fst kv) k'); [reflexivity|exact IH].
Qed.

Section Phones.
Context `{Py.CaseOps}.

Lemma generate_phones_extends (department : string) (rounds : nat)
    (current_phones : list string) :
  exists extra,
    generate_phones department rounds current_phones = current_phones ++ extra
    /\ List.length extra = rounds.
Proof.
revert current_phones.
induction rounds as [|rounds IH]; intros current_phones; cbn [generate_phones].
- exists []. now rewrite app_nil_r.
- match goal with
  | |- context [generate_phones _ _ ?l] => destruct (IH l) as (extra & Heq & Hlen)
  end.
  rewrite Heq, <- app_assoc. eexists. split; [reflexivity|].
  simpl. now rewrite Hlen.
Qed.

(** The department that a classification returns is the target of an
    active rule, the department of an earlier record, or one of the
    four keyword defaults. *)
Lemma target_origin (st : Store) (from_number to_number message_type content : string) :
  (exists r, In r (routing_rules st) /\ RoutingRule.is_active r = true
             /\ fst (target st from_number to_number message_type content)
                = Some (RoutingRule.target_department r))
  \/ (exists c, In c (communications st)
                /\ fst (target st from_number to_number message_type content)
                   = Communication.department_id c)
  \/ (exists d, In d ["credit_analysis"; "vehicle_transport"; "sales"; "customer_service"]
                /\ fst (target st from_number to_number message_type content) = Some d).
Proof.
assert (Hdefault :
  (exists c, In c (communications st)
             /\ fst (default_classification st from_number to_number content)
                = Communication.department_id c)
  \/ (exists d, In d ["credit_analysis"; "vehicle_transport"; "sales"; "customer_service"]
                /\ fst (default_classification st from_number to_number content) = Some d)).
{ unfold default_classification.
  destruct (find_existing_customer st from_number) as [g|] eqn:Hg.
  - left. apply find_existing_customer_from_row in Hg.
    destruct Hg as (c & Hc & Hd & _). exists c. now split.
  - right.
    repeat match goal with |- context [if ?c then _ else _] => destruct c end;
      simpl; eexists; (split; [|reflexivity]); simpl; tauto. }
unfold target, apply_routing_rules.
destruct (RoutingRules.scan_rules_first from_number to_number (fetch_active_rules st))
  as [(pre & r & post & Heq & _ & _ & Hres)|[_ Hres]]; rewrite Hres; simpl.
- destruct (Py.truthy (RoutingRule.target_department r)); simpl; [|now right].
  left. exists r.
  assert (Hin : In r (fetch_active_rules st))
    by (rewrite Heq; apply in_or_app; right; now left).
  unfold fetch_active_rules in Hin.
  apply (Permutation_in _ (SqlFacts.order_by_perm _ _)) in Hin.
  apply filter_In in Hin. tauto.
- now right.
Qed.

End Phones.

End CommanderFacts.

Module Commander.
Import OneTalkSystem OneTalkRepoCommander ClassifiedFacts CommanderFacts.

Section Methods.
Context `{Py.CaseOps}.

(** X16: [assign_user_to_department] for a department that is not
    configured changes nothing, and raises [IndexError], again changing
    nothing, for a configured department without phones.  Otherwise the
    user gets the preferred phone when the department owns it and the
    first phone of the department when not, so never a phone of another
    department; the id is the department, an underscore and the name in
    lower case with spaces as underscores, and afterwards exactly one
    user row carries that id, with status [available]. *)
Theorem assign_user_to_department_effect
    (cmd : commander) (user_name department role : string)
    (phone_preference : option string) :
  (dict_get (repo_configs cmd) department = None ->
   assign_user_to_department cmd user_name department role phone_preference
   = (cmd, Ok ("❌ Unknown department: " ++ department)%string))
  /\ (forall cfg, dict_get (repo_configs cmd) department = Some cfg ->
        DeptConfig.phone_numbers cfg = [] ->
        assign_user_to_department cmd user_name department role phone_preference
        = (cmd, Err IndexError))
  /\ (forall cfg first rest,
        dict_get (repo_configs cmd) department = Some cfg ->
        DeptConfig.phone_numbers cfg = first :: rest ->
        exists phone,
          In phone (DeptConfig.phone_numbers cfg)
          /\ (forall p, phone_preference = Some p ->
                        In p (DeptConfig.phone_numbers cfg) -> phone = p)
          /\ ((forall p, phone_preference = Some p ->
                         ~ In p (DeptConfig.phone_numbers cfg)) -> phone = first)
          /\ snd (assign_user_to_department cmd user_name department role phone_preference)
             = Ok ("✅ " ++ user_name ++ " assigned to " ++ department
                   ++ " with phone " ++ phone)%string
          /\ let new :=
               {| User.id := (department ++ "_"
                              ++ Py.replace_char " " "_" (Py.lower user_name))%string;
                  User.name := user_name; User.department := department;
                  User.phone_number := Some phone; User.role := role;
                  User.status := "available" |} in
             let st' := onetalk (fst (assign_user_to_department cmd user_name department
                                        role phone_preference)) in
             In new (users st')
             /\ (forall u, In u (users st') -> User.id u = User.id new -> u = new)).
Proof.
unfold assign_user_to_department. split; [|split].
- now intros ->.
- intros cfg -> Hnone. unfold pick_phone. rewrite Hnone.
  destruct phone_preference; reflexivity.
- intros cfg first rest -> Hphones.
  assert (Hpick : exists phone,
            pick_phone phone_preference (DeptConfig.phone_numbers cfg) = Ok phone
            /\ In phone (DeptConfig.phone_numbers cfg)
            /\ (forall p, phone_preference = Some p ->
                          In p (DeptConfig.phone_numbers cfg) -> phone = p)
            /\ ((forall p, phone_preference = Some p ->
                           ~ In p (DeptConfig.phone_numbers cfg)) -> phone = first)).
  { unfold pick_phone. rewrite Hphones.
    destruct phone_preference as [p|].
    - destruct (existsb (String.eqb p) (first :: rest)) eqn:Hex.
      + exists p. split; [reflexivity|].
        apply existsb_exists in Hex. destruct Hex as (q & Hq & Hpq).
        apply String.eqb_eq in Hpq. subst q.
        split; [exact Hq|]. split.
        * intros p' Hp' _. now inversion Hp'.
        * intros Hnot. now elim (Hnot p eq_refl).
      + exists first. split; [reflexivity|]. split; [now left|]. split; [|reflexivity].
        intros p' Hp' Hin. inversion Hp'; subst p'.
        assert (Ht : existsb (String.eqb p) (first :: rest) = true).
        { apply existsb_exists. exists p. split; [exact Hin|apply String.eqb_refl]. }
        congruence.
    - exists first. split; [reflexivity|]. split; [now left|].
      split; [discriminate|reflexivity]. }
  destruct Hpick as (phone & -> & Hin & Hpref & Hfirst).
  exists phone. split; [exact Hin|]. split; [exact Hpref|]. split; [exact Hfirst|].
  split; [reflexivity|].
  cbn [fst onetalk]. unfold add_user. cbn [fst].
  rewrite Directory.users_update_department_membership. simpl.
  split.
  + apply in_or_app. right. now left.
  + intros u Hu Hid. apply in_app_or in Hu. destruct Hu as [Hu|[<-|[]]]; [|reflexivity].
    apply filter_In in Hu. destruct Hu as [_ Hne].
    apply negb_true_iff, String.eqb_neq in Hne. contradiction.
Qed.

(** X17: when the department that a call is classified to is not a key
    of [repo_configs], [handle_incoming_call] raises [KeyError]; by
    then the communication is in the store and the session is
    recorded.  [handle_incoming_sms] returns in the same situation,
    with the unknown-department answer as its repository result. *)
Theorem handle_incoming_call_unconfigured
    (cmd : commander) (from_number to_number content : string)
    (comm_id timestamp start_time reported : string)
    (st : Store) (res : classification) :
  classify_incoming_communication (onetalk cmd) from_number to_number "call" content
    comm_id timestamp = Returned (st, res) ->
  config_of cmd (c_department res) = None ->
  (exists cmd',
     handle_incoming_call cmd from_number to_number content comm_id timestamp
       start_time reported = (cmd', Err KeyError)
     /\ onetalk cmd' = st
     /\ (exists rec, communications st = communications (onetalk cmd) ++ [rec]
                     /\ Communication.id rec = comm_id)
     /\ dict_get (active_sessions cmd') comm_id
        = Some {| Session.department := c_department res;
                  Session.user := assigned_user res;
                  Session.start_time := start_time; Session.status := "active" |})
  /\ (exists cmd' r,
        handle_incoming_sms cmd from_number to_number content comm_id timestamp reported
        = (cmd', Ok r)
        /\ s_department r = c_department res
        /\ s_repo_command_result r
           = ("❌ Unknown department: " ++ str_of_department (c_department res))%string).
Proof.
intros Hret Hcfg. split.
- unfold handle_incoming_call. rewrite Hret. cbv zeta.
  assert (Hid : communication_id res = comm_id).
  { rewrite classify_eq in Hret. destruct (existsb _ _); [discriminate|].
    cbv zeta in Hret. now inversion Hret. }
  unfold config_of in *. cbn [repo_configs]. rewrite Hcfg.
  eexists. split; [reflexivity|]. cbn [onetalk active_sessions].
  split; [reflexivity|]. split.
  + rewrite classify_eq in Hret. destruct (existsb _ _); [discriminate|].
    cbv zeta in Hret. inversion Hret as [[Hst Hres]].
    rewrite Dispatcher.communications_route_communication. simpl.
    eexists. split; [reflexivity|reflexivity].
  + rewrite Hid. apply dict_get_set_same.
- unfold handle_incoming_sms.
  assert (Hsms : exists st2 res2,
            classify_incoming_communication (onetalk cmd) from_number to_number "sms"
              content comm_id timestamp = Returned (st2, res2)
            /\ c_department res2 = c_department res).
  { rewrite classify_eq in Hret |- *. destruct (existsb _ _); [discriminate|].
    cbv zeta in Hret |- *. inversion Hret as [[Hst Hres]].
    eexists _, _. split; [reflexivity|]. reflexivity. }
  destruct Hsms as (st2 & res2 & -> & Hdept). cbv zeta.
  eexists _, _. split; [reflexivity|]. cbn [s_department s_repo_command_result].
  split; [exact Hdept|].
  unfold command_route_communication, config_of in *. cbn [repo_configs].
  rewrite Hdept, Hcfg. reflexivity.
Qed.

(** X18: when every active routing rule targets a configured
    department, every recorded communication has a configured
    department, the four keyword defaults are configured and the uuid
    is fresh, [handle_incoming_call] returns, with the phones of the
    department it classified to, and the new record again has a
    configured department. *)
Theorem handle_incoming_call_returns
    (cmd : commander) (from_number to_number content : string)
    (comm_id timestamp start_time reported : string) :
  (forall r, In r (routing_rules (onetalk cmd)) -> RoutingRule.is_active r = true ->
             dict_get (repo_configs cmd) (RoutingRule.target_department r) <> None) ->
  (forall c, In c (communications (onetalk cmd)) ->
             config_of cmd (Communication.department_id c) <> None) ->
  (forall d, In d ["credit_analysis"; "vehicle_transport"; "sales"; "customer_service"] ->
             dict_get (repo_configs cmd) d <> None) ->
  (forall c, In c (communications (onetalk cmd)) -> Communication.id c <> comm_id) ->
  exists cmd' r cfg,
    handle_incoming_call cmd from_number to_number content comm_id timestamp
      start_time reported = (cmd', Ok r)
    /\ repo_configs cmd' = repo_configs cmd
    /\ config_of cmd (h_department r) = Some cfg
    /\ h_phone_numbers r = DeptConfig.phone_numbers cfg
    /\ repo_command_result r = reported
    /\ (forall c, In c (communications (onetalk cmd')) ->
                  config_of cmd' (Communication.department_id c) <> None).
Proof.
intros Hrules Hcomms Hdefaults Hfresh.
unfold handle_incoming_call. rewrite classify_eq.
rewrite (Dispatcher.fresh_id _ _ Hfresh). cbv zeta.
cbn [c_department assigned_user communication_id].
set (t := target (onetalk cmd) from_number to_number "call" content).
assert (Hkey : config_of cmd (fst t) <> None).
{ destruct (target_origin (onetalk cmd) from_number to_number "call" content)
    as [(r & Hr & Ha & Heq)|[(c & Hc & Heq)|(d & Hd & Heq)]];
    fold t in Heq; rewrite Heq.
  - simpl. now apply Hrules.
  - now apply Hcomms.
  - simpl. now apply Hdefaults. }
unfold command_route_communication.
assert (Hsame : forall sessions st0,
          config_of {| onetalk := st0; repo_configs := repo_configs cmd;
                       active_sessions := sessions |} (fst t)
          = config_of cmd (fst t)) by reflexivity.
rewrite !Hsame.
destruct (config_of cmd (fst t)) as [cfg|] eqn:Hcfg; [|now elim Hkey].
eexists _, _, cfg. split; [reflexivity|].
cbn [repo_configs h_department h_phone_numbers repo_command_result onetalk].
split; [reflexivity|]. split; [exact Hcfg|]. split; [reflexivity|]. split; [reflexivity|].
rewrite Dispatcher.communications_route_communication. simpl.
intros c Hc. apply in_app_or in Hc. destruct Hc as [Hc|[<-|[]]].
- now apply Hcomms.
- simpl. fold t. unfold config_of in *. simpl. now rewrite Hcfg.
Qed.

End Methods.

End Commander.

Module CommanderSetup.
Import OneTalkSystem OneTalkRepoCommander ClassifiedFacts CommanderFacts.

Lemma find_available_user_same_users (st st' : Store)
    (department preferred_user : option string) :
  users st' = users st ->
  find_available_user st' department preferred_user
  = find_available_user st department preferred_user.
Proof. unfold find_available_user. now intros ->. Qed.

Section Methods.
Context `{Py.CaseOps}.

Lemma default_classification_same_history (st st' : Store)
    (from_number to_number content : string) :
  communications st' = communications st ->
  default_classification st' from_number to_number content
  = default_classification st from_number to_number content.
Proof. unfold default_classification, find_existing_customer. now intros ->. Qed.

(** X19: [setup_department_phones] changes nothing for a department
    that is not configured.  For a configured one it keeps the phones
    the department has, appends generated ones until there are
    [phone_count], stores the list under the department in
    [repo_configs] without touching the other departments, and leaves
    exactly one row for the department in [departments], holding the
    same list and no lead. *)
Theorem setup_department_phones_effect
    (cmd : commander) (department : string) (phone_count : Z) :
  (dict_get (repo_configs cmd) department = None ->
   setup_department_phones cmd department phone_count
   = (cmd, ("❌ Unknown department: " ++ department)%string))
  /\ (forall cfg, dict_get (repo_configs cmd) department = Some cfg ->
        exists extra,
          let phones := DeptConfig.phone_numbers cfg ++ extra in
          let cmd' := fst (setup_department_phones cmd department phone_count) in
          let row := {| Department.id := department;
                        Department.name :=
                          Py.title (Py.replace_char "_" " " department);
                        Department.lead_user_id := None;
                        Department.phone_numbers := phones |} in
          Z.of_nat (List.length phones)
          = Z.max (Z.of_nat (List.length (DeptConfig.phone_numbers cfg))) phone_count
          /\ dict_get (repo_configs cmd') department
             = Some (with_phone_numbers cfg phones)
          /\ (forall k, k <> department ->
                        dict_get (repo_configs cmd') k = dict_get (repo_configs cmd) k)
          /\ In row (departments (onetalk cmd'))
          /\ (forall d, In d (departments (onetalk cmd')) ->
                        Department.id d = department -> d = row)
          /\ snd (setup_department_phones cmd department phone_count)
             = ("✅ " ++ department ++ " department setup with "
                ++ str_of_nat (List.length phones) ++ " phone numbers")%string).
Proof.
unfold setup_department_phones. split; [now intros ->|].
intros cfg ->.
destruct (generate_phones_extends department
            (Z.to_nat (phone_count
                       - Z.of_nat (List.length (DeptConfig.phone_numbers cfg))))
            (DeptConfig.phone_numbers cfg)) as (extra & Heq & Hlen).
exists extra. cbv zeta. rewrite Heq. cbn [fst snd repo_configs onetalk].
split; [rewrite length_app, Hlen; lia|].
split; [apply dict_get_set_same|].
split; [intros k Hk; now apply dict_get_set_other|].
unfold create_department. cbn [fst]. simpl.
split; [apply in_or_app; right; now left|]. split; [|reflexivity].
intros d Hd Hid. apply in_app_or in Hd. destruct Hd as [Hd|[<-|[]]]; [|reflexivity].
apply filter_In in Hd. destruct Hd as [_ Hne].
apply negb_true_iff, String.eqb_neq in Hne. contradiction.
Qed.

(** X20: the rule that [setup_emergency_escalation] adds has the
    condition type [emergency], which the rule loop does not know: after
    the setup every communication is classified exactly as before, to
    the same department and user. *)
Theorem setup_emergency_escalation_inert
    (cmd cmd' : commander) (department : string) (trigger_keyword : option string)
    (rule_id msg : string) :
  setup_emergency_escalation cmd department trigger_keyword rule_id = (cmd', Ok msg) ->
  forall from_number to_number message_type content comm_id timestamp st1 res,
    classify_incoming_communication (onetalk cmd) from_number to_number message_type
      content comm_id timestamp = Returned (st1, res) ->
    exists st2,
      classify_incoming_communication (onetalk cmd') from_number to_number message_type
        content comm_id timestamp = Returned (st2, res).
Proof.
unfold setup_emergency_escalation.
destruct (add_routing_rule (onetalk cmd) "emergency" _ "admin" None 1 rule_id)
  as [[st' m]|e] eqn:Hadd; [|discriminate].
intros Hsetup. inversion Hsetup as [[Hcmd' Hmsg]]. clear Hsetup Hmsg.
intros from_number to_number message_type content comm_id timestamp st1 res.
cbn [onetalk].
assert (Hframe : communications st' = communications (onetalk cmd)
                 /\ users st' = users (onetalk cmd)
                 /\ forall f t m, apply_routing_rules st' f t m
                                  = apply_routing_rules (onetalk cmd) f t m).
{ unfold add_routing_rule in Hadd. destruct (existsb _ _); [discriminate|].
  inversion Hadd as [[Hst' Hm]]. split; [reflexivity|]. split; [reflexivity|].
  intros f t mt. apply NewRules.rule_without_matcher.
  apply NewRules.unknown_condition_type; discriminate. }
destruct Hframe as (Hcomms & Husers & Hrules).
assert (Htarget : target st' from_number to_number message_type content
                  = target (onetalk cmd) from_number to_number message_type content).
{ unfold target. rewrite Hrules.
  now rewrite (default_classification_same_history _ _ _ _ _ Hcomms). }
rewrite !classify_eq. rewrite Hcomms.
destruct (existsb _ (communications (onetalk cmd))); [discriminate|].
cbv zeta. unfold logged. rewrite !Htarget.
rewrite (find_available_user_same_users _ _ _ _ Husers).
intros Hret. inversion Hret as [[Hst1 Hres]]. eexists. reflexivity.
Qed.

End Methods.

End CommanderSetup.

(** ** History of a caller *)

Module HistoryFacts.
Import OneTalkSystem.

Lemma opt_eqb_spec (a b : option string) : opt_eqb a b = true <-> a = b.
Proof.
destruct a as [x|], b as [y|]; simpl; try (split; intros; congruence).
rewrite String.eqb_eq. split; congruence.
Qed.

Definition key_is (d u : option string) (c : Communication.row) : bool :=
  opt_eqb (Communication.department_id c) d && opt_eqb (Communication.user_id c) u.

Definition group_is (d u : option string) (g : customer_group) : bool :=
  opt_eqb (g_department g) d && opt_eqb (g_user g) u.

(** The number of rows with a department and a user. *)
Definition interactions (d u : option string) (rows : list Communication.row) : Z :=
  Z.of_nat (List.length (filter (key_is d u) rows)).

Definition count_in (groups : list customer_group) (d u : option string) : Z :=
  match find (group_is d u) groups with
  | Some g => interaction_count g
  | None => 0
  end.

Lemma same_group_key (c : Communication.row) (g : customer_group) (d u : option string) :
  same_group c g = true -> group_is d u g = key_is d u c.
Proof.
unfold same_group, group_is, key_is. rewrite andb_true_iff, !opt_eqb_spec.
now intros [-> ->].
Qed.

Lemma add_to_groups_count (c : Communication.row) (groups : list customer_group)
    (d u : option string) :
  count_in (add_to_groups c groups) d u
  = count_in groups d u + (if key_is d u c then 1 else 0).
Proof.
unfold count_in. induction groups as [|g groups IH]; simpl.
- unfold group_is, key_is. simpl. now destruct (_ && _).
- destruct (same_group c g) eqn:Hsame; simpl.
  + unfold group_is at 1. simpl. fold (group_is d u g).
    rewrite (same_group_key _ _ d u Hsame).
    destruct (key_is d u c) eqn:Hk.
    * reflexivity.
    * fold (count_in groups d u). unfold count_in. lia.
  + destruct (group_is d u g) eqn:Hg.
    * assert (Hk : key_is d u c = false).
      { destruct (key_is d u c) eqn:Hk; [|reflexivity].
        unfold group_is, key_is, same_group in *.
        apply andb_true_iff in Hg, Hk. rewrite !opt_eqb_spec in Hg, Hk.
        destruct Hg as [Hg1 Hg2], Hk as [Hk1 Hk2].
        assert (Ht : opt_eqb (Communication.department_id c) (g_department g)
                     && opt_eqb (Communication.user_id c) (g_user g) = true).
        { apply andb_true_iff. rewrite !opt_eqb_spec. split; congruence. }
        congruence. }
      rewrite Hk. lia.
    * exact IH.
Qed.

Lemma group_rows_count (rows : list Communication.row) (d u : option string) :
  count_in (group_rows rows) d u = interactions d u rows.
Proof.
unfold group_rows.
assert (Hgen : forall acc,
  count_in (fold_left (fun groups c => add_to_groups c groups) rows acc) d u
  = count_in acc d u + interactions d u rows).
{ induction rows as [|c rows IH]; simpl; intros acc.
  - unfold interactions. simpl. lia.
  - rewrite IH, add_to_groups_count. unfold interactions. simpl.
    destruct (key_is d u c); simpl; lia. }
rewrite Hgen. unfold count_in. simpl. lia.
Qed.

Definition distinct_groups (groups : list customer_group) : Prop :=
  NoDup (map (fun g => (g_department g, g_user g)) groups).

Lemma add_to_groups_keys (c : Communication.row) (groups : list customer_group) :
  forall k, In k (map (fun g => (g_department g, g_user g)) (add_to_groups c groups)) ->
            k = (Communication.department_id c, Communication.user_id c)
            \/ In k (map (fun g => (g_department g, g_user g)) groups).
Proof.
induction groups as [|g groups IH]; simpl; intros k.
- intros [<-|[]]. now left.
- destruct (same_group c g); simpl.
  + tauto.
  + intros [Hk|Hk]; [tauto|]. destruct (IH k Hk); tauto.
Qed.

Lemma add_to_groups_distinct (c : Communication.row) (groups : list customer_group) :
  distinct_groups groups -> distinct_groups (add_to_groups c groups).
Proof.
unfold distinct_groups. induction groups as [|g groups IH]; simpl; intros Hnd.
- repeat constructor. intros [].
- inversion Hnd as [|? ? Hg Hnd']; subst.
  destruct (same_group c g) eqn:Hsame; simpl; [exact Hnd|].
  constructor; [|now apply IH].
  intros Hin. destruct (add_to_groups_keys c groups _ Hin) as [Hk|Hk]; [|contradiction].
  inversion Hk as [[Hd Hu]].
  unfold same_group in Hsame. rewrite Hd, Hu in Hsame.
  assert (Ht : opt_eqb (Communication.department_id c) (Communication.department_id c)
               && opt_eqb (Communication.user_id c) (Communication.user_id c) = true).
  { apply andb_true_iff. now rewrite !opt_eqb_spec. }
  congruence.
Qed.

Lemma group_rows_distinct (rows : list Communication.row) :
  distinct_groups (group_rows rows).
Proof.
unfold group_rows.
assert (Hgen : forall acc, distinct_groups acc ->
  distinct_groups (fold_left (fun groups c => add_to_groups c groups) rows acc)).
{ induction rows as [|c rows IH]; simpl; intros acc Hacc; [exact Hacc|].
  apply IH. now apply add_to_groups_distinct. }
apply Hgen. constructor.
Qed.

Lemma count_in_member (groups : list customer_group) (g : customer_group) :
  distinct_groups groups -> In g groups ->
  count_in groups (g_department g) (g_user g) = interaction_count g.
Proof.
unfold distinct_groups, count_in.
induction groups as [|g0 groups IH]; simpl; intros Hnd Hg; [contradiction|].
inversion Hnd as [|? ? Hnot Hnd']; subst.
destruct (group_is (g_department g) (g_user g) g0) eqn:Hk.
- destruct Hg as [->|Hg]; [reflexivity|].
  exfalso. apply Hnot.
  unfold group_is in Hk. apply andb_true_iff in Hk. rewrite !opt_eqb_spec in Hk.
  destruct Hk as [-> ->].
  apply (in_map (fun g => (g_department g, g_user g))) in Hg. exact Hg.
- destruct Hg as [->|Hg]; [|now apply IH].
  unfold group_is in Hk.
  assert (Ht : opt_eqb (g_department g) (g_department g)
               && opt_eqb (g_user g) (g_user g) = true).
  { apply andb_true_iff. now rewrite !opt_eqb_spec. }
  congruence.
Qed.

Lemma group_before_asym : SqlFacts.asymmetric group_before.
Proof.
intros a b. unfold group_before. intros Hab.
apply orb_true_iff in Hab. apply orb_false_iff.
destruct Hab as [Hc|Ht].
- apply Z.ltb_lt in Hc. split; [apply Z.ltb_ge; lia|].
  apply andb_false_iff. left. apply Z.eqb_neq. lia.
- apply andb_true_iff in Ht. destruct Ht as [Hc Ht]. apply Z.eqb_eq in Hc.
  split; [apply Z.ltb_ge; lia|].
  apply andb_false_iff. right. now apply SqlFacts.str_lt_asym.
Qed.

Lemma group_before_negtrans : SqlFacts.negatively_transitive group_before.
Proof.
intros a b c. unfold group_before. intros Hab Hbc.
apply orb_false_iff in Hab. destruct Hab as [Hab1 Hab2].
apply orb_false_iff in Hbc. destruct Hbc as [Hbc1 Hbc2].
apply Z.ltb_ge in Hab1, Hbc1.
apply orb_false_iff. split; [apply Z.ltb_ge; lia|].
apply andb_false_iff.
destruct (Z.eqb_spec (interaction_count a) (interaction_count c)) as [Eac|];
  [right|now left].
assert (Eab : interaction_count a = interaction_count b) by lia.
rewrite Eab, Z.eqb_refl in Hab2. rewrite <- Eab, Eac, Z.eqb_refl in Hbc2.
simpl in *. now apply SqlFacts.str_lt_negtrans with (g_timestamp b).
Qed.

End HistoryFacts.

Module History.
Import OneTalkSystem HistoryFacts.

(** The earlier communications of a number, sent or received. *)
Definition history (st : Store) (phone_number : string) : list Communication.row :=
  filter (fun c => String.eqb (Communication.from_number c) phone_number
                   || String.eqb (Communication.to_number c) phone_number)
         (communications st).

(** X21: [find_existing_customer] returns nothing exactly when the
    number has no earlier communication; otherwise it returns a
    department and user that occur together in the history of the
    number, with the number of records they share, and no other pair of
    department and user shares more records. *)
Theorem find_existing_customer_most_frequent (st : Store) (phone_number : string) :
  match find_existing_customer st phone_number with
  | None => history st phone_number = []
  | Some g =>
      interaction_count g
      = interactions (g_department g) (g_user g) (history st phone_number)
      /\ 0 < interaction_count g
      /\ forall d u, interactions d u (history st phone_number) <= interaction_count g
  end.
Proof.
unfold find_existing_customer. fold (history st phone_number).
set (rows := history st phone_number).
destruct (Sql.limit1 group_before (grouped rows)) as [g|] eqn:Hg.
- pose proof (SqlFacts.limit1_in _ _ _ Hg) as Hin.
  apply ClassifiedFacts.grouped_in in Hin.
  pose proof (count_in_member _ _ (group_rows_distinct rows) Hin) as Hcount.
  rewrite group_rows_count in Hcount.
  assert (Hpos : 0 < interactions (g_department g) (g_user g) rows).
  { destruct (ClassifiedFacts.group_rows_from_rows rows g Hin) as (c & Hc & Hd & Hu).
    unfold interactions.
    assert (Hf : In c (filter (key_is (g_department g) (g_user g)) rows)).
    { apply filter_In. split; [exact Hc|]. unfold key_is.
      apply andb_true_iff. rewrite !opt_eqb_spec. split; congruence. }
    destruct (filter _ rows); [destruct Hf|simpl; lia]. }
  split; [now rewrite Hcount|]. split; [now rewrite <- Hcount|].
  intros d u. rewrite <- (group_rows_count rows d u). unfold count_in.
  destruct (find (group_is d u) (group_rows rows)) as [g'|] eqn:Hf.
  + apply find_some in Hf. destruct Hf as [Hin' _].
    apply ClassifiedFacts.grouped_in in Hin'.
    pose proof (SqlFacts.limit1_least _ _ _ group_before_asym group_before_negtrans
                  Hg g' Hin') as Hb.
    unfold group_before in Hb. apply orb_false_iff in Hb.
    destruct Hb as [Hb _]. apply Z.ltb_ge in Hb. exact Hb.
  + lia.
- apply SqlFacts.limit1_none in Hg.
  assert (Hnone : group_rows rows = []).
  { apply Permutation_nil. rewrite <- Hg. unfold grouped.
    apply SqlFacts.order_by_perm. }
  clear Hg. rename Hnone into Hg.
  destruct rows as [|c rows']; [reflexivity|].
  exfalso.
  pose proof (group_rows_count (c :: rows') (Communication.department_id c)
                (Communication.user_id c)) as Hcount.
  rewrite Hg in Hcount. unfold count_in, interactions in Hcount. simpl in Hcount.
  unfold key_is in Hcount at 1.
  assert (Ht : opt_eqb (Communication.department_id c) (Communication.department_id c)
               && opt_eqb (Communication.user_id c) (Communication.user_id c) = true).
  { apply andb_true_iff. now rewrite !opt_eqb_spec. }
  rewrite Ht in Hcount. simpl in Hcount. lia.
Qed.

(** Ties.  A record of the number with the given department, user and
    timestamp. *)
Definition heard (id : string) (department user : option string) (timestamp : string)
    : Communication.row :=
  {| Communication.id := id; Communication.timestamp := timestamp;
     Communication.from_number := "+1-555-123-4567";
     Communication.to_number := "+1-555-SALES-01";
     Communication.user_id := user; Communication.department_id := department;
     Communication.type := "call"; Communication.content := "";
     Communication.status := "received"; Communication.duration := None |}.

(** With equal counts the timestamps of the first records of the two
    pairs decide, not those of the last. *)
Example first_record_breaks_tie :
  option_map g_department
    (find_existing_customer
       (set_communications empty_store
          [heard "1" (Some "sales") (Some "u1") "2024-01-01T10:00:00Z";
           heard "2" (Some "credit_analysis") (Some "u2") "2024-01-05T10:00:00Z";
           heard "3" (Some "sales") (Some "u1") "2024-01-09T10:00:00Z";
           heard "4" (Some "credit_analysis") (Some "u2") "2024-01-02T10:00:00Z"])
       "+1-555-123-4567")
  = Some (Some "credit_analysis").
Proof. reflexivity. Qed.

(** With equal counts and equal timestamps the pair that is last in the
    order of department and user comes out, wherever its records are. *)
Example last_key_breaks_tie :
  option_map (fun g => (g_department g, g_user g))
    (find_existing_customer
       (set_communications empty_store
          [heard "1" (Some "credit_analysis") (Some "u2") "2024-01-01T10:00:00Z";
           heard "2" (Some "sales") (Some "u0") "2024-01-01T10:00:00Z";
           heard "3" None None "2024-01-01T10:00:00Z";
           heard "4" (Some "sales") (Some "u1") "2024-01-01T10:00:00Z";
           heard "5" (Some "admin") (Some "u0") "2024-01-01T10:00:00Z"])
       "+1-555-123-4567")
  = Some (Some "sales", Some "u1").
Proof. reflexivity. Qed.

End History.

(** ** More scenarios *)

Module Examples.
Import OneTalkSystem OneTalkPhoneManager OneTalkRepoCommander.
Import Sequential SequentialFacts System.

Definition sales_phone : Store := Registry.one_sales_phone.

Lemma route_incoming_call_never_returns_witness :
  route_incoming_call Scenarios.one_active_call "+1-555-765-4321" "+1-555-SALES-01"
    None "route-1" "2024-01-01T10:01:00Z" "2024-01-01"
  = Raised IntegrityError
  /\ route_incoming_call sales_phone "+1-555-123-4567" "+1-555-SALES-01"
       None "route-1" "2024-01-01T10:00:00Z" "2024-01-01"
     = Raised OperationalError.
Proof.
split.
- refine (proj1 (proj2 (Routing.route_incoming_call_never_returns
                          Scenarios.one_active_call "+1-555-765-4321"
                          "+1-555-SALES-01" None "route-1" "2024-01-01T10:01:00Z"
                          "2024-01-01")) _).
  exists Scenarios.first_route. split; [left; reflexivity|reflexivity].
- refine (proj1 (proj2 (proj2 (Routing.route_incoming_call_never_returns
                                 sales_phone "+1-555-123-4567" "+1-555-SALES-01"
                                 None "route-1" "2024-01-01T10:00:00Z"
                                 "2024-01-01"))) _).
  intros r [].
Defined.


Lemma increment_phone_usage_counts_witness :
  UsageFacts.id_is_own sales_phone "+1-555-SALES-01" "2024-01-01"
  /\ UsageFacts.calls_on
       (increment_phone_usage sales_phone "+1-555-SALES-01" "call" "2024-01-01")
       "+1-555-SALES-01" "2024-01-01"
     = UsageFacts.calls_on sales_phone "+1-555-SALES-01" "2024-01-01" + 1.
Proof.
assert (Hown : UsageFacts.id_is_own sales_phone "+1-555-SALES-01" "2024-01-01").
{ intros s [<-|[]] _. split; reflexivity. }
split; [exact Hown|].
exact (proj1 (proj1 (Usage.increment_phone_usage_counts sales_phone "+1-555-SALES-01"
                       "2024-01-01" Hown))).
Defined.

(** The escalation rule of the command interface, added to the two
    rules of the routing scenario. *)
Lemma add_routing_rule_inert_witness :
  exists st' msg,
    add_routing_rule RoutingRules.credit_then_sales "emergency" "emergency" "admin"
      None 1 "r3" = Returned (st', msg)
    /\ apply_routing_rules st' "+1-555-EMERGENCY" "+1-555-SUPPORT-01" "call"
       = apply_routing_rules RoutingRules.credit_then_sales
           "+1-555-EMERGENCY" "+1-555-SUPPORT-01" "call".
Proof.
assert (Hadd : exists st' msg,
          add_routing_rule RoutingRules.credit_then_sales "emergency" "emergency"
            "admin" None 1 "r3" = Returned (st', msg)).
{ eexists _, _. vm_compute. reflexivity. }
destruct Hadd as (st' & msg & Hadd).
exists st', msg. split; [exact Hadd|].
refine (NewRules.add_routing_rule_inert RoutingRules.credit_then_sales st' msg
          "emergency" "emergency" "admin" None 1 "r3" _ _ Hadd
          "+1-555-EMERGENCY" "+1-555-SUPPORT-01" "call"); discriminate.
Defined.

Lemma add_routing_rule_takes_effect_witness :
  exists st' msg,
    add_routing_rule RoutingRules.credit_then_sales "phone_pattern" "VIP" "sales"
      (Some "user_001") 0 "r3" = Returned (st', msg)
    /\ apply_routing_rules st' "+1-555-VIP-7" "+1-555-CREDIT-01" "call"
       = (Some "sales", Some "user_001").
Proof.
assert (Hadd : exists st' msg,
          add_routing_rule RoutingRules.credit_then_sales "phone_pattern" "VIP"
            "sales" (Some "user_001") 0 "r3" = Returned (st', msg)).
{ eexists _, _. vm_compute. reflexivity. }
destruct Hadd as (st' & msg & Hadd).
exists st', msg. split; [exact Hadd|].
refine (NewRules.add_routing_rule_takes_effect RoutingRules.credit_then_sales st' msg
          "VIP" "sales" (Some "user_001") 0 "r3" "+1-555-VIP-7" "+1-555-CREDIT-01"
          "call" Hadd _ _).
- reflexivity.
- intros r [<-|[<-|[]]] _ _; simpl; lia.
Defined.

Lemma classified_call_occupies_user_witness :
  exists st' res,
    classify_incoming_communication Directory.demo_sales "+1234567890" "+1-555-0100"
      "call" "I want to buy a car" "c-1" "2024-01-01T00:00:00Z" = Returned (st', res)
    /\ assigned_user res = Some "user_002"
    /\ find_available_user st' (Some "sales") (Some "user_002") <> Some "user_002".
Proof.
assert (Hc : exists st' res,
          classify_incoming_communication Directory.demo_sales "+1234567890"
            "+1-555-0100" "call" "I want to buy a car" "c-1" "2024-01-01T00:00:00Z"
          = Returned (st', res)
          /\ assigned_user res = Some "user_002").
{ eexists _, _. split; vm_compute; reflexivity. }
destruct Hc as (st' & res & Hret & Hassigned).
exists st', res. split; [exact Hret|]. split; [exact Hassigned|].
exact (proj2 (proj1 (Classified.classified_call_occupies_user Directory.demo_sales
                       st' res "+1234567890" "+1-555-0100" "call"
                       "I want to buy a car" "c-1" "2024-01-01T00:00:00Z" Hret)
                eq_refl "user_002" Hassigned)
         (Some "sales") (Some "user_002")).
Defined.

Lemma returning_caller_keeps_department_witness :
  exists st1 res,
    classify_incoming_communication Directory.demo_sales "+1234567890" "+1-555-0100"
      "sms" "I want to buy a car" "c-1" "2024-01-01T00:00:00Z" = Returned (st1, res)
    /\ default_classification st1 "+1234567890" "+1-555-0100" "about my credit"
       = (c_department res, assigned_user res).
Proof.
assert (Hc : exists st1 res,
          classify_incoming_communication Directory.demo_sales "+1234567890"
            "+1-555-0100" "sms" "I want to buy a car" "c-1" "2024-01-01T00:00:00Z"
          = Returned (st1, res)).
{ eexists _, _. vm_compute. reflexivity. }
destruct Hc as (st1 & res & Hret).
exists st1, res. split; [exact Hret|].
refine (proj1 (Classified.returning_caller_keeps_department Directory.demo_sales
                 st1 res "+1234567890" "+1-555-0100" "sms" "I want to buy a car" "c-1"
                 "2024-01-01T00:00:00Z" _ Hret) "+1-555-0100" "about my credit").
intros c [].
Defined.

Definition one_sms : list method_call :=
  [ CallAddUser "user_001" "Alice Johnson" "sales" None "lead";
    CallClassify "+1234567890" "+1-555-0100" "sms" "where is my delivery" "c-1"
                 "2024-01-01T00:00:00Z" ].

Definition delivery_sms : Communication.row :=
  {| Communication.id := "c-1"; Communication.timestamp := "2024-01-01T00:00:00Z";
     Communication.from_number := "+1234567890";
     Communication.to_number := "+1-555-0100";
     Communication.user_id := None;
     Communication.department_id := Some "vehicle_transport";
     Communication.type := "sms"; Communication.content := "where is my delivery";
     Communication.status := "active"; Communication.duration := None |}.

Lemma communications_have_department_witness :
  In delivery_sms (communications (execute one_sms empty_store))
  /\ exists d, Communication.department_id delivery_sms = Some d /\ d <> "".
Proof.
assert (Hin : In delivery_sms (communications (execute one_sms empty_store)))
  by (left; reflexivity).
split; [exact Hin|].
exact (Classified.communications_have_department one_sms delivery_sms Hin).
Defined.

(** A rule that targets a department outside [repo_configs]. *)
Definition billing_rule : Store :=
  set_routing_rules Directory.demo_sales
    [ {| RoutingRule.id := "r1"; RoutingRule.priority := 1;
         RoutingRule.condition_type := "phone_pattern";
         RoutingRule.condition_value := "BILLING";
         RoutingRule.target_department := "billing";
         RoutingRule.target_user := None; RoutingRule.is_active := true |} ].

Lemma handle_incoming_call_unconfigured_witness :
  exists cmd',
    handle_incoming_call (init billing_rule) "+1234567890" "+1-555-BILLING-01"
      "a question about my invoice" "c-1" "2024-01-01T00:00:00Z"
      "2024-01-01T00:00:01Z" "" = (cmd', Err KeyError)
    /\ exists rec, communications (onetalk cmd') = communications billing_rule ++ [rec]
                   /\ Communication.id rec = "c-1".
Proof.
destruct (proj1 (Commander.handle_incoming_call_unconfigured (init billing_rule)
                   "+1234567890" "+1-555-BILLING-01" "a question about my invoice"
                   "c-1" "2024-01-01T00:00:00Z" "2024-01-01T00:00:01Z" ""
                   (set_communications billing_rule
                      [ {| Communication.id := "c-1";
                           Communication.timestamp := "2024-01-01T00:00:00Z";
                           Communication.from_number := "+1234567890";
                           Communication.to_number := "+1-555-BILLING-01";
                           Communication.user_id := None;
                           Communication.department_id := Some "billing";
                           Communication.type := "call";
                           Communication.content := "a question about my invoice";
                           Communication.status := "active";
                           Communication.duration := None |} ])
                   {| communication_id := "c-1"; assigned_user := None;
                      c_department := Some "billing"; routing_method := "rules" |}
                   eq_refl eq_refl))
  as (cmd' & Hcall & Hst & Hrec & _).
exists cmd'. split; [exact Hcall|]. rewrite Hst. exact Hrec.
Defined.

Lemma handle_incoming_call_returns_witness :
  exists cmd' r cfg,
    handle_incoming_call (init Directory.demo_sales) "+1234567890" "+1-555-0100"
      "I want to buy a car" "c-1" "2024-01-01T00:00:00Z" "2024-01-01T00:00:01Z"
      "ok" = (cmd', Ok r)
    /\ config_of (init Directory.demo_sales) (h_department r) = Some cfg
    /\ h_phone_numbers r = DeptConfig.phone_numbers cfg.
Proof.
destruct (Commander.handle_incoming_call_returns (init Directory.demo_sales)
            "+1234567890" "+1-555-0100" "I want to buy a car" "c-1"
            "2024-01-01T00:00:00Z" "2024-01-01T00:00:01Z" "ok")
  as (cmd' & r & cfg & Hcall & _ & Hcfg & Hphones & _).
- intros r [].
- intros c [].
- intros d [<-|[<-|[<-|[<-|[]]]]]; discriminate.
- intros c [].
- exists cmd', r, cfg. auto.
Defined.

Lemma setup_emergency_escalation_inert_witness :
  exists cmd' msg st1 res st2,
    setup_emergency_escalation (init RoutingRules.credit_then_sales) "sales" None "r3"
    = (cmd', Ok msg)
    /\ classify_incoming_communication RoutingRules.credit_then_sales
         "+1-555-EMERGENCY" "+1-555-SUPPORT-01" "call" "EMERGENCY: truck broke down"
         "c-1" "2024-01-01T00:00:00Z" = Returned (st1, res)
    /\ classify_incoming_communication (onetalk cmd')
         "+1-555-EMERGENCY" "+1-555-SUPPORT-01" "call" "EMERGENCY: truck broke down"
         "c-1" "2024-01-01T00:00:00Z" = Returned (st2, res).
Proof.
assert (Hsetup : exists cmd' msg,
          setup_emergency_escalation (init RoutingRules.credit_then_sales) "sales"
            None "r3" = (cmd', Ok msg)).
{ eexists _, _. vm_compute. reflexivity. }
destruct Hsetup as (cmd' & msg & Hsetup).
assert (Hclass : exists st1 res,
          classify_incoming_communication RoutingRules.credit_then_sales
            "+1-555-EMERGENCY" "+1-555-SUPPORT-01" "call" "EMERGENCY: truck broke down"
            "c-1" "2024-01-01T00:00:00Z" = Returned (st1, res)).
{ eexists _, _. vm_compute. reflexivity. }
destruct Hclass as (st1 & res & Hclass).
destruct (CommanderSetup.setup_emergency_escalation_inert _ _ _ _ _ _ Hsetup
            _ _ _ _ _ _ _ _ Hclass) as (st2 & Hsame).
exists cmd', msg, st1, res, st2. auto.
Defined.

End Examples.

(** ** Eligibility of users *)

Module Eligibility.
Import OneTalkSystem DirectoryFacts ClassifiedFacts.

Lemma preferred_found (st : Store) (department : option string) (uid : string) :
  uid <> "" -> preferred_ok st department uid ->
  find_available_user st department (Some uid) = Some uid.
Proof.
intros Hne Hok.
destruct (find_available_user_cases st department (Some uid))
  as [(p & Hp & _ & _ & Hres)|[Hno _]].
- now inversion Hp; subst p.
- exfalso. apply (Hno uid eq_refl); [|exact Hok].
  unfold Py.truthy. now apply negb_true_iff, String.eqb_neq.
Qed.

(** X22: [update_user_status] decides whether a user can be assigned:
    once set to [available], a user that exists in a department is
    returned by [find_available_user] when preferred for that
    department; once set to any other status, the user is not returned
    for any department or preference. *)
Theorem update_user_status_controls_eligibility
    (st : Store) (user_id status : string) :
  user_id <> "" ->
  (status = "available" ->
   forall u, In u (users st) -> User.id u = user_id ->
     find_available_user (update_user_status st (Some user_id) status)
       (Some (User.department u)) (Some user_id) = Some user_id)
  /\ (status <> "available" ->
      forall department preferred_user,
        find_available_user (update_user_status st (Some user_id) status)
          department preferred_user <> Some user_id).
Proof.
intros Hne. split.
- intros -> u Hu Hid. apply preferred_found; [exact Hne|].
  exists {| User.id := User.id u; User.name := User.name u;
            User.department := User.department u;
            User.phone_number := User.phone_number u;
            User.role := User.role u; User.status := "available" |}.
  simpl. repeat split; auto.
  apply in_map_iff. exists u. split; [|exact Hu].
  unfold Sql.eq_null. now rewrite Hid, String.eqb_refl.
- intros Hstatus department preferred_user Hfind.
  apply find_available_user_row in Hfind.
  destruct Hfind as (u & Hu & Hid & Hs).
  simpl in Hu. apply in_map_iff in Hu. destruct Hu as (u0 & Hu0 & _). subst u.
  unfold Sql.eq_null in *.
  destruct (String.eqb_spec (User.id u0) user_id) as [E|E]; simpl in *.
  + now apply Hstatus.
  + contradiction.
Qed.

Section AddUser.
Context `{Py.CaseOps}.

(** X23: a user that [add_user] has just added, or added again, is
    returned by [find_available_user] when preferred for the department
    given, whatever the status of an earlier row with the same id. *)
Theorem add_user_makes_user_eligible
    (st : Store) (user_id name department : string)
    (phone_number : option string) (role : string) :
  user_id <> "" ->
  find_available_user (fst (add_user st user_id name department phone_number role))
    (Some department) (Some user_id) = Some user_id.
Proof.
intros Hne. apply preferred_found; [exact Hne|].
exists {| User.id := user_id; User.name := name; User.department := department;
          User.phone_number := phone_number; User.role := role;
          User.status := "available" |}.
simpl. repeat split; auto.
unfold add_user. cbn [fst]. rewrite Directory.users_update_department_membership.
simpl. apply in_or_app. right. now left.
Qed.

End AddUser.

End Eligibility.

(** ** Ids of the daily statistics *)

Module StatsKeysFacts.
Import OneTalkSystem OneTalkPhoneManager Sequential System UsageFacts.

(** A date as [strftime('%Y-%m-%d')] writes it holds no underscore. *)
Fixpoint no_underscore (s : string) : bool :=
  match s with
  | EmptyString => true
  | String c rest => negb (Ascii.eqb c "_") && no_underscore rest
  end.

Lemma no_underscore_app (p d : string) :
  no_underscore (p ++ String "_" d) = false.
Proof.
induction p as [|c p IH]; simpl; [reflexivity|].
rewrite IH. apply andb_false_r.
Qed.

(** The id [f"{phone_number}_{today}"] determines the phone and the day. *)
Lemma stats_id_injective (p1 p2 d1 d2 : string) :
  no_underscore d1 = true -> no_underscore d2 = true ->
  (p1 ++ "_" ++ d1 = p2 ++ "_" ++ d2)%string -> p1 = p2 /\ d1 = d2.
Proof.
revert p2. induction p1 as [|c1 p1 IH]; intros [|c2 p2] Hd1 Hd2; simpl; intros Heq.
- inversion Heq. now split.
- inversion Heq as [[Hc Hd]]. subst d1.
  change (no_underscore (p2 ++ String "_" d2) = true) in Hd1.
  rewrite no_underscore_app in Hd1. discriminate.
- inversion Heq as [[Hc Hd]]. subst d2.
  change (no_underscore (p1 ++ String "_" d1) = true) in Hd2.
  rewrite no_underscore_app in Hd2. discriminate.
- inversion Heq as [[Hc Hrest]].
  destruct (IH p2 Hd1 Hd2 Hrest) as [-> ->]. now split.
Qed.

Definition well_keyed (st : Store) : Prop :=
  forall s, In s (phone_stats st) ->
    PhoneStats.id s = (PhoneStats.phone_number s ++ "_" ++ PhoneStats.date s)%string
    /\ no_underscore (PhoneStats.date s) = true.

Lemma well_keyed_own (st : Store) (n today : string) :
  well_keyed st -> no_underscore today = true -> id_is_own st n today.
Proof.
intros Hst Htoday s Hs Hid.
destruct (Hst s Hs) as [Hkey Hdate]. rewrite Hkey in Hid.
now apply stats_id_injective.
Qed.

(** The local date a call of a method reads, if it writes statistics. *)
Definition dated (c : method_call) : Prop :=
  match c with
  | CallPhoneManager (RegisterPhone _ _ _ _ _ _ _ today) => no_underscore today = true
  | CallPhoneManager (RouteCall _ _ _ _ _ today) => no_underscore today = true
  | CallPhoneManager (IncrementUsage _ _ today) => no_underscore today = true
  | _ => True
  end.

Lemma well_keyed_same (st st' : Store) :
  phone_stats st' = phone_stats st -> well_keyed st -> well_keyed st'.
Proof. unfold well_keyed. now intros ->. Qed.

Lemma well_keyed_insert (st : Store) (n today : string) :
  no_underscore today = true -> well_keyed st ->
  well_keyed (insert_or_ignore_stats st n today).
Proof.
intros Htoday Hst. unfold insert_or_ignore_stats.
destruct (existsb _ (phone_stats st)); [exact Hst|].
intros s Hs. simpl in Hs. apply in_app_or in Hs.
destruct Hs as [Hs|[<-|[]]]; [now apply Hst|]. simpl. now split.
Qed.

Lemma well_keyed_update (st : Store) (f : PhoneStats.row -> PhoneStats.row) :
  (forall s, PhoneStats.id (f s) = PhoneStats.id s
             /\ PhoneStats.phone_number (f s) = PhoneStats.phone_number s
             /\ PhoneStats.date (f s) = PhoneStats.date s) ->
  well_keyed st -> well_keyed (set_phone_stats st (map f (phone_stats st))).
Proof.
intros Hf Hst s Hs. simpl in Hs. apply in_map_iff in Hs.
destruct Hs as (s0 & <- & Hs0). destruct (Hf s0) as (-> & -> & ->). now apply Hst.
Qed.

Lemma well_keyed_increment (st : Store) (n usage_type today : string) :
  no_underscore today = true -> well_keyed st ->
  well_keyed (increment_phone_usage st n usage_type today).
Proof.
intros Htoday Hst. unfold increment_phone_usage.
assert (H1 : well_keyed
               (if String.eqb usage_type "call"
                then set_phone_numbers st
                       (map (fun p => if String.eqb (PhoneNumber.phone_number p) n
                                      then set_current_calls p
                                             (PhoneNumber.current_calls p + 1)
                                      else p)
                            (phone_numbers st))
                else st)).
{ destruct (String.eqb usage_type "call"); exact Hst. }
destruct (String.eqb usage_type "call").
- apply (well_keyed_update _
           (fun s => if stats_of (Some n) today s
                     then set_counters s (PhoneStats.total_calls s + 1)
                            (PhoneStats.total_sms s) (PhoneStats.total_duration s)
                     else s)).
  + intros s. now destruct (stats_of _ _ s).
  + now apply well_keyed_insert.
- destruct (String.eqb usage_type "sms"); [|exact H1].
  apply (well_keyed_update _
           (fun s => if stats_of (Some n) today s
                     then set_counters s (PhoneStats.total_calls s)
                            (PhoneStats.total_sms s + 1) (PhoneStats.total_duration s)
                     else s)).
  + intros s. now destruct (stats_of _ _ s).
  + now apply well_keyed_insert.
Qed.

Section Calls.
Context `{Py.CaseOps}.

Lemma well_keyed_apply_call (st : Store) (c : method_call) :
  dated c -> well_keyed st -> well_keyed (apply_call st c).
Proof.
intros Hc Hst.
destruct c as [? ? ? ? ?|? ? ? ?|f t m content cid ts|? ?|? ? ? ? ? ?|? ?|op];
  cbn [apply_call].
- apply (well_keyed_same st); [|exact Hst].
  unfold add_user, update_department_membership. cbn [fst]. now destruct (find _ _).
- exact Hst.
- apply (well_keyed_same st); [|exact Hst].
  rewrite ClassifiedFacts.classify_eq.
  destruct (existsb _ (communications st)); [reflexivity|].
  cbv beta iota zeta. unfold route_communication.
  now destruct (String.eqb m "call").
- exact Hst.
- apply (well_keyed_same st); [|exact Hst].
  unfold add_routing_rule. now destruct (existsb _ _).
- apply (well_keyed_same st); [|exact Hst].
  unfold assign_phone_to_department. now destruct (0 <? _).
- destruct op as [n dept user ty prio mx pid today
                 |from_number to_number hint rid ts today
                 |n usage today
                 |rid d today]; cbn [step]; simpl in Hc.
  + unfold register_phone_number. destruct (negb _); [exact Hst|].
    destruct (existsb _ _); [exact Hst|].
    cbn [fst]. unfold update_phone_stats. now apply well_keyed_insert.
  + now rewrite SequentialFacts.route_incoming_call_raises.
  + now apply well_keyed_increment.
  + unfold end_call. destruct (find _ (call_routing st)) as [r|]; [|exact Hst].
    apply (well_keyed_update
             (set_phone_numbers (set_call_routing st _) _)
             (fun s => if stats_of (CallRouting.routed_to_number r) today s
                       then set_counters s (PhoneStats.total_calls s)
                              (PhoneStats.total_sms s) (PhoneStats.total_duration s + d)
                       else s)).
    * intros s. now destruct (stats_of _ _ s).
    * exact Hst.
Qed.

End Calls.

End StatsKeysFacts.

Module StatsKeys.
Import OneTalkSystem OneTalkPhoneManager Sequential System UsageFacts StatsKeysFacts.

Section Calls.
Context `{Py.CaseOps}.

(** X24: when every date handed to the phone manager is free of
    underscores, as the dates of [strftime('%Y-%m-%d')] are, then in
    every state reached from the empty store each stats row has the id
    made of its phone number, an underscore and its date, and the id of
    a phone and a day is held by no row of another phone or day: no
    usage is lost to a clash of ids. *)
Theorem stats_ids_do_not_clash (calls : list method_call) :
  Forall dated calls ->
  (forall s, In s (phone_stats (execute calls empty_store)) ->
     PhoneStats.id s = (PhoneStats.phone_number s ++ "_" ++ PhoneStats.date s)%string)
  /\ forall phone_number today,
       no_underscore today = true ->
       id_is_own (execute calls empty_store) phone_number today.
Proof.
intros Hdated.
assert (Hgen : forall st, well_keyed st -> well_keyed (execute calls st)).
{ induction Hdated as [|c calls Hc Hcalls IH]; simpl; intros st Hst; [exact Hst|].
  apply IH. now apply well_keyed_apply_call. }
assert (Hwk : well_keyed (execute calls empty_store)) by (apply Hgen; intros s []).
split.
- intros s Hs. now apply Hwk.
- intros n today Htoday. now apply well_keyed_own.
Qed.

End Calls.

End StatsKeys.

(** ** The department status report *)

Module StatusReportFacts.
Import OneTalkSystem OneTalkPhoneManager Sequential System SchemaFacts.

(** All entries of a report, across its keys. *)
Definition listed (report : list (string * list user_status)) : list user_status :=
  List.concat (map snd report).

(** [e] stands under the key [k] of the report. *)
Definition under (report : list (string * list user_status)) (k : string)
    (e : user_status) : Prop :=
  exists entries, In (k, entries) report /\ In e entries.

(** Every user's department has a row in [departments]. *)
Definition users_have_department (st : Store) : Prop :=
  incl (map User.department (users st)) (map Department.id (departments st)).

Definition group (rows : list (User.row * Department.row))
    (acc : list (string * list user_status)) : list (string * list user_status) :=
  fold_left
    (fun status_report r =>
       report_add (Department.name (snd r)) (status_entry (fst r)) status_report)
    rows acc.

Lemma report_add_listed (k : string) (e : user_status)
    (r : list (string * list user_status)) :
  Permutation (listed (report_add k e r)) (listed r ++ [e]).
Proof.
unfold listed. induction r as [|[k' v] rest IH]; cbn [report_add]; [reflexivity|].
destruct (String.eqb k' k); cbn [map List.concat snd].
- rewrite <- !app_assoc. apply Permutation_app_head. apply Permutation_app_comm.
- rewrite <- app_assoc. apply Permutation_app_head. exact IH.
Qed.

Lemma group_listed (rows : list (User.row * Department.row))
    (acc : list (string * list user_status)) :
  Permutation (listed (group rows acc))
              (listed acc ++ map (fun r => status_entry (fst r)) rows).
Proof.
revert acc. induction rows as [|r rows IH]; intros acc; cbn [group fold_left map].
- now rewrite app_nil_r.
- fold (group rows (report_add (Department.name (snd r)) (status_entry (fst r)) acc)).
  rewrite IH, report_add_listed, <- app_assoc. reflexivity.
Qed.

Lemma report_add_under (k : string) (e : user_status)
    (r : list (string * list user_status)) (k' : string) (x : user_status) :
  under (report_add k e r) k' x -> under r k' x \/ (k' = k /\ x = e).
Proof.
unfold under. induction r as [|[k0 v] rest IH]; cbn [report_add].
- intros (es & [Heq|[]] & Hx). inversion Heq; subst.
  destruct Hx as [<-|[]]. now right.
- destruct (String.eqb k0 k) eqn:Hk.
  + apply String.eqb_eq in Hk. subst k0.
    intros (es & [Heq|Hin] & Hx).
    * inversion Heq; subst. apply in_app_or in Hx. destruct Hx as [Hx|[<-|[]]].
      -- left. exists v. split; [now left|exact Hx].
      -- now right.
    * left. exists es. split; [now right|exact Hx].
  + intros (es & [Heq|Hin] & Hx).
    * left. exists es. split; [now left|exact Hx].
    * destruct IH as [(es' & Hes' & Hx')|Hnew]; [now exists es| |now right].
      left. exists es'. split; [now right|exact Hx'].
Qed.

Lemma group_under (rows : list (User.row * Department.row))
    (acc : list (string * list user_status)) (k : string) (x : user_status) :
  under (group rows acc) k x ->
  under acc k x
  \/ exists r, In r rows /\ Department.name (snd r) = k /\ x = status_entry (fst r).
Proof.
revert acc. induction rows as [|r rows IH]; intros acc; cbn [group fold_left].
- now left.
- fold (group rows (report_add (Department.name (snd r)) (status_entry (fst r)) acc)).
  intros Hu. apply IH in Hu. destruct Hu as [Hu|(r' & Hin & Hk & Hx)].
  + apply report_add_under in Hu. destruct Hu as [Hu|[Hk Hx]]; [now left|].
    right. exists r. split; [now left|]. now split.
  + right. exists r'. split; [now right|]. now split.
Qed.

(** The keys of the dict stay distinct. *)
Lemma report_add_keys (k : string) (e : user_status)
    (r : list (string * list user_status)) :
  map fst (report_add k e r) = map fst r
  \/ (~ In k (map fst r) /\ map fst (report_add k e r) = map fst r ++ [k]).
Proof.
induction r as [|[k0 v] rest IH]; cbn [report_add map fst].
- right. split; [intros []|reflexivity].
- destruct (String.eqb k0 k) eqn:Hk; [now left|].
  apply String.eqb_neq in Hk. cbn [map fst].
  destruct IH as [->|[Hnot ->]]; [now left|].
  right. split; [|reflexivity]. intros [Heq|Hin]; [now apply Hk|now apply Hnot].
Qed.

Lemma group_keys (rows : list (User.row * Department.row))
    (acc : list (string * list user_status)) :
  NoDup (map fst acc) -> NoDup (map fst (group rows acc)).
Proof.
revert acc. induction rows as [|r rows IH]; intros acc Hacc; cbn [group fold_left];
  [exact Hacc|].
apply IH.
destruct (report_add_keys (Department.name (snd r)) (status_entry (fst r)) acc)
  as [->|[Hnot ->]]; [exact Hacc|].
apply (Permutation_NoDup (l := Department.name (snd r) :: map fst acc)).
- apply Permutation_cons_append.
- now constructor.
Qed.

End StatusReportFacts.

Module StatusReportStates.
Import OneTalkSystem OneTalkPhoneManager Sequential System SchemaFacts StatusReportFacts.

Lemma filter_unique_key (l : list Department.row) (k : string) :
  unique_on Department.id l -> In k (map Department.id l) ->
  exists d, filter (fun d => String.eqb k (Department.id d)) l = [d].
Proof.
unfold unique_on. induction l as [|x l IH]; cbn [map filter]; intros Hl Hk; [destruct Hk|].
inversion Hl as [|? ? Hx Hl']; subst.
destruct (String.eqb k (Department.id x)) eqn:Hkx.
- apply String.eqb_eq in Hkx. subst k. exists x. f_equal.
  apply LinesFacts.filter_none.
  intros y Hy. apply String.eqb_neq. intros Heq. apply Hx. rewrite Heq. now apply in_map.
- apply String.eqb_neq in Hkx. destruct Hk as [Hk|Hk]; [now symmetry in Hk|].
  now apply IH.
Qed.

Lemma join_fst (ds : list Department.row) (us : list User.row) :
  unique_on Department.id ds ->
  incl (map User.department us) (map Department.id ds) ->
  map fst
    (flat_map
       (fun u => map (fun d => (u, d))
                     (filter (fun d => String.eqb (User.department u) (Department.id d)) ds))
       us)
  = us.
Proof.
intros Hds. induction us as [|u us IH]; cbn [flat_map map]; intros Hus; [reflexivity|].
rewrite map_app, IH by (intros k Hk; apply Hus; now right).
destruct (filter_unique_key ds (User.department u) Hds) as [d ->];
  [apply Hus; now left|reflexivity].
Qed.

Lemma filter_fst {A B : Type} (P : A -> bool) (l : list (A * B)) :
  map fst (filter (fun r => P (fst r)) l) = filter P (map fst l).
Proof.
induction l as [|x l IH]; cbn [filter map]; [reflexivity|].
destruct (P (fst x)); cbn [map]; now rewrite IH.
Qed.

Lemma in_join (st : Store) (r : User.row * Department.row) :
  In r (users_with_department st) ->
  In (fst r) (users st) /\ In (snd r) (departments st)
  /\ User.department (fst r) = Department.id (snd r).
Proof.
unfold users_with_department. intros Hr. apply in_flat_map in Hr.
destruct Hr as (u & Hu & Hr). apply in_map_iff in Hr. destruct Hr as (d & <- & Hd).
apply filter_In in Hd. destruct Hd as [Hd Heq]. apply String.eqb_eq in Heq.
cbn [fst snd]. auto.
Qed.

Section Calls.
Context `{Py.CaseOps}.

Lemma have_department_same (st st' : Store) :
  map User.department (users st') = map User.department (users st) ->
  departments st' = departments st ->
  users_have_department st -> users_have_department st'.
Proof. unfold users_have_department. now intros -> ->. Qed.

Lemma create_department_ids (st : Store) (dept_id name : string)
    (lead_user_id : option string) (phone_numbers : option (list string)) (k : string) :
  In k (map Department.id (departments st)) \/ k = dept_id ->
  In k (map Department.id
          (departments (fst (create_department st dept_id name lead_user_id
                               phone_numbers)))).
Proof.
unfold create_department. cbn [fst]. simpl departments. rewrite map_app, in_app_iff.
destruct (String.eqb k dept_id) eqn:Hk.
- apply String.eqb_eq in Hk. subst k. intros _. right. now left.
- apply String.eqb_neq in Hk. intros [Hin|Heq]; [|contradiction]. left.
  apply in_map_iff in Hin. destruct Hin as (d & <- & Hd).
  apply in_map. apply filter_In. split; [exact Hd|].
  apply negb_true_iff. now apply String.eqb_neq.
Qed.

Lemma update_user_status_departments (st : Store) (user_id : option string)
    (status : string) :
  map User.department (users (update_user_status st user_id status))
  = map User.department (users st).
Proof.
unfold update_user_status. simpl users. rewrite map_map. apply map_ext.
intros u. cbv beta.
match goal with |- context [if ?c then _ else _] => now destruct c end.
Qed.

Lemma have_department_apply_call (st : Store) (c : method_call) :
  users_have_department st -> users_have_department (apply_call st c).
Proof.
intros Hst.
destruct c as [uid name dep phone role|dept_id name lead phones
              |f t m content cid ts|uid status|? ? ? ? ? ?|? ?|op];
  cbn [apply_call].
- unfold users_have_department, add_user. cbn [fst].
  rewrite Directory.users_update_department_membership. simpl users.
  intros k Hk. rewrite map_app in Hk. apply in_app_or in Hk.
  unfold update_department_membership.
  destruct (find _ (departments (set_users st _))) as [d|] eqn:Hfind.
  + simpl departments. destruct Hk as [Hk|[<-|[]]].
    * apply Hst. apply in_map_iff in Hk. destruct Hk as (u & <- & Hu).
      apply filter_In in Hu. apply in_map. tauto.
    * apply find_some in Hfind. destruct Hfind as [Hd Heq].
      apply String.eqb_eq in Heq. simpl in Heq, Hd. cbn [User.department].
      rewrite <- Heq. now apply in_map.
  + apply create_department_ids. simpl departments. destruct Hk as [Hk|[<-|[]]].
    * left. apply Hst. apply in_map_iff in Hk. destruct Hk as (u & <- & Hu).
      apply filter_In in Hu. apply in_map. tauto.
    * now right.
- unfold users_have_department. intros k Hk.
  apply create_department_ids. left. now apply Hst.
- apply (have_department_same st); [| |exact Hst];
    rewrite ClassifiedFacts.classify_eq;
    destruct (existsb _ (communications st)); try reflexivity;
    cbv beta iota zeta; unfold route_communication;
    destruct (String.eqb m "call"); try reflexivity.
  now rewrite update_user_status_departments.
- apply (have_department_same st); [|reflexivity|exact Hst].
  apply update_user_status_departments.
- apply (have_department_same st); [| |exact Hst];
    unfold add_routing_rule; now destruct (existsb _ _).
- apply (have_department_same st); [| |exact Hst];
    unfold assign_phone_to_department; now destruct (0 <? _).
- destruct op as [n dept user ty prio mx pid today
                 |from_number to_number hint rid ts today
                 |n usage today
                 |rid d today]; cbn [step].
  + apply (have_department_same st); [| |exact Hst];
      unfold register_phone_number; destruct (negb _); try reflexivity;
      destruct (existsb _ _); try reflexivity;
      cbn [fst]; unfold update_phone_stats, insert_or_ignore_stats;
      now destruct (existsb _ _).
  + now rewrite SequentialFacts.route_incoming_call_raises.
  + apply (have_department_same st); [| |exact Hst].
    * now rewrite (proj1 (RoutingFacts.increment_frame _ _ _ _)).
    * now rewrite (proj1 (proj2 (RoutingFacts.increment_frame _ _ _ _))).
  + apply (have_department_same st); [| |exact Hst];
      unfold end_call; now destruct (find _ (call_routing st)).
Qed.

End Calls.

End StatusReportStates.

Module StatusReport.
Import OneTalkSystem OneTalkPhoneManager Sequential System SchemaFacts.
Import StatusReportFacts StatusReportStates.

Section Calls.
Context `{Py.CaseOps}.

Lemma reachable (calls : list method_call) :
  schema_ok (execute calls empty_store)
  /\ users_have_department (execute calls empty_store).
Proof.
assert (Hgen : forall st, schema_ok st /\ users_have_department st ->
                 schema_ok (execute calls st)
                 /\ users_have_department (execute calls st)).
{ induction calls as [|c calls IH]; cbn [execute fold_left]; intros st Hst; [exact Hst|].
  apply IH. split.
  - now apply Schema.schema_apply_call.
  - now apply have_department_apply_call. }
apply Hgen. split.
- constructor; simpl; constructor.
- intros k [].
Qed.

(** X25: in every state reached from the empty store,
    [get_department_status()] lists every user exactly once, the report
    for one department lists exactly the users of that department, the
    keys of a report are distinct, and an entry stands under the name of
    the department row that its user's [department] column names. *)
Theorem get_department_status_lists_each_user_once (calls : list method_call) :
  let st := execute calls empty_store in
  Permutation (listed (get_department_status st None)) (map status_entry (users st))
  /\ (forall department,
        department <> "" ->
        Permutation (listed (get_department_status st (Some department)))
          (map status_entry
               (filter (fun u => String.eqb (User.department u) department) (users st))))
  /\ (forall department, NoDup (map fst (get_department_status st department)))
  /\ (forall department k e,
        under (get_department_status st department) k e ->
        exists u d,
          In u (users st) /\ In d (departments st)
          /\ User.department u = Department.id d
          /\ Department.name d = k /\ e = status_entry u).
Proof.
intros st. destruct (reachable calls) as [Hschema Hdept]. fold st in Hschema, Hdept.
assert (Hfst : map fst (users_with_department st) = users st).
{ apply join_fst; [apply Hschema|exact Hdept]. }
repeat split.
- unfold get_department_status. cbn [Py.truthy_opt].
  fold (group (Sql.order_by status_before_all (users_with_department st)) []).
  rewrite group_listed. cbn [listed map List.concat app].
  rewrite <- Hfst, map_map. apply Permutation_map. apply SqlFacts.order_by_perm.
- intros department Hne. unfold get_department_status.
  assert (Htruthy : Py.truthy_opt (Some department) = true).
  { cbn [Py.truthy_opt]. unfold Py.truthy. destruct department; [contradiction|reflexivity]. }
  rewrite Htruthy.
  match goal with
  | |- Permutation (listed (fold_left _ ?rows [])) _ => fold (group rows [])
  end.
  rewrite group_listed. cbn [listed map List.concat app].
  rewrite SqlFacts.order_by_perm.
  rewrite <- Hfst, <- (filter_fst (fun u => String.eqb (User.department u) department)).
  rewrite map_map. reflexivity.
- intros department. unfold get_department_status.
  match goal with
  | |- NoDup (map fst (fold_left _ ?rows [])) => fold (group rows [])
  end.
  apply group_keys. constructor.
- intros department k e Hu. unfold get_department_status in Hu.
  match type of Hu with
  | under (fold_left _ ?rows []) _ _ => fold (group rows []) in Hu
  end.
  apply group_under in Hu. destruct Hu as [(es & [] & _)|(r & Hr & Hk & He)].
  assert (Hjoin : In r (users_with_department st)).
  { destruct (Py.truthy_opt department).
    - apply (Permutation_in _ (SqlFacts.order_by_perm _ _)) in Hr.
      apply filter_In in Hr. tauto.
    - now apply (Permutation_in _ (SqlFacts.order_by_perm _ _)) in Hr. }
  apply in_join in Hjoin. destruct Hjoin as (Hu' & Hd' & Heq).
  exists (fst r), (snd r). auto.
Qed.

End Calls.

End StatusReport.

(** ** Further concrete runs *)

Module MoreExamples.
Import OneTalkSystem OneTalkPhoneManager Sequential System.
Import UsageFacts StatsKeysFacts StatusReportFacts.

Definition carol : User.row :=
  {| User.id := "user_003"; User.name := "Carol Davis"; User.department := "support";
     User.phone_number := None; User.role := "member"; User.status := "busy" |}.

Definition carol_busy : Store :=
  update_user_status
    (fst (add_user empty_store "user_003" "Carol Davis" "support" None "member"))
    (Some "user_003") "busy".

Lemma update_user_status_controls_eligibility_witness :
  find_available_user (update_user_status carol_busy (Some "user_003") "available")
    (Some "support") (Some "user_003") = Some "user_003".
Proof.
refine (proj1 (Eligibility.update_user_status_controls_eligibility
                 carol_busy "user_003" "available" _) eq_refl carol _ eq_refl).
- discriminate.
- left. reflexivity.
Defined.

Lemma add_user_makes_user_eligible_witness :
  find_available_user
    (fst (add_user carol_busy "user_003" "Carol Davis" "support" None "member"))
    (Some "support") (Some "user_003") = Some "user_003".
Proof.
apply (Eligibility.add_user_makes_user_eligible
         carol_busy "user_003" "Carol Davis" "support" None "member").
discriminate.
Defined.

Definition two_days : list method_call :=
  [CallPhoneManager
     (RegisterPhone "+1-555-SALES-01" (Some "sales") None "business" 10 1 "uuid-1"
        "2024-01-01");
   CallPhoneManager (IncrementUsage "+1-555-SALES-01" "call" "2024-01-02")].

Lemma stats_ids_do_not_clash_witness :
  id_is_own (execute two_days empty_store) "+1-555-SALES-01" "2024-01-02".
Proof.
refine (proj2 (StatsKeys.stats_ids_do_not_clash two_days _)
          "+1-555-SALES-01" "2024-01-02" _).
- repeat constructor.
- reflexivity.
Defined.

Definition two_departments : list method_call :=
  [CallAddUser "user_001" "Alice Johnson" "sales" None "lead";
   CallAddUser "user_003" "Carol Davis" "support" None "member";
   CallAddUser "user_002" "Bob Smith" "sales" None "member";
   CallUpdateUserStatus "user_002" "busy"].

Lemma get_department_status_lists_each_user_once_witness :
  Permutation
    (listed (get_department_status (execute two_departments empty_store) (Some "sales")))
    (map status_entry
       (filter (fun u => String.eqb (User.department u) "sales")
               (users (execute two_departments empty_store)))).
Proof.
refine (proj1 (proj2 (StatusReport.get_department_status_lists_each_user_once
                        two_departments)) "sales" _).
discriminate.
Defined.

(** The report of that run, as the dict it is. *)
Lemma two_departments_report :
  get_department_status (execute two_departments empty_store) None
  = [("Sales",
      [{| us_user_id := "user_002"; us_name := "Bob Smith";
          us_status := "busy"; us_role := "member" |};
       {| us_user_id := "user_001"; us_name := "Alice Johnson";
          us_status := "available"; us_role := "lead" |}]);
     ("Support",
      [{| us_user_id := "user_003"; us_name := "Carol Davis";
          us_status := "available"; us_role := "member" |}])].
Proof. vm_compute. reflexivity. Qed.

End MoreExamples.

(** ** The system status of the commander *)

Module SystemStatusFacts.
Import OneTalkSystem System SchemaFacts StatusReportFacts StatusReportStates.

Lemma listed_length (report : list (string * list user_status)) :
  list_sum (map (fun kv => List.length (snd kv)) report) = List.length (listed report).
Proof.
unfold listed, list_sum.
induction report as [|[k v] rest IH]; cbn [map fold_right List.concat snd];
  [reflexivity|].
now rewrite length_app, IH.
Qed.

Lemma report_add_nonempty (k : string) (e : user_status)
    (r : list (string * list user_status)) :
  Forall (fun kv => snd kv <> []) r ->
  Forall (fun kv => snd kv <> []) (report_add k e r).
Proof.
induction 1 as [|[k0 v] rest Hv Hrest IH]; cbn [report_add].
- constructor; [discriminate|constructor].
- destruct (String.eqb k0 k).
  + constructor; [|exact Hrest]. cbn [snd]. now destruct v.
  + constructor; [exact Hv|exact IH].
Qed.

Lemma group_nonempty (rows : list (User.row * Department.row))
    (acc : list (string * list user_status)) :
  Forall (fun kv => snd kv <> []) acc ->
  Forall (fun kv => snd kv <> []) (group rows acc).
Proof.
revert acc. induction rows as [|r rows IH]; intros acc Hacc; cbn [group fold_left];
  [exact Hacc|].
apply IH. now apply report_add_nonempty.
Qed.

Lemma all_listed (st : Store) :
  schema_ok st -> users_have_department st ->
  Permutation (listed (get_department_status st None)) (map status_entry (users st)).
Proof.
intros Hschema Hdept. unfold get_department_status. cbn [Py.truthy_opt].
fold (group (Sql.order_by status_before_all (users_with_department st)) []).
rewrite group_listed. cbn [listed map List.concat app].
assert (Hfst : map fst (users_with_department st) = users st)
  by (apply join_fst; [apply Hschema|exact Hdept]).
rewrite <- Hfst, map_map. apply Permutation_map. apply SqlFacts.order_by_perm.
Qed.

End SystemStatusFacts.

Module SystemStatus.
Import OneTalkSystem System OneTalkRepoCommander SchemaFacts.
Import StatusReportFacts StatusReportStates SystemStatusFacts.

Section Calls.
Context `{Py.CaseOps}.

(** X26: for a commander whose store was reached from the empty store,
    [get_system_status] reports as [total_users] the number of rows of
    [users] and as [active_sessions] the number of sessions; over all
    departments it lists every user exactly once; it lists no
    department without users; and each key is the name of a department
    row, so a key that is not a key of [repo_configs] -- which are
    department ids -- is shown with no phone numbers, agent [N/A] and
    the unknown-department answer. *)
Theorem get_system_status_counts_users
    (calls : list method_call) (configs : list (string * DeptConfig.t))
    (sessions : list (string * Session.t)) (timestamp : string)
    (path_exists : string -> bool) :
  let st := execute calls empty_store in
  let cmd := {| onetalk := st; repo_configs := configs; active_sessions := sessions |} in
  let status := get_system_status cmd timestamp path_exists in
  y_total_users status = List.length (users st)
  /\ y_active_sessions status = List.length sessions
  /\ Permutation (List.concat (map (fun kv => d_users (snd kv)) (y_departments status)))
                 (map status_entry (users st))
  /\ NoDup (map fst (y_departments status))
  /\ forall k r,
       In (k, r) (y_departments status) ->
       d_users r <> []
       /\ (exists d, In d (departments st) /\ Department.name d = k)
       /\ (dict_get configs k = None ->
           d_phone_numbers r = [] /\ d_primary_agent r = "N/A"
           /\ d_repo_status r
              = UnknownDepartment ("❌ Unknown department: " ++ k)%string).
Proof.
intros st cmd status.
destruct (StatusReport.reachable calls) as [Hschema Hdept]. fold st in Hschema, Hdept.
pose proof (all_listed st Hschema Hdept) as Hall.
unfold status, get_system_status.
cbn [y_total_users y_active_sessions y_departments onetalk repo_configs active_sessions cmd].
split; [|split; [|split; [|split]]].
- rewrite listed_length, (Permutation_length Hall). apply length_map.
- reflexivity.
- rewrite map_map. cbn [snd d_users]. exact Hall.
- rewrite map_map. cbn [fst].
  unfold get_department_status. cbn [Py.truthy_opt].
  fold (group (Sql.order_by status_before_all (users_with_department st)) []).
  apply group_keys. constructor.
- intros k r Hin. apply in_map_iff in Hin. destruct Hin as ([k0 es] & Heq & Hin).
  cbn [fst snd] in Heq. inversion Heq; subst k0 r. clear Heq.
  cbn [d_users d_phone_numbers d_primary_agent d_repo_status]. split; [|split].
  + unfold get_department_status in Hin. cbn [Py.truthy_opt] in Hin.
    fold (group (Sql.order_by status_before_all (users_with_department st)) []) in Hin.
    pose proof (group_nonempty
                  (Sql.order_by status_before_all (users_with_department st)) []
                  (Forall_nil _)) as Hne.
    rewrite Forall_forall in Hne. exact (Hne _ Hin).
  + assert (Hne : exists e, In e es).
    { unfold get_department_status in Hin. cbn [Py.truthy_opt] in Hin.
      fold (group (Sql.order_by status_before_all (users_with_department st)) []) in Hin.
      pose proof (group_nonempty
                    (Sql.order_by status_before_all (users_with_department st)) []
                    (Forall_nil _)) as Hne.
      rewrite Forall_forall in Hne. specialize (Hne _ Hin). cbn [snd] in Hne.
      destruct es as [|e es]; [contradiction|]. exists e. now left. }
    destruct Hne as [e He].
    assert (Hu : under (get_department_status st None) k e) by (exists es; auto).
    unfold get_department_status in Hu. cbn [Py.truthy_opt] in Hu.
    fold (group (Sql.order_by status_before_all (users_with_department st)) []) in Hu.
    apply group_under in Hu. destruct Hu as [(? & [] & _)|(row & Hrow & Hk & _)].
    apply (Permutation_in _ (SqlFacts.order_by_perm _ _)) in Hrow.
    apply in_join in Hrow. exists (snd row). tauto.
  + unfold command_status_check. cbn [repo_configs cmd]. intros Hcfg.
    rewrite Hcfg. auto.
Qed.

End Calls.

End SystemStatus.

Module StatusExamples.
Import OneTalkSystem System OneTalkRepoCommander.

Definition staffed : commander :=
  {| onetalk := execute MoreExamples.two_departments empty_store;
     repo_configs := load_repo_configurations;
     active_sessions := [] |}.

(** What the status shows for the department with id [sales]: its key
    is the department's name. *)
Definition sales_report : department_report :=
  {| d_users :=
       [{| us_user_id := "user_002"; us_name := "Bob Smith";
           us_status := "busy"; us_role := "member" |};
        {| us_user_id := "user_001"; us_name := "Alice Johnson";
           us_status := "available"; us_role := "lead" |}];
     d_phone_numbers := [];
     d_repo_status := UnknownDepartment "❌ Unknown department: Sales";
     d_primary_agent := "N/A" |}.

Lemma get_system_status_counts_users_witness :
  y_total_users (get_system_status staffed "2024-01-01T10:00:00" (fun _ => true)) = 3%nat
  /\ In ("Sales", sales_report)
        (y_departments (get_system_status staffed "2024-01-01T10:00:00" (fun _ => true)))
  /\ d_phone_numbers sales_report = [] /\ d_primary_agent sales_report = "N/A"
  /\ d_repo_status sales_report = UnknownDepartment "❌ Unknown department: Sales".
Proof.
assert (Hin : In ("Sales", sales_report)
                (y_departments
                   (get_system_status staffed "2024-01-01T10:00:00" (fun _ => true))))
  by (vm_compute; left; reflexivity).
split; [|split; [exact Hin|]].
- exact (proj1 (SystemStatus.get_system_status_counts_users
                  MoreExamples.two_departments load_repo_configurations []
                  "2024-01-01T10:00:00" (fun _ => true))).
- refine (proj2 (proj2 (proj2 (proj2 (proj2 (proj2
            (SystemStatus.get_system_status_counts_users
               MoreExamples.two_departments load_repo_configurations []
               "2024-01-01T10:00:00" (fun _ => true))))) "Sales" sales_report Hin)) _).
  reflexivity.
Defined.

End StatusExamples.

(** ** What routed calls leave behind *)

Module RoutedCallsFacts.
Import OneTalkSystem OneTalkPhoneManager Sequential SequentialFacts System.

Section Calls.
Context `{Py.CaseOps}.

(** [route_incoming_call] is the only method that inserts into
    [call_routing], and it never commits. *)
Lemma call_routing_apply_call (st : Store) (c : method_call) :
  call_routing st = [] -> call_routing (apply_call st c) = [].
Proof.
intros Hst.
destruct c as [? ? ? ? ?|? ? ? ?|f t m content cid ts|? ?|? ? ? ? ? ?|? ?|op];
  cbn [apply_call].
- unfold add_user, update_department_membership. cbn [fst].
  now destruct (find _ _).
- exact Hst.
- rewrite ClassifiedFacts.classify_eq.
  destruct (existsb _ (communications st)); [exact Hst|].
  cbv beta iota zeta. unfold route_communication.
  now destruct (String.eqb m "call").
- exact Hst.
- unfold add_routing_rule. now destruct (existsb _ _).
- unfold assign_phone_to_department. now destruct (0 <? _).
- destruct op as [n dept user ty prio mx pid today
                 |from_number to_number hint rid ts today
                 |n usage today
                 |rid d today]; cbn [step].
  + unfold register_phone_number. destruct (negb _); [exact Hst|].
    destruct (existsb _ _); [exact Hst|].
    cbn [fst]. unfold update_phone_stats.
    now rewrite RoutingFacts.call_routing_insert_or_ignore_stats.
  + now rewrite route_incoming_call_raises.
  + now rewrite RoutingFacts.call_routing_increment.
  + unfold end_call. now rewrite Hst.
Qed.

End Calls.

End RoutedCallsFacts.

Module RoutedCalls.
Import OneTalkSystem OneTalkPhoneManager Sequential SequentialFacts System.
Import RoutedCallsFacts.

Section Calls.
Context `{Py.CaseOps}.

(** X1: no call is ever recorded.  In every state reached from the
    empty store by the writing methods of the two classes,
    [call_routing] is empty, whatever calls to [route_incoming_call]
    were made; [end_call] then finds no routing row and leaves the
    store as it is, for every route id, duration and day. *)
Theorem end_call_finds_no_route (calls : list method_call) :
  call_routing (execute calls empty_store) = []
  /\ forall route_id duration_seconds today,
       end_call (execute calls empty_store) route_id duration_seconds today
       = execute calls empty_store.
Proof.
assert (Hgen : forall st, call_routing st = [] -> call_routing (execute calls st) = []).
{ induction calls as [|c calls IH]; cbn [execute fold_left]; intros st Hst; [exact Hst|].
  apply IH. now apply call_routing_apply_call. }
assert (Hempty : call_routing (execute calls empty_store) = []) by now apply Hgen.
split; [exact Hempty|].
intros route_id duration_seconds today. unfold end_call. now rewrite Hempty.
Qed.

End Calls.

End RoutedCalls.
